(** * DocuShare storage layer: like toggle, comment counters, relative time

    A shallow embedding of [server/storage.ts] (the [IStorage] interface and
    its two implementations [MemStorage] and [DatabaseStorage]), of the
    tables of [shared/schema.ts], and of the like, comment and activity
    handlers of [server/routes.ts].

    Conventions.
    - JavaScript numbers that hold ids, counters and millisecond timestamps
      are integers here ([Z]); the code never produces a fraction for them
      and the development stays below 2^53, where doubles are exact.  The
      one number that comes from outside is [Number(req.params.id)]: the
      handlers pass it to the store whenever it is not [NaN], so it can be
      any integer, a fraction or an infinity ([Routes.number]).
    - The id and counter columns of the database are [integer], 32 bits: a
      post id from a request that is outside that range, and a counter
      that would leave it, make the statement fail ([Db.int4]).
    - [new Date()] is an explicit argument [now] (milliseconds).
    - A template literal [`${n}`] on an integer is its decimal rendering,
      stdpp's [pretty] on [Z].
    - [async] methods of [MemStorage] never await anything, so each one is a
      single state transformer.  The methods of [DatabaseStorage] await one
      SQL statement after the other; they are embedded as [task]s, sequences
      of atomic statements, which can be run alone or interleaved. *)

From stdpp Require Import base numbers list strings pretty gmap fin_maps.
From Stdlib Require Import Ascii Sorting.Sorted Sorting.Permutation.

Open Scope Z_scope.

(** ** shared/schema.ts *)

Module User.
Record t := mk
  { id : Z; username : string; password : string; fullName : string;
    avatar : option string; role : option string }.
End User.

Module InsertUser.
Record t := mk
  { username : string; password : string; fullName : string;
    avatar : option string; role : option string }.
End InsertUser.

Module Post.
(** [likes] and [comments] are nullable integer columns with default 0. *)
Record t := mk
  { id : Z; title : string; description : string;
    fileName : option string; userId : Z; createdAt : Z;
    likes : option Z; comments : option Z }.
End Post.

Module InsertPost.
Record t := mk
  { title : string; description : string;
    fileName : option string; userId : Z }.
End InsertPost.

Module PostLike.
Record t := mk { postId : Z; userId : Z; createdAt : Z }.
End PostLike.

Module Comment.
Record t := mk
  { id : Z; content : string; postId : Z; userId : Z; createdAt : Z }.
End Comment.

Module InsertComment.
Record t := mk { content : string; postId : Z; userId : Z }.
End InsertComment.

Module Activity.
Record t := mk
  { id : Z; user : User.t; action : string; target : string;
    timeAgo : string }.
End Activity.

(** ** JavaScript helpers *)

(** [s || null] on an optional string: the empty string is falsy. *)
Definition orNull (s : option string) : option string :=
  match s with
  | Some EmptyString => None
  | o => o
  end.

(** [n || 0] on a nullable counter. *)
Definition orZero (n : option Z) : Z := default 0 n.

(** The characters of a decimal rendering. *)
Definition isDigit (c : ascii) : bool :=
  bool_decide (c ∈ ["0"; "1"; "2"; "3"; "4"; "5"; "6"; "7"; "8"; "9"]%char).

Fixpoint allDigits (s : string) : bool :=
  match s with
  | EmptyString => true
  | String c s' => isDigit c && allDigits s'
  end.

(** [`${n} ${n === 1 ? one : many} ago`] *)
Definition agoUnits (n : Z) (one many : string) : string :=
  pretty n +:+ " " +:+ (if bool_decide (n = 1) then one else many) +:+ " ago".

(** The body shared, word for word, by [MemStorage.getTimeAgo] and
    [DatabaseStorage.getTimeAgo].  [Math.floor (x / k)] is [Z.div]. *)
Definition getTimeAgo_body (now date : Z) : string :=
  let diffInSeconds := (now - date) `div` 1000 in
  if bool_decide (diffInSeconds < 60) then
    pretty diffInSeconds +:+ " seconds ago"
  else
    let diffInMinutes := diffInSeconds `div` 60 in
    if bool_decide (diffInMinutes < 60) then
      agoUnits diffInMinutes "minute" "minutes"
    else
      let diffInHours := diffInMinutes `div` 60 in
      if bool_decide (diffInHours < 24) then
        agoUnits diffInHours "hour" "hours"
      else
        let diffInDays := diffInHours `div` 24 in
        if bool_decide (diffInDays < 30) then
          agoUnits diffInDays "day" "days"
        else
          let diffInMonths := diffInDays `div` 30 in
          agoUnits diffInMonths "month" "months".

(** The bucketing as the specification words it, on the elapsed duration
    [d] in seconds: thresholds of one minute, one hour, one day and thirty
    days, and a month of thirty days. *)
Definition timeAgo (d : Z) : string :=
  if bool_decide (d < 60) then pretty d +:+ " seconds ago"
  else if bool_decide (d < 60 * 60) then
    agoUnits (d `div` 60) "minute" "minutes"
  else if bool_decide (d < 24 * (60 * 60)) then
    agoUnits (d `div` (60 * 60)) "hour" "hours"
  else if bool_decide (d < 30 * (24 * (60 * 60))) then
    agoUnits (d `div` (24 * (60 * 60))) "day" "days"
  else
    agoUnits ((d `div` (24 * (60 * 60))) `div` 30) "month" "months".

(** [Array.prototype.sort] is stable: an element moves in front of the
    first one that the comparator puts strictly after it, and elements that
    compare equal keep the order in which they came. *)
Fixpoint jsInsert {A} (cmp : A → A → Z) (x : A) (l : list A) : list A :=
  match l with
  | [] => [x]
  | y :: l' =>
      if bool_decide (cmp x y < 0) then x :: y :: l'
      else y :: jsInsert cmp x l'
  end.

Definition jsSort {A} (cmp : A → A → Z) (l : list A) : list A :=
  foldl (λ acc x, jsInsert cmp x acc) [] l.

(** A [Map] whose iteration order is observed: entries in insertion order;
    [set] on a key that is present replaces the value in place. *)
Fixpoint jsmap_set {V} (k : Z) (v : V) (m : list (Z * V)) : list (Z * V) :=
  match m with
  | [] => [(k, v)]
  | (k', v') :: m' =>
      if bool_decide (k' = k) then (k, v) :: m'
      else (k', v') :: jsmap_set k v m'
  end.

Definition jsmap_values {V} (m : list (Z * V)) : list V := m.*2.

(** ** Results of calls that may throw *)

Inductive outcome (A : Type) : Type :=
  | Ok (a : A)
  | Throw (message : string).
Global Arguments Ok {A} a.
Global Arguments Throw {A} message.

Global Instance outcome_ret : MRet outcome := λ A a, Ok a.
Global Instance outcome_bind : MBind outcome := λ A B f r,
  match r with
  | Ok a => f a
  | Throw e => Throw e
  end.

(** [CommentWithAuthor]: [{ ...comment, author, timeAgo }]. *)
Module CommentWithAuthor.
Record t := mk
  { comment : Comment.t; author : User.t; timeAgo : string }.
Definition createdAt (c : t) : Z := Comment.createdAt (comment c).
End CommentWithAuthor.

(** Two posts that agree on every field but [likes]. *)
Definition sameButLikes (a b : Post.t) : Prop :=
  Post.id a = Post.id b ∧ Post.title a = Post.title b
  ∧ Post.description a = Post.description b
  ∧ Post.fileName a = Post.fileName b ∧ Post.userId a = Post.userId b
  ∧ Post.createdAt a = Post.createdAt b ∧ Post.comments a = Post.comments b.

(** Two posts that agree on every field but [comments]. *)
Definition sameButComments (a b : Post.t) : Prop :=
  Post.id a = Post.id b ∧ Post.title a = Post.title b
  ∧ Post.description a = Post.description b
  ∧ Post.fileName a = Post.fileName b ∧ Post.userId a = Post.userId b
  ∧ Post.createdAt a = Post.createdAt b ∧ Post.likes a = Post.likes b.

(** The counter a toggle writes: one less, not below zero, when the pair
    was liked, one more when it was not; a null counter reads as 0. *)
Definition toggledLikes (liked : bool) (post : Post.t) : option Z :=
  Some (if liked then Z.max 0 (orZero (Post.likes post) - 1)
        else orZero (Post.likes post) + 1).

(** [{ ...post, likes: n }] and [{ ...post, comments: n }] *)
Definition withLikes (n : option Z) (post : Post.t) : Post.t :=
  Post.mk (Post.id post) (Post.title post) (Post.description post)
    (Post.fileName post) (Post.userId post) (Post.createdAt post)
    n (Post.comments post).

Definition withComments (n : option Z) (post : Post.t) : Post.t :=
  Post.mk (Post.id post) (Post.title post) (Post.description post)
    (Post.fileName post) (Post.userId post) (Post.createdAt post)
    (Post.likes post) n.

(** [PostWithAuthor]: [{ ...post, author, timeAgo }]. *)
Module PostWithAuthor.
Record t := mk
  { post : Post.t; author : User.t; timeAgo : string }.
Definition createdAt (p : t) : Z := Post.createdAt (post p).
End PostWithAuthor.

(** ** class MemStorage *)

Module MemStorage.

Record t := mk
  { users : gmap Z User.t;
    posts : gmap Z Post.t;
    activities : list (Z * Activity.t);
    comments : list (Z * Comment.t);
    userCurrentId : Z;
    postCurrentId : Z;
    activityCurrentId : Z;
    commentCurrentId : Z;
    postLikesMap : gmap string bool }.

Definition with_users (f : gmap Z User.t → gmap Z User.t) (s : t) : t :=
  mk (f (users s)) (posts s) (activities s) (comments s) (userCurrentId s)
    (postCurrentId s) (activityCurrentId s) (commentCurrentId s)
    (postLikesMap s).
Definition with_posts (f : gmap Z Post.t → gmap Z Post.t) (s : t) : t :=
  mk (users s) (f (posts s)) (activities s) (comments s) (userCurrentId s)
    (postCurrentId s) (activityCurrentId s) (commentCurrentId s)
    (postLikesMap s).
Definition with_activities
    (f : list (Z * Activity.t) → list (Z * Activity.t)) (s : t) : t :=
  mk (users s) (posts s) (f (activities s)) (comments s) (userCurrentId s)
    (postCurrentId s) (activityCurrentId s) (commentCurrentId s)
    (postLikesMap s).
Definition with_comments
    (f : list (Z * Comment.t) → list (Z * Comment.t)) (s : t) : t :=
  mk (users s) (posts s) (activities s) (f (comments s)) (userCurrentId s)
    (postCurrentId s) (activityCurrentId s) (commentCurrentId s)
    (postLikesMap s).
Definition with_userCurrentId (n : Z) (s : t) : t :=
  mk (users s) (posts s) (activities s) (comments s) n
    (postCurrentId s) (activityCurrentId s) (commentCurrentId s)
    (postLikesMap s).
Definition with_postCurrentId (n : Z) (s : t) : t :=
  mk (users s) (posts s) (activities s) (comments s) (userCurrentId s)
    n (activityCurrentId s) (commentCurrentId s) (postLikesMap s).
Definition with_activityCurrentId (n : Z) (s : t) : t :=
  mk (users s) (posts s) (activities s) (comments s) (userCurrentId s)
    (postCurrentId s) n (commentCurrentId s) (postLikesMap s).
Definition with_commentCurrentId (n : Z) (s : t) : t :=
  mk (users s) (posts s) (activities s) (comments s) (userCurrentId s)
    (postCurrentId s) (activityCurrentId s) n (postLikesMap s).
Definition with_postLikesMap
    (f : gmap string bool → gmap string bool) (s : t) : t :=
  mk (users s) (posts s) (activities s) (comments s) (userCurrentId s)
    (postCurrentId s) (activityCurrentId s) (commentCurrentId s)
    (f (postLikesMap s)).

(** [const id = this.userCurrentId++; ...; this.users.set(id, user)] *)
Definition createUserInternal (userData : InsertUser.t) (s : t)
    : User.t * t :=
  let id := userCurrentId s in
  let s := with_userCurrentId (id + 1) s in
  let user :=
    User.mk id (InsertUser.username userData) (InsertUser.password userData)
      (InsertUser.fullName userData)
      (orNull (InsertUser.avatar userData))
      (orNull (InsertUser.role userData)) in
  (user, with_users (<[id := user]>) s).

(** [postData : Omit<Post, "id">]: the [id] of the argument is not read. *)
Definition createPostInternal (postData : Post.t) (s : t) : Post.t * t :=
  let id := postCurrentId s in
  let s := with_postCurrentId (id + 1) s in
  let post :=
    Post.mk id (Post.title postData) (Post.description postData)
      (Post.fileName postData) (Post.userId postData)
      (Post.createdAt postData) (Post.likes postData)
      (Post.comments postData) in
  (post, with_posts (<[id := post]>) s).

(** [activityData : Omit<Activity, "id">] *)
Definition createActivityInternal (activityData : Activity.t) (s : t)
    : Activity.t * t :=
  let id := activityCurrentId s in
  let s := with_activityCurrentId (id + 1) s in
  let activity :=
    Activity.mk id (Activity.user activityData)
      (Activity.action activityData) (Activity.target activityData)
      (Activity.timeAgo activityData) in
  (activity, with_activities (jsmap_set id activity) s).

Definition initDemoData (now : Z) (s : t) : t :=
  let '(user1, s) := createUserInternal
    (InsertUser.mk "alex.johnson" "password123" "Alex Johnson"
       (Some "https://images.unsplash.com/photo-1599566150163-29194dcaad36")
       (Some "Product Manager")) s in
  let '(user2, s) := createUserInternal
    (InsertUser.mk "emma.thompson" "password123" "Emma Thompson"
       (Some "https://images.unsplash.com/photo-1580489944761-15a19d654956")
       (Some "Marketing Manager")) s in
  let '(user3, s) := createUserInternal
    (InsertUser.mk "marcus.wilson" "password123" "Marcus Wilson"
       (Some "https://images.unsplash.com/photo-1506794778202-cad84cf45f1d")
       (Some "Product Lead")) s in
  let '(_, s) := createPostInternal
    (Post.mk 0 "Q2 2023 Marketing Strategy Document"
       "This comprehensive document outlines our marketing strategy for Q2 2023, including target audiences, campaign timelines, budget allocation, and KPIs. Please review and provide feedback by Friday."
       (Some "Q2_Marketing_Strategy.pdf") (User.id user2)
       (now - 7200000) (Some 24) (Some 8)) s in
  let '(_, s) := createPostInternal
    (Post.mk 0 "Product Roadmap 2023-2024"
       "Here's our updated product roadmap for the next 18 months. I've highlighted the key milestones and dependencies between different product teams."
       (Some "Product_Roadmap_2023_2024.pdf") (User.id user3)
       (now - 86400000) (Some 42) (Some 16)) s in
  let '(_, s) := createActivityInternal
    (Activity.mk 0 user2 "commented on" "Q2 Marketing Strategy"
       "10 minutes ago") s in
  let '(_, s) := createActivityInternal
    (Activity.mk 0 user3 "uploaded" "Design Assets.zip"
       "45 minutes ago") s in
  let '(_, s) := createActivityInternal
    (Activity.mk 0 user1 "created" "Team Meeting Notes" "2 hours ago") s in
  s.

(** The constructor; the field initialiser of [postLikesMap] runs before
    its body. *)
Definition constructor (now : Z) : t :=
  initDemoData now (mk ∅ ∅ [] [] 1 1 1 1 ∅).

Definition getTimeAgo (now date : Z) : string := getTimeAgo_body now date.

Definition getUserById (id : Z) (s : t) : option User.t := users s !! id.

Definition createUser (userData : InsertUser.t) (s : t) : User.t * t :=
  createUserInternal userData s.

Definition createPost (now : Z) (postData : InsertPost.t) (s : t)
    : Post.t * t :=
  createPostInternal
    (Post.mk 0 (InsertPost.title postData) (InsertPost.description postData)
       (orNull (InsertPost.fileName postData)) (InsertPost.userId postData)
       now (Some 0) (Some 0)) s.

(** [`${postId}-${userId}`] *)
Definition likeKey (postId userId : Z) : string :=
  pretty postId +:+ "-" +:+ pretty userId.

Definition hasUserLikedPost (postId userId : Z) (s : t) : bool :=
  let key := likeKey postId userId in
  bool_decide (is_Some (postLikesMap s !! key)).

Definition likePost (id userId : Z) (s : t) : option Post.t * t :=
  match posts s !! id with
  | None => (None, s)
  | Some post =>
      let key := likeKey id userId in
      if bool_decide (is_Some (postLikesMap s !! key)) then
        let s := with_postLikesMap (delete key) s in
        let currentLikes := orZero (Post.likes post) in
        let updatedPost :=
          withLikes (Some (Z.max 0 (currentLikes - 1))) post in
        (Some updatedPost, with_posts (<[id := updatedPost]>) s)
      else
        let s := with_postLikesMap (<[key := true]>) s in
        let currentLikes := orZero (Post.likes post) in
        let updatedPost := withLikes (Some (currentLikes + 1)) post in
        (Some updatedPost, with_posts (<[id := updatedPost]>) s)
  end.

(** The callback of [.map] in [getCommentsByPostId]. *)
Definition withAuthor (now : Z) (s : t) (comment : Comment.t)
    : outcome CommentWithAuthor.t :=
  match users s !! Comment.userId comment with
  | None =>
      Throw ("User with ID " +:+ pretty (Comment.userId comment)
             +:+ " not found")
  | Some author =>
      Ok (CommentWithAuthor.mk comment author
            (getTimeAgo now (Comment.createdAt comment)))
  end.

Definition getCommentsByPostId (now : Z) (postId : Z) (s : t)
    : outcome (list CommentWithAuthor.t) :=
  mapM (withAuthor now s)
    (jsSort (λ a b, Comment.createdAt b - Comment.createdAt a)
       (filter (λ comment, Comment.postId comment = postId)
          (jsmap_values (comments s)))).

Definition createComment (now : Z) (commentData : InsertComment.t) (s : t)
    : Comment.t * t :=
  let id := commentCurrentId s in
  let s := with_commentCurrentId (id + 1) s in
  let comment :=
    Comment.mk id (InsertComment.content commentData)
      (InsertComment.postId commentData) (InsertComment.userId commentData)
      now in
  let s := with_comments (jsmap_set id comment) s in
  let s :=
    match posts s !! InsertComment.postId commentData with
    | Some post =>
        let currentComments := orZero (Post.comments post) in
        let updatedPost := withComments (Some (currentComments + 1)) post in
        with_posts (<[InsertComment.postId commentData := updatedPost]>) s
    | None => s
    end in
  (comment, s).

Definition getRecentActivities (s : t) : list Activity.t :=
  jsmap_values (activities s).

(** The entries of [postLikesMap] for a post: the keys that start with
    [`${postId}-`]; their number is the number of users who like it. *)
Definition ofPost (postId : Z) (kv : string * bool) : Prop :=
  Is_true (String.prefix (pretty postId +:+ "-") kv.1).

Definition likesOf (postId : Z) (s : t) : gmap string bool :=
  filter (ofPost postId) (postLikesMap s).

Definition likeCount (postId : Z) (s : t) : Z :=
  Z.of_nat (size (likesOf postId s)).

(** The states a running store can be in: the constructor's, then any
    sequence of calls of the public methods that write. *)
Inductive reachable : t → Prop :=
  | reach_constructor now : reachable (constructor now)
  | reach_createUser userData s :
      reachable s → reachable (createUser userData s).2
  | reach_createPost now postData s :
      reachable s → reachable (createPost now postData s).2
  | reach_likePost id userId s :
      reachable s → reachable (likePost id userId s).2
  | reach_createComment now commentData s :
      reachable s → reachable (createComment now commentData s).2.

(** What holds of every reachable state: posts sit under their own id,
    below the next id, with a counter that is a number not below the
    number of likers; a like key belongs to a stored post; comments sit
    under their own id, below the next id. *)
Definition invariant (s : t) : Prop :=
  (∀ id post, posts s !! id = Some post →
     Post.id post = id ∧ id < postCurrentId s
     ∧ ∃ n, Post.likes post = Some n ∧ likeCount id s ≤ n)
  ∧ (∀ key, is_Some (postLikesMap s !! key) →
       postLikesMap s !! key = Some true
       ∧ ∃ id userId, key = likeKey id userId ∧ is_Some (posts s !! id))
  ∧ (∀ id comment, (id, comment) ∈ comments s →
       Comment.id comment = id ∧ id < commentCurrentId s).

(** *** The other methods, and sequences of calls *)

Definition getPost (now : Z) (id : Z) (s : t)
    : outcome (option PostWithAuthor.t) :=
  match posts s !! id with
  | None => Ok None
  | Some post =>
      match users s !! Post.userId post with
      | None =>
          Throw ("User with ID " +:+ pretty (Post.userId post)
                 +:+ " not found")
      | Some author =>
          Ok (Some (PostWithAuthor.mk post author
                      (getTimeAgo now (Post.createdAt post))))
      end
  end.

(** The comments stored for a post, in the order they were made. *)
Definition commentsOf (postId : Z) (s : t) : list Comment.t :=
  filter (λ comment, Comment.postId comment = postId)
    (jsmap_values (comments s)).

(** A call of one of the public methods that write, and what a sequence
    of such calls makes of a store. *)
Inductive call :=
  | CreateUser (userData : InsertUser.t)
  | CreatePost (now : Z) (postData : InsertPost.t)
  | LikePost (id userId : Z)
  | CreateComment (now : Z) (commentData : InsertComment.t).

Definition perform (c : call) (s : t) : t :=
  match c with
  | CreateUser userData => (createUser userData s).2
  | CreatePost now postData => (createPost now postData s).2
  | LikePost id userId => (likePost id userId s).2
  | CreateComment now commentData => (createComment now commentData s).2
  end.

Definition performAll (calls : list call) (s : t) : t :=
  foldl (λ s c, perform c s) s calls.

(** Users sit under their own id, below the next id. *)
Definition usersInvariant (s : t) : Prop :=
  ∀ id user, users s !! id = Some user →
    User.id user = id ∧ id < userCurrentId s.

End MemStorage.

(** ** The database behind [db]

    The tables of [shared/schema.ts] as lists of rows in insertion order,
    with the constraints the schema declares: the serial primary keys, the
    unique [users.username], the composite primary key of [post_likes], the
    foreign keys of [post_likes] and [comments], and the [integer] type of
    the id and counter columns.  A sequence is advanced by an insert that
    runs, even when the insert fails, and is not rolled back; a statement
    whose parameter is refused does not run. *)

Module Db.

Record t := mk
  { users : list User.t;
    posts : list Post.t;
    postLikes : list PostLike.t;
    comments : list Comment.t;
    users_id_seq : Z;
    posts_id_seq : Z;
    comments_id_seq : Z }.

Definition with_users (f : list User.t → list User.t) (db : t) : t :=
  mk (f (users db)) (posts db) (postLikes db) (comments db)
    (users_id_seq db) (posts_id_seq db) (comments_id_seq db).
Definition with_posts (f : list Post.t → list Post.t) (db : t) : t :=
  mk (users db) (f (posts db)) (postLikes db) (comments db)
    (users_id_seq db) (posts_id_seq db) (comments_id_seq db).
Definition with_postLikes
    (f : list PostLike.t → list PostLike.t) (db : t) : t :=
  mk (users db) (posts db) (f (postLikes db)) (comments db)
    (users_id_seq db) (posts_id_seq db) (comments_id_seq db).
Definition with_comments
    (f : list Comment.t → list Comment.t) (db : t) : t :=
  mk (users db) (posts db) (postLikes db) (f (comments db))
    (users_id_seq db) (posts_id_seq db) (comments_id_seq db).
Definition with_users_id_seq (n : Z) (db : t) : t :=
  mk (users db) (posts db) (postLikes db) (comments db)
    n (posts_id_seq db) (comments_id_seq db).
Definition with_posts_id_seq (n : Z) (db : t) : t :=
  mk (users db) (posts db) (postLikes db) (comments db)
    (users_id_seq db) n (comments_id_seq db).
Definition with_comments_id_seq (n : Z) (db : t) : t :=
  mk (users db) (posts db) (postLikes db) (comments db)
    (users_id_seq db) (posts_id_seq db) n.

(** What a failed transaction leaves: the tables as they were before it,
    the sequences as the transaction advanced them. *)
Definition rollback (before after : t) : t :=
  mk (users before) (posts before) (postLikes before) (comments before)
    (users_id_seq after) (posts_id_seq after) (comments_id_seq after).

(** A database just created: no rows, every sequence at its start. *)
Definition empty : t := mk [] [] [] [] 1 1 1.

Definition hasUser (id : Z) (db : t) : bool :=
  bool_decide (Exists (λ u, User.id u = id) (users db)).
Definition hasPost (id : Z) (db : t) : bool :=
  bool_decide (Exists (λ p, Post.id p = id) (posts db)).
Definition isLike (postId userId : Z) (row : PostLike.t) : Prop :=
  PostLike.postId row = postId ∧ PostLike.userId row = userId.
Global Instance isLike_dec postId userId row :
  Decision (isLike postId userId row).
Proof. unfold isLike. apply _. Defined.

(** The values of an [integer] column: 32 bits, signed. *)
Definition int4 (n : Z) : Prop := -2147483648 ≤ n ≤ 2147483647.
Global Instance int4_dec n : Decision (int4 n).
Proof. unfold int4. apply _. Defined.

(** A post id that a statement is given as a parameter is compared with an
    [integer] column, and the statement fails when the id is outside that
    type.  The post ids are the one kind of parameter that comes from a
    request unchecked; user ids come from the session's user row or from a
    stored row.  The rows of this model may hold any integer, so an id that
    a row of [posts] carries is let through too: in a database, whose ids
    are 32 bits, no row carries an id outside the range, and the check is
    the range check. *)
Definition postIdOk (id : Z) (db : t) : bool :=
  bool_decide (int4 id) || hasPost id db.

(** [comments + 1] leaves the column type. *)
Definition commentsOverflow (p : Post.t) : Prop :=
  match Post.comments p with
  | Some n => ¬ int4 (n + 1)
  | None => False
  end.
Global Instance commentsOverflow_dec p : Decision (commentsOverflow p).
Proof. unfold commentsOverflow. destruct (Post.comments p); apply _. Defined.

(** The statements that [DatabaseStorage] sends, one constructor for each
    query it builds; the index is the type of the rows that come back. *)
Inductive stmt : Type → Type :=
  | SelectUsers : stmt (list User.t)
  | SelectUsersById (id : Z) : stmt (list User.t)
  | InsertUser (userData : InsertUser.t) : stmt (list User.t)
  | SelectPostsById (id : Z) : stmt (list Post.t)
  | InsertPost (newPost : Post.t) : stmt (list Post.t)
  | SelectPostLikes (postId userId : Z) : stmt (list PostLike.t)
  | DeletePostLikes (postId userId : Z) : stmt unit
  | InsertPostLike (row : PostLike.t) : stmt unit
  | UpdatePostLikes (id : Z) (likes : option Z) : stmt (list Post.t)
  | SelectCommentsByPostId (postId : Z) : stmt (list Comment.t)
  | InsertComment (commentData : InsertComment.t) (createdAt : Z)
      : stmt (list Comment.t)
  | IncrementPostComments (id : Z) : stmt unit.

Definition exec {X} (q : stmt X) (db : t) : outcome X * t :=
  match q in stmt X return outcome X * t with
  | SelectUsers => (Ok (users db), db)
  | SelectUsersById id =>
      (Ok (filter (λ u, User.id u = id) (users db)), db)
  | InsertUser userData =>
      let id := users_id_seq db in
      let db := with_users_id_seq (id + 1) db in
      let row :=
        User.mk id (InsertUser.username userData)
          (InsertUser.password userData) (InsertUser.fullName userData)
          (InsertUser.avatar userData) (InsertUser.role userData) in
      if hasUser id db then
        (Throw "duplicate key value violates unique constraint users_pkey",
         db)
      else if bool_decide (Exists (λ u, User.username u
                             = InsertUser.username userData) (users db))
      then
        (Throw "duplicate key value violates unique constraint users_username_unique",
         db)
      else (Ok [row], with_users (λ rows, rows ++ [row]) db)
  | SelectPostsById id =>
      if postIdOk id db
      then (Ok (filter (λ p, Post.id p = id) (posts db)), db)
      else (Throw "value out of range for type integer", db)
  | InsertPost newPost =>
      let id := posts_id_seq db in
      let db := with_posts_id_seq (id + 1) db in
      let row :=
        Post.mk id (Post.title newPost) (Post.description newPost)
          (Post.fileName newPost) (Post.userId newPost)
          (Post.createdAt newPost) (Post.likes newPost)
          (Post.comments newPost) in
      if hasPost id db then
        (Throw "duplicate key value violates unique constraint posts_pkey",
         db)
      else (Ok [row], with_posts (λ rows, rows ++ [row]) db)
  | SelectPostLikes postId userId =>
      if postIdOk postId db
      then (Ok (filter (isLike postId userId) (postLikes db)), db)
      else (Throw "value out of range for type integer", db)
  | DeletePostLikes postId userId =>
      (Ok (), with_postLikes (filter (λ r, ¬ isLike postId userId r)) db)
  | InsertPostLike row =>
      if bool_decide (Exists (isLike (PostLike.postId row)
                                (PostLike.userId row)) (postLikes db))
      then
        (Throw "duplicate key value violates unique constraint post_likes_pkey",
         db)
      else if negb (hasPost (PostLike.postId row) db) then
        (Throw "insert on table post_likes violates foreign key constraint on post_id",
         db)
      else if negb (hasUser (PostLike.userId row) db) then
        (Throw "insert on table post_likes violates foreign key constraint on user_id",
         db)
      else (Ok (), with_postLikes (λ rows, rows ++ [row]) db)
  | UpdatePostLikes id likes =>
      if match likes with
         | Some n => bool_decide (int4 n)
         | None => true
         end
      then
        (Ok (withLikes likes <$> filter (λ p, Post.id p = id) (posts db)),
         with_posts
           (fmap (λ p, if bool_decide (Post.id p = id)
                       then withLikes likes p else p)) db)
      else (Throw "integer out of range", db)
  | SelectCommentsByPostId postId =>
      if postIdOk postId db then
        (Ok (jsSort (λ a b, Comment.createdAt a - Comment.createdAt b)
               (filter (λ c, Comment.postId c = postId) (comments db))),
         db)
      else (Throw "value out of range for type integer", db)
  | InsertComment commentData createdAt =>
      if negb (postIdOk (InsertComment.postId commentData) db) then
        (Throw "value out of range for type integer", db)
      else
      let id := comments_id_seq db in
      let db := with_comments_id_seq (id + 1) db in
      let row :=
        Comment.mk id (InsertComment.content commentData)
          (InsertComment.postId commentData)
          (InsertComment.userId commentData) createdAt in
      if bool_decide (Exists (λ c, Comment.id c = id) (comments db)) then
        (Throw "duplicate key value violates unique constraint comments_pkey",
         db)
      else if negb (hasPost (InsertComment.postId commentData) db) then
        (Throw "insert on table comments violates foreign key constraint on post_id",
         db)
      else if negb (hasUser (InsertComment.userId commentData) db) then
        (Throw "insert on table comments violates foreign key constraint on user_id",
         db)
      else (Ok [row], with_comments (λ rows, rows ++ [row]) db)
  | IncrementPostComments id =>
      if bool_decide
           (Exists (λ p, Post.id p = id ∧ commentsOverflow p) (posts db))
      then (Throw "integer out of range", db)
      else
        (Ok (),
         with_posts
           (fmap (λ p, if bool_decide (Post.id p = id)
                       then withComments ((λ n, n + 1) <$> Post.comments p) p
                       else p)) db)
  end.

(** An [async] function over [db]: it returns, throws, awaits a statement
    or awaits a transaction; another request can run between two awaits.
    The continuation of an await gets what the statement produced, so that
    a [try]/[catch] around it can be written. *)
Inductive task (A : Type) : Type :=
  | Return (a : A)
  | Raise (message : string)
  | Await {X} (q : stmt X) (k : outcome X → task A)
  | Transaction {X} (body : task X) (k : outcome X → task A).
Global Arguments Return {A} a.
Global Arguments Raise {A} message.
Global Arguments Await {A X} q k.
Global Arguments Transaction {A X} body k.

Definition resume {A} (r : outcome A) : task A :=
  match r with
  | Ok a => Return a
  | Throw e => Raise e
  end.

(** [await db.…] and [await db.transaction(async (tx) => …)] *)
Definition await {X} (q : stmt X) : task X := Await q resume.
Definition transaction {X} (body : task X) : task X :=
  Transaction body resume.

Fixpoint bind {A B} (f : A → task B) (t : task A) : task B :=
  match t with
  | Return a => f a
  | Raise e => Raise e
  | Await q k => Await q (λ r, bind f (k r))
  | Transaction body k => Transaction body (λ r, bind f (k r))
  end.

(** [try { t } catch (error) { handler }] *)
Fixpoint tryCatch {A} (t : task A) (handler : string → task A) : task A :=
  match t with
  | Return a => Return a
  | Raise e => handler e
  | Await q k => Await q (λ r, tryCatch (k r) handler)
  | Transaction body k => Transaction body (λ r, tryCatch (k r) handler)
  end.

(** A task run without anything else in between.  A transaction whose
    body throws is rolled back before the error is passed on. *)
Fixpoint run {A} (job : task A) (db : t) : outcome A * t :=
  match job with
  | Return a => (Ok a, db)
  | Raise e => (Throw e, db)
  | Await q k => let '(r, db') := exec q db in run (k r) db'
  | Transaction body k =>
      let '(r, db') := run body db in
      match r with
      | Ok x => run (k (Ok x)) db'
      | Throw e => run (k (Throw e)) (rollback db db')
      end
  end.

(** One atomic action of a task: a statement, or a whole transaction.  The
    one transaction of this code inserts a row and adds to a counter with a
    relative update, which the database serialises on the row it locks, so
    taking it as one action hides no behaviour. *)
Definition step {A} (job : task A) (db : t) : task A * t :=
  match job with
  | Return a => (Return a, db)
  | Raise e => (Raise e, db)
  | Await q k => let '(r, db') := exec q db in (k r, db')
  | Transaction body k =>
      let '(r, db') := run body db in
      match r with
      | Ok x => (k (Ok x), db')
      | Throw e => (k (Throw e), rollback db db')
      end
  end.

(** Two requests in flight: the schedule says which of them performs its
    next atomic action ([true] for the first). *)
Fixpoint interleave {A B} (schedule : list bool)
    (t1 : task A) (t2 : task B) (db : t) : task A * task B * t :=
  match schedule with
  | [] => (t1, t2, db)
  | true :: schedule =>
      let '(t1, db) := step t1 db in interleave schedule t1 t2 db
  | false :: schedule =>
      let '(t2, db) := step t2 db in interleave schedule t1 t2 db
  end.

End Db.

Global Instance task_ret : MRet Db.task := λ A a, Db.Return a.
Global Instance task_bind : MBind Db.task := λ A B f t, Db.bind f t.

(** ** class DatabaseStorage *)

Module DatabaseStorage.
Import Db.

Definition getTimeAgo (now date : Z) : string := getTimeAgo_body now date.

Definition getUserById (id : Z) : task (option User.t) :=
  result ← await (SelectUsersById id);
  mret (head result).

Definition createUser (userData : InsertUser.t) : task (option User.t) :=
  result ← await (InsertUser userData);
  mret (head result).

Definition createPost (now : Z) (postData : InsertPost.t)
    : task (option Post.t) :=
  let newPost :=
    Post.mk 0 (InsertPost.title postData) (InsertPost.description postData)
      (orNull (InsertPost.fileName postData)) (InsertPost.userId postData)
      now (Some 0) (Some 0) in
  result ← await (InsertPost newPost);
  mret (head result).

Definition hasUserLikedPost (postId userId : Z) : task bool :=
  result ← await (SelectPostLikes postId userId);
  mret (bool_decide (0 < length result)%nat).

Definition likePost (now : Z) (id userId : Z) : task (option Post.t) :=
  postResult ← await (SelectPostsById id);
  match head postResult with
  | None => mret None
  | Some post =>
      hasLiked ← hasUserLikedPost id userId;
      if hasLiked : bool then
        _ ← await (DeletePostLikes id userId);
        let currentLikes := orZero (Post.likes post) in
        result ← await
          (UpdatePostLikes id (Some (Z.max 0 (currentLikes - 1))));
        mret (head result)
      else
        _ ← await (InsertPostLike (PostLike.mk id userId now));
        let currentLikes := orZero (Post.likes post) in
        result ← await (UpdatePostLikes id (Some (currentLikes + 1)));
        mret (head result)
  end.

(** The callback of [result.map] in [getCommentsByPostId]. *)
Definition withAuthor (now : Z) (comment : Comment.t)
    : task CommentWithAuthor.t :=
  author ← getUserById (Comment.userId comment);
  match author with
  | None =>
      Raise ("User with ID " +:+ pretty (Comment.userId comment)
             +:+ " not found")
  | Some author =>
      mret (CommentWithAuthor.mk comment author
              (getTimeAgo now (Comment.createdAt comment)))
  end.

(** What the callback produces in a given state of the database. *)
Definition withAuthorIn (now : Z) (db : Db.t) (comment : Comment.t)
    : outcome CommentWithAuthor.t :=
  (run (withAuthor now comment) db).1.

(** [Promise.all] over the callbacks only reads; the lookups are taken one
    after the other here. *)
Definition getCommentsByPostId (now : Z) (postId : Z)
    : task (list CommentWithAuthor.t) :=
  result ← await (SelectCommentsByPostId postId);
  commentsWithAuthors ← mapM (withAuthor now) result;
  mret (jsSort (λ a b, CommentWithAuthor.createdAt b
                       - CommentWithAuthor.createdAt a)
          commentsWithAuthors).

Definition createComment (now : Z) (commentData : InsertComment.t)
    : task (option Comment.t) :=
  transaction
    (inserted ← await (InsertComment commentData now);
     _ ← await (IncrementPostComments (InsertComment.postId commentData));
     mret (head inserted)).

Definition getRecentActivities : task (list Activity.t) := mret [].

(** A method called with a post id that is a number but no integer (a
    fraction, an infinity): in [hasUserLikedPost], [likePost], [getPost],
    [getCommentsByPostId] and [createComment] the first statement carries
    the post id, and the database refuses the parameter. *)
Definition notInteger {A} : task A :=
  Raise "invalid input syntax for type integer".

(** [user[0].id] on the rows an insert returned *)
Definition firstId (rows : list User.t) : task Z :=
  match head rows with
  | Some user => mret (User.id user)
  | None => Raise "TypeError: Cannot read properties of undefined"
  end.

(** [initDatabase], which seeds an empty database when the module is
    loaded. *)
Definition initDatabase (now : Z) : task unit :=
  existingUsers ← await SelectUsers;
  if bool_decide (length existingUsers = 0%nat) then
    user1 ← await (InsertUser
      (InsertUser.mk "alex.johnson" "password123" "Alex Johnson"
         (Some "https://images.unsplash.com/photo-1599566150163-29194dcaad36")
         (Some "Product Manager")));
    user2 ← await (InsertUser
      (InsertUser.mk "emma.thompson" "password123" "Emma Thompson"
         (Some "https://images.unsplash.com/photo-1580489944761-15a19d654956")
         (Some "Marketing Manager")));
    user3 ← await (InsertUser
      (InsertUser.mk "marcus.wilson" "password123" "Marcus Wilson"
         (Some "https://images.unsplash.com/photo-1506794778202-cad84cf45f1d")
         (Some "Product Lead")));
    user2id ← firstId user2;
    _ ← await (InsertPost
      (Post.mk 0 "Q2 2023 Marketing Strategy Document"
         "This comprehensive document outlines our marketing strategy for Q2 2023, including target audiences, campaign timelines, budget allocation, and KPIs. Please review and provide feedback by Friday."
         (Some "Q2_Marketing_Strategy.pdf") user2id
         (now - 7200000) (Some 24) (Some 8)));
    user3id ← firstId user3;
    _ ← await (InsertPost
      (Post.mk 0 "Product Roadmap 2023-2024"
         "Here's our updated product roadmap for the next 18 months. I've highlighted the key milestones and dependencies between different product teams."
         (Some "Product_Roadmap_2023_2024.pdf") user3id
         (now - 86400000) (Some 42) (Some 16)));
    mret ()
  else mret ().

(** The database once the module is loaded on an empty one. *)
Definition seeded (now : Z) : Db.t := (run (initDatabase now) empty).2.

(** *** The other methods *)

Definition getPost (now : Z) (id : Z) : task (option PostWithAuthor.t) :=
  result ← await (SelectPostsById id);
  match head result with
  | None => mret None
  | Some post =>
      author ← getUserById (Post.userId post);
      match author with
      | None =>
          Raise ("User with ID " +:+ pretty (Post.userId post)
                 +:+ " not found")
      | Some author =>
          mret (Some (PostWithAuthor.mk post author
                        (getTimeAgo now (Post.createdAt post))))
      end
  end.

(** [getUserByUsername] and [getAllPosts] send a select that no method
    above sends; they only read, and they are embedded as what a run
    alone computes from the database. *)
Definition getUserByUsername (username : string) (db : Db.t)
    : outcome (option User.t) * Db.t :=
  let result := filter (λ u, User.username u = username) (users db) in
  (Ok (head result), db).

(** The callback of [allPosts.map] in [getAllPosts]. *)
Definition postWithAuthorIn (now : Z) (db : Db.t) (post : Post.t)
    : outcome PostWithAuthor.t :=
  author ← (run (getUserById (Post.userId post)) db).1;
  match author with
  | None =>
      Throw ("User with ID " +:+ pretty (Post.userId post)
             +:+ " not found")
  | Some author =>
      Ok (PostWithAuthor.mk post author
            (getTimeAgo now (Post.createdAt post)))
  end.

Definition getAllPosts (now : Z) (db : Db.t)
    : outcome (list PostWithAuthor.t) * Db.t :=
  let allPosts :=
    jsSort (λ a b, Post.createdAt a - Post.createdAt b) (posts db) in
  (postsWithAuthors ← mapM (postWithAuthorIn now db) allPosts;
   mret (jsSort (λ a b, PostWithAuthor.createdAt b
                        - PostWithAuthor.createdAt a)
           postsWithAuthors),
   db).

(** The like rows of a post. *)
Definition likesOf (postId : Z) (db : Db.t) : list PostLike.t :=
  filter (λ r, PostLike.postId r = postId) (postLikes db).

(** The primary keys of [posts] and [post_likes]. *)
Definition postsKey (db : Db.t) : Prop := NoDup (Post.id <$> posts db).

Definition likesKey (db : Db.t) : Prop :=
  ∀ id userId, (length (filter (isLike id userId) (postLikes db)) ≤ 1)%nat.

(** By how much the counter of a post row exceeds its like rows; the seeded
    posts start with 24 and 42 likes and no like row. *)
Definition surplus (db : Db.t) (post : Post.t) : Z :=
  orZero (Post.likes post) - Z.of_nat (length (likesOf (Post.id post) db)).

Definition likesCover (db : Db.t) : Prop :=
  Forall (λ post, 0 ≤ surplus db post) (posts db).

(** No [likes] counter is above what the [integer] column holds. *)
Definition likesFit (db : Db.t) : Prop :=
  Forall (λ post, orZero (Post.likes post) ≤ 2147483647) (posts db).

End DatabaseStorage.

(** ** interface IStorage, and server/routes.ts *)

(** The methods of [IStorage] that the handlers below call.  [M] is the
    kind of computation a store runs in; [likePost] gets the clock because
    the database store stamps the like row with [new Date()]. *)
Class IStorage (M : Type → Type) := {
  hasUserLikedPost : Z → Z → M bool;
  likePost : Z → Z → Z → M (option Post.t);
  getRecentActivities : M (list Activity.t);
  (** [hasUserLikedPost] or [likePost] called with a post id that is a
      number but no integer; the argument is what the method answers when
      it finds nothing under the id. *)
  notInteger : ∀ {A}, A → M A
}.

Class TryCatch (M : Type → Type) :=
  tryCatch : ∀ {A}, M A → (string → M A) → M A.

(** Computations over a [MemStorage]: a throw keeps the writes made so
    far. *)
Definition MemM (A : Type) : Type :=
  MemStorage.t → outcome A * MemStorage.t.

Global Instance MemM_ret : MRet MemM := λ A a s, (Ok a, s).
Global Instance MemM_bind : MBind MemM := λ A B f m s,
  match m s with
  | (Ok a, s') => f a s'
  | (Throw e, s') => (Throw e, s')
  end.
Global Instance MemM_tryCatch : TryCatch MemM := λ A m handler s,
  match m s with
  | (Ok a, s') => (Ok a, s')
  | (Throw e, s') => handler e s'
  end.
Global Instance task_tryCatch : TryCatch Db.task := @Db.tryCatch.

Global Instance MemStorage_IStorage : IStorage MemM := {|
  hasUserLikedPost postId userId :=
    λ s, (Ok (MemStorage.hasUserLikedPost postId userId s), s);
  likePost _ id userId :=
    λ s, let '(post, s') := MemStorage.likePost id userId s in (Ok post, s');
  getRecentActivities :=
    λ s, (Ok (MemStorage.getRecentActivities s), s);
  (** The keys of [posts] are integers and the keys of [postLikesMap] start
      with one: nothing is found, nothing is written. *)
  notInteger := λ A missing s, (Ok missing, s)
|}.

Global Instance DatabaseStorage_IStorage : IStorage Db.task := {|
  hasUserLikedPost := DatabaseStorage.hasUserLikedPost;
  likePost := DatabaseStorage.likePost;
  getRecentActivities := DatabaseStorage.getRecentActivities;
  notInteger := λ A _, @DatabaseStorage.notInteger A
|}.

Module Routes.

(** [Number(req.params.id)]: not a number, an integer, or a number that is
    no integer (a fraction, an infinity).  [isNaN] stops the first only. *)
Inductive number :=
  | NaN
  | Integer (n : Z)
  | NotInteger.

(** What the handlers read of a request whose id is an integer or no
    number at all: [Number(req.params.id)], [None] when it is [NaN], and
    [req.user] when [req.isAuthenticated()]. *)
Record Request := mkRequest
  { params_id : option Z; user : option User.t }.

Definition Number (params_id : option Z) : number :=
  match params_id with
  | Some n => Integer n
  | None => NaN
  end.

Inductive Response :=
  | Status (code : Z) (message : string)
  | LikeJson (post : Post.t) (hasLiked : bool)
  | ActivitiesJson (activities : list Activity.t).

Section handlers.
Context {M : Type → Type}.
Context `{!MRet M, !MBind M, !TryCatch M, !IStorage M}.

(** [app.post("/api/posts/:id/like", …)], on the number that the id
    parameter gives and on [req.user]. *)
Definition postLikeOn (now : Z) (postId : number) (user : option User.t)
    : M Response :=
  tryCatch
    (match postId with
     | NaN => mret (Status 400 "Invalid post ID")
     | _ =>
         match user with
         | None => mret (Status 401 "User not authenticated")
         | Some reqUser =>
             let userId := User.id reqUser in
             hasLiked ←
               match postId with
               | Integer postId => hasUserLikedPost postId userId
               | _ => notInteger false
               end;
             post ←
               match postId with
               | Integer postId => likePost now postId userId
               | _ => notInteger None
               end;
             match post with
             | None => mret (Status 404 "Post not found")
             | Some post => mret (LikeJson post (negb hasLiked))
             end
         end
     end)
    (λ _, mret (Status 500 "Failed to like post")).

Definition postLike (now : Z) (req : Request) : M Response :=
  postLikeOn now (Number (params_id req)) (user req).

(** [app.get("/api/activities", …)] *)
Definition getActivities : M Response :=
  tryCatch
    (activities ← getRecentActivities;
     mret (ActivitiesJson activities))
    (λ _, mret (Status 500 "Failed to fetch activities")).

End handlers.

End Routes.

(** ** The other handlers of server/routes.ts

    [routes.ts] imports the [DatabaseStorage] instance, so the handlers run
    as tasks on the database. *)
Module Handlers.
Import Db.

(** A field of [req.body]: absent, a string, or another value, of which
    the handlers only look at the truthiness. *)
Inductive Field :=
  | Absent
  | Text (s : string)
  | NotText (truthy : bool).

Inductive Json :=
  | Message (message : string)
  | PostJson (post : PostWithAuthor.t) (hasLiked : bool)
  | NewPostJson (post : option Post.t)
  | CommentsJson (comments : list CommentWithAuthor.t)
  | CommentJson (comment : CommentWithAuthor.t).

(** [res.status(code).json(…)]; [res.json(…)] alone answers 200. *)
Record Response := respond { status : Z; json : Json }.

Section handlers.
(** [String.prototype.trim] *)
Variable trim : string → string.

(** [app.get("/api/posts/:id", …)], on the number that the id parameter
    gives and on [req.user]. *)
Definition getPost (now : Z) (postId : Routes.number) (user : option User.t)
    : task Response :=
  tryCatch
    (match postId with
     | Routes.NaN => mret (respond 400 (Message "Invalid post ID"))
     | _ =>
         post ←
           match postId with
           | Routes.Integer postId => DatabaseStorage.getPost now postId
           | _ => DatabaseStorage.notInteger
           end;
         match post with
         | None => mret (respond 404 (Message "Post not found"))
         | Some post =>
             hasLiked ←
               match postId, user with
               | Routes.Integer postId, Some reqUser =>
                   DatabaseStorage.hasUserLikedPost postId (User.id reqUser)
               | _, Some _ => DatabaseStorage.notInteger
               | _, None => mret false
               end;
             mret (respond 200 (PostJson post hasLiked))
         end
     end)
    (λ _, mret (respond 500 (Message "Failed to fetch post"))).

(** [app.post("/api/posts", upload.single('file'), …)]; [file] is
    [req.file.originalname] when a file was uploaded. *)
Definition postPost (now : Z) (req : Routes.Request)
    (title description : Field) (file : option string) : task Response :=
  tryCatch
    (match title with
     | Text title =>
         if bool_decide (title = "") then
           mret (respond 400
                   (Message "Title is required and must be a string"))
         else
           match Routes.user req with
           | None => mret (respond 401 (Message "User not authenticated"))
           | Some user =>
               description ←
                 match description with
                 | Text d => mret (if bool_decide (d = "") then "" else trim d)
                 | NotText true =>
                     Raise "TypeError: description.trim is not a function"
                 | _ => mret ""
                 end;
               let postData :=
                 InsertPost.mk (trim title) description file (User.id user) in
               post ← DatabaseStorage.createPost now postData;
               mret (respond 201 (NewPostJson post))
           end
     | _ =>
         mret (respond 400 (Message "Title is required and must be a string"))
     end)
    (λ _, mret (respond 500 (Message "Failed to create post"))).

(** [app.get("/api/posts/:id/comments", …)] *)
Definition getComments (now : Z) (postId : Routes.number) : task Response :=
  tryCatch
    (match postId with
     | Routes.NaN => mret (respond 400 (Message "Invalid post ID"))
     | _ =>
         comments ←
           match postId with
           | Routes.Integer postId =>
               DatabaseStorage.getCommentsByPostId now postId
           | _ => DatabaseStorage.notInteger
           end;
         mret (respond 200 (CommentsJson comments))
     end)
    (λ _, mret (respond 500 (Message "Failed to fetch comments"))).

(** [app.post("/api/posts/:id/comments", …)]; the comment is stamped at
    [now] and read back at [now']. *)
Definition postComment (now now' : Z) (postId : Routes.number)
    (user : option User.t) (content : Field) : task Response :=
  tryCatch
    (match postId with
     | Routes.NaN => mret (respond 400 (Message "Invalid post ID"))
     | _ =>
         match user with
         | None => mret (respond 401 (Message "User not authenticated"))
         | Some reqUser =>
             let userId := User.id reqUser in
             match content with
             | Text content =>
                 if bool_decide (content = "" ∨ trim content = "") then
                   mret (respond 400 (Message "Comment content is required"))
                 else
                   comment ←
                     match postId with
                     | Routes.Integer postId =>
                         DatabaseStorage.createComment now
                           (InsertComment.mk (trim content) postId userId)
                     | _ => DatabaseStorage.notInteger
                     end;
                   comments ←
                     match postId with
                     | Routes.Integer postId =>
                         DatabaseStorage.getCommentsByPostId now' postId
                     | _ => DatabaseStorage.notInteger
                     end;
                   match comment with
                   | Some comment =>
                       match
                         List.find
                           (λ c, bool_decide
                                   (Comment.id (CommentWithAuthor.comment c)
                                    = Comment.id comment))
                           comments
                       with
                       | None =>
                           mret (respond 500
                                   (Message "Failed to retrieve created comment"))
                       | Some commentWithAuthor =>
                           mret (respond 201 (CommentJson commentWithAuthor))
                       end
                   | None =>
                       match comments with
                       | [] =>
                           mret (respond 500
                                   (Message "Failed to retrieve created comment"))
                       | _ :: _ =>
                           Raise "TypeError: Cannot read properties of undefined"
                       end
                   end
             | _ => mret (respond 400 (Message "Comment content is required"))
             end
         end
     end)
    (λ _, mret (respond 500 (Message "Failed to create comment"))).

End handlers.

End Handlers.

(** * Properties *)

Example MemStorage_demo_like :
  let s := MemStorage.constructor 100000000 in
  Post.likes <$> (MemStorage.likePost 1 3 s).1 = Some (Some 25)
  ∧ MemStorage.likeCount 1 (MemStorage.likePost 1 3 s).2 = 1
  ∧ MemStorage.likeCount 2 (MemStorage.likePost 1 3 s).2 = 0.
Proof. vm_compute. done. Qed.

Lemma getTimeAgo_body_buckets now date :
  getTimeAgo_body now date = timeAgo ((now - date) `div` 1000).
Proof.
  unfold getTimeAgo_body, timeAgo.
  set (d := (now - date) `div` 1000).
  assert (Hm : (d `div` 60) `div` 60 = d `div` (60 * 60))
    by (rewrite Z.div_div; lia).
  assert (Hh : ((d `div` 60) `div` 60) `div` 24 = d `div` (24 * (60 * 60))).
  { rewrite Hm, Z.div_div by lia. f_equal. }
  rewrite Hh, Hm.
  clearbody d. clear Hm Hh.
  repeat case_bool_decide; try reflexivity; exfalso;
    Z.div_mod_to_equations; lia.
Qed.

(** ** Decimal renderings and like keys *)

Lemma append_cons c s t : String c s +:+ t = String c (s +:+ t).
Proof. reflexivity. Qed.

Lemma append_nil t : "" +:+ t = t.
Proof. reflexivity. Qed.

Lemma append_assoc s t r : (s +:+ t) +:+ r = s +:+ t +:+ r.
Proof.
  induction s as [|c s IH]; [reflexivity|].
  rewrite !append_cons. by rewrite IH.
Qed.

Lemma allDigits_app s t :
  allDigits s → allDigits t → allDigits (s +:+ t).
Proof.
  induction s as [|c s IH]; [done|].
  rewrite append_cons. simpl. intros [??]%andb_True ?.
  apply andb_True. auto.
Qed.

Lemma pretty_N_char_digit x : isDigit (pretty_N_char x).
Proof. unfold pretty_N_char. by repeat case_match. Qed.

Lemma pretty_N_go_digits x s :
  ∃ d, pretty_N_go x s = d +:+ s ∧ allDigits d ∧ ((0 < x)%N → d ≠ "").
Proof.
  revert s. induction (N.lt_wf_0 x) as [x _ IH]; intros s.
  assert (x = 0 ∨ 0 < x)%N as [->|Hx] by lia.
  - exists "". rewrite pretty_N_go_0. split_and!; [done|done|lia].
  - rewrite pretty_N_go_step by done.
    destruct (IH (x `div` 10)%N (N.div_lt x 10 Hx eq_refl)
                (String (pretty_N_char (x `mod` 10)) s)) as (d & -> & Hd & _).
    exists (d +:+ String (pretty_N_char (x `mod` 10)) "").
    split_and!.
    + by rewrite append_assoc.
    + apply allDigits_app; [done|]. simpl.
      apply andb_True. split; [apply pretty_N_char_digit|done].
    + intros _. by destruct d.
Qed.

(** A rendered integer is one character, a digit or the sign, followed by
    digits only. *)
Lemma pretty_Z_shape (z : Z) : ∃ c d, pretty z = String c d ∧ allDigits d.
Proof.
  assert (Hpos : ∀ p : positive,
            ∃ c d, pretty (N.pos p) = String c d ∧ isDigit c ∧ allDigits d).
  { intros p. unfold pretty, pretty_N. rewrite decide_False by done.
    destruct (pretty_N_go_digits (N.pos p) "") as (d & -> & Hd & Hne).
    destruct d as [|c d]; [by destruct Hne|].
    simpl in Hd. apply andb_True in Hd as [??].
    exists c, (d +:+ ""). split_and!; [done|done|].
    by apply allDigits_app. }
  destruct z as [|p|p].
  - by exists "0"%char, "".
  - destruct (Hpos p) as (c & d & ? & ? & ?). by exists c, d.
  - destruct (Hpos p) as (c & d & Hp & ? & ?).
    exists "-"%char, (String c d). split.
    + unfold pretty, pretty_Z, pretty, pretty_positive. by rewrite Hp.
    + simpl. apply andb_True. done.
Qed.

Lemma digits_dash_split d1 d2 r1 r2 :
  allDigits d1 → allDigits d2 →
  d1 +:+ String "-" r1 = d2 +:+ String "-" r2 → d1 = d2 ∧ r1 = r2.
Proof.
  revert d2. induction d1 as [|c d1 IH]; intros [|c' d2]; simpl;
    rewrite ?append_nil, ?append_cons.
  - intros _ _ [= ->]. done.
  - intros _ [Hc _]%andb_True [= <- _]. done.
  - intros [Hc _]%andb_True _ [= -> _]. done.
  - intros [_ H1]%andb_True [_ H2]%andb_True [= -> Heq].
    destruct (IH _ H1 H2 Heq) as [-> ->]. done.
Qed.

Lemma pretty_dash_split (p q : Z) r1 r2 :
  pretty p +:+ "-" +:+ r1 = pretty q +:+ "-" +:+ r2 → p = q ∧ r1 = r2.
Proof.
  destruct (pretty_Z_shape p) as (c & d & Hp & Hd).
  destruct (pretty_Z_shape q) as (c' & d' & Hq & Hd').
  rewrite Hp, Hq. intros Heq.
  change (String c (d +:+ String "-" r1)
          = String c' (d' +:+ String "-" r2)) in Heq.
  injection Heq as -> Heq.
  destruct (digits_dash_split _ _ _ _ Hd Hd' Heq) as [-> ->].
  split; [|done]. apply (inj pretty). by rewrite Hp, Hq.
Qed.

(** Distinct (post, user) pairs have distinct keys. *)
Lemma likeKey_inj p u q v :
  MemStorage.likeKey p u = MemStorage.likeKey q v → p = q ∧ u = v.
Proof.
  unfold MemStorage.likeKey. intros [-> Hu]%pretty_dash_split.
  split; [done|]. by apply (inj pretty).
Qed.

Lemma prefix_app s r : String.prefix s (s +:+ r) = true.
Proof.
  induction s as [|c s IH]; [by destruct r|].
  rewrite append_cons. simpl. by destruct (ascii_dec c c).
Qed.

Lemma prefix_inv s t : String.prefix s t = true → ∃ r, t = s +:+ r.
Proof.
  revert t. induction s as [|c s IH]; intros t; [by exists t|].
  destruct t as [|c' t]; simpl; [done|].
  destruct (ascii_dec c c') as [->|]; [|done].
  intros [r ->]%IH. by exists r.
Qed.

(** The keys of a post are the keys that start with its id and a dash. *)
Lemma likeKey_prefix p q v :
  String.prefix (pretty p +:+ "-") (MemStorage.likeKey q v) ↔ p = q.
Proof.
  rewrite Is_true_true. split.
  - intros [r Hr]%prefix_inv. unfold MemStorage.likeKey in Hr.
    rewrite append_assoc in Hr.
    by apply pretty_dash_split in Hr as [-> _].
  - intros ->. unfold MemStorage.likeKey.
    rewrite <-append_assoc. apply prefix_app.
Qed.

(** ** The like map of [MemStorage] *)

Section like_map.
Implicit Types (m : gmap string bool) (p q u : Z).

Local Abbreviation ofPost := MemStorage.ofPost.

Lemma likes_insert_same m p u :
  m !! MemStorage.likeKey p u = None →
  size (filter (ofPost p) (<[MemStorage.likeKey p u := true]> m))
  = S (size (filter (ofPost p) m)).
Proof.
  intros Hnone. rewrite map_filter_insert_True by by apply likeKey_prefix.
  apply map_size_insert_None. by rewrite map_lookup_filter_None; left.
Qed.

Lemma likes_delete_same m p u :
  is_Some (m !! MemStorage.likeKey p u) →
  S (size (filter (ofPost p) (delete (MemStorage.likeKey p u) m)))
  = size (filter (ofPost p) m).
Proof.
  intros [b Hb]. rewrite map_filter_delete.
  assert (filter (ofPost p) m !! MemStorage.likeKey p u = Some b) as Hin.
  { apply map_lookup_filter_Some. split; [done|]. by apply likeKey_prefix. }
  rewrite map_size_delete_Some by done.
  assert (size (filter (ofPost p) m) ≠ 0%nat); [|lia].
  apply map_size_non_empty_iff. intros Hempty. by rewrite Hempty in Hin.
Qed.

Lemma likes_insert_other m p q u :
  p ≠ q →
  filter (ofPost p) (<[MemStorage.likeKey q u := true]> m)
  = filter (ofPost p) m.
Proof.
  intros Hne. rewrite map_filter_insert_False.
  - apply map_filter_delete_not. intros b _ Hp.
    by apply likeKey_prefix in Hp.
  - intros Hp. by apply likeKey_prefix in Hp.
Qed.

Lemma likes_delete_other m p q u :
  p ≠ q →
  filter (ofPost p) (delete (MemStorage.likeKey q u) m)
  = filter (ofPost p) m.
Proof.
  intros Hne. apply map_filter_delete_not. intros b _ Hp.
  by apply likeKey_prefix in Hp.
Qed.

End like_map.

(** ** [MemStorage.likePost], case by case *)

Lemma mem_likePost_missing s id userId :
  MemStorage.posts s !! id = None →
  MemStorage.likePost id userId s = (None, s).
Proof. intros H. unfold MemStorage.likePost. by rewrite H. Qed.

Lemma mem_likePost_liked s id userId post :
  MemStorage.posts s !! id = Some post →
  MemStorage.hasUserLikedPost id userId s = true →
  let updated :=
    withLikes (Some (Z.max 0 (orZero (Post.likes post) - 1))) post in
  MemStorage.likePost id userId s
  = (Some updated,
     MemStorage.with_posts (<[id := updated]>)
       (MemStorage.with_postLikesMap
          (delete (MemStorage.likeKey id userId)) s)).
Proof.
  intros Hp Hl. unfold MemStorage.likePost, MemStorage.hasUserLikedPost in *.
  by rewrite Hp, Hl.
Qed.

Lemma mem_likePost_unliked s id userId post :
  MemStorage.posts s !! id = Some post →
  MemStorage.hasUserLikedPost id userId s = false →
  let updated := withLikes (Some (orZero (Post.likes post) + 1)) post in
  MemStorage.likePost id userId s
  = (Some updated,
     MemStorage.with_posts (<[id := updated]>)
       (MemStorage.with_postLikesMap
          (<[MemStorage.likeKey id userId := true]>) s)).
Proof.
  intros Hp Hl. unfold MemStorage.likePost, MemStorage.hasUserLikedPost in *.
  by rewrite Hp, Hl.
Qed.

Lemma mem_hasUserLikedPost_true s id userId :
  MemStorage.hasUserLikedPost id userId s = true
  ↔ is_Some (MemStorage.postLikesMap s !! MemStorage.likeKey id userId).
Proof. unfold MemStorage.hasUserLikedPost. apply bool_decide_eq_true. Qed.

Lemma mem_hasUserLikedPost_false s id userId :
  MemStorage.hasUserLikedPost id userId s = false
  ↔ MemStorage.postLikesMap s !! MemStorage.likeKey id userId = None.
Proof.
  unfold MemStorage.hasUserLikedPost.
  rewrite bool_decide_eq_false, eq_None_not_Some. done.
Qed.

(** The like status of a pair after a toggle of any pair. *)
Lemma mem_likePost_hasLiked s id userId q v :
  is_Some (MemStorage.posts s !! id) →
  MemStorage.hasUserLikedPost q v (MemStorage.likePost id userId s).2
  = if bool_decide (q = id ∧ v = userId)
    then negb (MemStorage.hasUserLikedPost id userId s)
    else MemStorage.hasUserLikedPost q v s.
Proof.
  intros [post Hp].
  assert (Hkey : ¬ (q = id ∧ v = userId) →
            MemStorage.likeKey id userId ≠ MemStorage.likeKey q v).
  { intros Hne [??]%likeKey_inj. naive_solver. }
  destruct (MemStorage.hasUserLikedPost id userId s) eqn:Hl.
  - rewrite (mem_likePost_liked _ _ _ _ Hp Hl). simpl.
    unfold MemStorage.hasUserLikedPost at 1. simpl.
    destruct (decide (q = id ∧ v = userId)) as [[-> ->]|Hne].
    + rewrite lookup_delete_eq, (bool_decide_true (_ ∧ _)) by done.
      apply bool_decide_eq_false. by intros [??].
    + rewrite lookup_delete_ne, (bool_decide_false (_ ∧ _)) by auto. done.
  - rewrite (mem_likePost_unliked _ _ _ _ Hp Hl). simpl.
    unfold MemStorage.hasUserLikedPost at 1. simpl.
    destruct (decide (q = id ∧ v = userId)) as [[-> ->]|Hne].
    + rewrite lookup_insert_eq, (bool_decide_true (_ ∧ _)) by done.
      by apply bool_decide_eq_true.
    + rewrite lookup_insert_ne, (bool_decide_false (_ ∧ _)) by auto. done.
Qed.

(** The number of likers of a post after a toggle of any pair. *)
Lemma mem_likePost_likeCount s id userId q :
  is_Some (MemStorage.posts s !! id) →
  MemStorage.likeCount q (MemStorage.likePost id userId s).2
  = if bool_decide (q = id)
    then (if MemStorage.hasUserLikedPost id userId s
          then MemStorage.likeCount q s - 1
          else MemStorage.likeCount q s + 1)
    else MemStorage.likeCount q s.
Proof.
  intros [post Hp]. unfold MemStorage.likeCount, MemStorage.likesOf.
  destruct (MemStorage.hasUserLikedPost id userId s) eqn:Hl.
  - rewrite (mem_likePost_liked _ _ _ _ Hp Hl). simpl.
    apply mem_hasUserLikedPost_true in Hl.
    case_bool_decide as Heq.
    + subst q. rewrite <-(likes_delete_same _ _ _ Hl). lia.
    + by rewrite likes_delete_other.
  - rewrite (mem_likePost_unliked _ _ _ _ Hp Hl). simpl.
    apply mem_hasUserLikedPost_false in Hl.
    case_bool_decide as Heq.
    + subst q. rewrite (likes_insert_same _ _ _ Hl). lia.
    + by rewrite likes_insert_other.
Qed.

Lemma mem_likeCount_pos s id userId :
  MemStorage.hasUserLikedPost id userId s = true →
  1 ≤ MemStorage.likeCount id s.
Proof.
  intros Hl%mem_hasUserLikedPost_true.
  unfold MemStorage.likeCount, MemStorage.likesOf.
  rewrite <-(likes_delete_same _ _ _ Hl). lia.
Qed.

Lemma mem_likePost_posts s id userId post :
  MemStorage.posts s !! id = Some post →
  MemStorage.posts (MemStorage.likePost id userId s).2
  = <[id := withLikes
             (Some (if MemStorage.hasUserLikedPost id userId s
                    then Z.max 0 (orZero (Post.likes post) - 1)
                    else orZero (Post.likes post) + 1)) post]>
      (MemStorage.posts s).
Proof.
  intros Hp. destruct (MemStorage.hasUserLikedPost id userId s) eqn:Hl.
  - by rewrite (mem_likePost_liked _ _ _ _ Hp Hl).
  - by rewrite (mem_likePost_unliked _ _ _ _ Hp Hl).
Qed.

Lemma mem_likePost_postLikesMap s id userId :
  is_Some (MemStorage.posts s !! id) →
  MemStorage.postLikesMap (MemStorage.likePost id userId s).2
  = if MemStorage.hasUserLikedPost id userId s
    then delete (MemStorage.likeKey id userId) (MemStorage.postLikesMap s)
    else <[MemStorage.likeKey id userId := true]> (MemStorage.postLikesMap s).
Proof.
  intros [post Hp]. destruct (MemStorage.hasUserLikedPost id userId s) eqn:Hl.
  - by rewrite (mem_likePost_liked _ _ _ _ Hp Hl).
  - by rewrite (mem_likePost_unliked _ _ _ _ Hp Hl).
Qed.

(** The fields that [likePost] never writes. *)
Lemma mem_likePost_frame s id userId :
  let s' := (MemStorage.likePost id userId s).2 in
  MemStorage.users s' = MemStorage.users s
  ∧ MemStorage.comments s' = MemStorage.comments s
  ∧ MemStorage.activities s' = MemStorage.activities s
  ∧ MemStorage.userCurrentId s' = MemStorage.userCurrentId s
  ∧ MemStorage.postCurrentId s' = MemStorage.postCurrentId s
  ∧ MemStorage.activityCurrentId s' = MemStorage.activityCurrentId s
  ∧ MemStorage.commentCurrentId s' = MemStorage.commentCurrentId s.
Proof.
  unfold MemStorage.likePost.
  destruct (MemStorage.posts s !! id); [|done].
  by case_bool_decide.
Qed.

(** ** The invariant of [MemStorage] *)

Lemma mem_invariant_constructor now :
  MemStorage.invariant (MemStorage.constructor now).
Proof.
  split_and!.
  - intros id post. cbn.
    rewrite !lookup_insert_Some, lookup_empty.
    unfold MemStorage.likeCount, MemStorage.likesOf. cbn.
    rewrite map_filter_empty, map_size_empty.
    intros [[<- <-]|[_ [[<- <-]|[_ ?]]]]; [| |done]; cbn; split_and!; try done;
      eexists; split; try done.
  - intros key. cbn. rewrite lookup_empty. by intros [??].
  - intros id comment. cbn. by intros ?%elem_of_nil.
Qed.

Lemma mem_invariant_createUser userData s :
  MemStorage.invariant s →
  MemStorage.invariant (MemStorage.createUser userData s).2.
Proof. intros (H1 & H2 & H3). split_and!; done. Qed.

Lemma mem_likeCount_fresh s id :
  MemStorage.invariant s → MemStorage.postCurrentId s ≤ id →
  MemStorage.likeCount id s = 0.
Proof.
  intros (H1 & H2 & _) Hid.
  unfold MemStorage.likeCount, MemStorage.likesOf.
  rewrite (proj2 (map_size_empty_iff _)); [done|].
  apply map_empty_filter_2, map_Forall_lookup. intros key b Hkey Hof.
  destruct (H2 key) as (_ & q & u & -> & post & Hq); [by eexists|].
  apply likeKey_prefix in Hof as ->.
  destruct (H1 _ _ Hq) as (_ & ? & _). lia.
Qed.

Lemma mem_invariant_createPost now postData s :
  MemStorage.invariant s →
  MemStorage.invariant (MemStorage.createPost now postData s).2.
Proof.
  intros Hinv. pose proof Hinv as (H1 & H2 & H3). split_and!.
  - intros id post. cbn. rewrite lookup_insert_Some.
    intros [[<- <-]|[Hne Hp]]; cbn.
    + split_and!; [done|lia|]. exists 0. split; [done|].
      change (MemStorage.likeCount (MemStorage.postCurrentId s) s ≤ 0).
      by rewrite mem_likeCount_fresh.
    + destruct (H1 _ _ Hp) as (? & ? & n & ? & ?).
      split_and!; [done|lia|]. by exists n.
  - intros key Hkey. destruct (H2 key Hkey) as (? & id & u & -> & Hp).
    split; [done|]. exists id, u. split; [done|]. cbn.
    by apply lookup_insert_is_Some'; right.
  - done.
Qed.

Lemma mem_invariant_likePost id userId s :
  MemStorage.invariant s →
  MemStorage.invariant (MemStorage.likePost id userId s).2.
Proof.
  intros Hinv. pose proof Hinv as (H1 & H2 & H3).
  destruct (MemStorage.posts s !! id) as [post|] eqn:Hp;
    [|by rewrite mem_likePost_missing].
  destruct (mem_likePost_frame s id userId) as (_ & Hc & _ & _ & Hpc & _ & Hcc).
  destruct (H1 _ _ Hp) as (Hid & Hlt & n & Hn & Hle).
  split_and!.
  - intros q post'. rewrite (mem_likePost_posts _ _ _ _ Hp), Hpc.
    rewrite mem_likePost_likeCount by by eexists.
    rewrite lookup_insert_Some. intros [[<- <-]|[Hne Hq]].
    + rewrite bool_decide_true by done. split_and!; [done..|].
      rewrite Hn. cbn.
      destruct (MemStorage.hasUserLikedPost id userId s);
        eexists; (split; [done|]); lia.
    + rewrite bool_decide_false by done. by apply H1.
  - intros key. rewrite mem_likePost_postLikesMap by by eexists.
    rewrite (mem_likePost_posts _ _ _ _ Hp).
    assert (Hold : is_Some (MemStorage.postLikesMap s !! key) →
              ∃ q u, key = MemStorage.likeKey q u ∧
                is_Some (<[id:=withLikes
                   (Some (if MemStorage.hasUserLikedPost id userId s
                          then Z.max 0 (orZero (Post.likes post) - 1)
                          else orZero (Post.likes post) + 1)) post]>
                   (MemStorage.posts s) !! q)).
    { intros Hkey. destruct (H2 key Hkey) as (_ & q & u & -> & Hq).
      exists q, u. split; [done|]. by apply lookup_insert_is_Some'; right. }
    destruct (MemStorage.hasUserLikedPost id userId s).
    + rewrite lookup_delete_is_Some. intros [Hne Hkey].
      rewrite lookup_delete_ne by done. split; [by apply H2|by apply Hold].
    + rewrite lookup_insert_is_Some'. intros Hkey.
      destruct (decide (MemStorage.likeKey id userId = key)) as [<-|Hne].
      * rewrite lookup_insert_eq. split; [done|].
        exists id, userId. split; [done|]. by rewrite lookup_insert_eq.
      * rewrite lookup_insert_ne by done. destruct Hkey as [?|Hkey]; [done|].
        split; [by apply H2|by apply Hold].
  - rewrite Hc, Hcc. done.
Qed.

Lemma jsmap_set_elem_of {V} k (v : V) m k' v' :
  (k', v') ∈ jsmap_set k v m → (k', v') = (k, v) ∨ (k', v') ∈ m.
Proof.
  induction m as [|[k0 v0] m IH]; simpl.
  - intros ->%list_elem_of_singleton. by left.
  - case_bool_decide.
    + intros [->|?]%elem_of_cons; [by left|]. right. by apply elem_of_cons; right.
    + intros [->|[?|?]%IH]%elem_of_cons; [right; apply elem_of_cons| |right;
        apply elem_of_cons]; auto.
Qed.

(** [set] with a key that is not there yet adds the entry at the end. *)
Lemma jsmap_set_fresh {V} k (v : V) m :
  (∀ v', (k, v') ∉ m) → jsmap_set k v m = m ++ [(k, v)].
Proof.
  induction m as [|[k0 v0] m IH]; simpl; [done|]. intros Hfresh.
  rewrite bool_decide_false.
  - rewrite IH; [done|]. intros v' Hin. apply (Hfresh v'), elem_of_cons. auto.
  - intros ->. apply (Hfresh v0), elem_of_cons. auto.
Qed.

Lemma mem_createComment_posts now commentData s :
  MemStorage.posts (MemStorage.createComment now commentData s).2
  = match MemStorage.posts s !! InsertComment.postId commentData with
    | Some post =>
        <[InsertComment.postId commentData :=
            withComments (Some (orZero (Post.comments post) + 1)) post]>
          (MemStorage.posts s)
    | None => MemStorage.posts s
    end.
Proof.
  unfold MemStorage.createComment. cbn.
  by destruct (MemStorage.posts s !! InsertComment.postId commentData).
Qed.

Lemma mem_createComment_frame now commentData s :
  let s' := (MemStorage.createComment now commentData s).2 in
  MemStorage.users s' = MemStorage.users s
  ∧ MemStorage.postLikesMap s' = MemStorage.postLikesMap s
  ∧ MemStorage.postCurrentId s' = MemStorage.postCurrentId s
  ∧ MemStorage.commentCurrentId s' = MemStorage.commentCurrentId s + 1
  ∧ MemStorage.comments s'
    = jsmap_set (MemStorage.commentCurrentId s)
        (MemStorage.createComment now commentData s).1
        (MemStorage.comments s).
Proof.
  unfold MemStorage.createComment. cbn.
  by destruct (MemStorage.posts s !! InsertComment.postId commentData).
Qed.

Lemma mem_invariant_createComment now commentData s :
  MemStorage.invariant s →
  MemStorage.invariant (MemStorage.createComment now commentData s).2.
Proof.
  intros (H1 & H2 & H3).
  destruct (mem_createComment_frame now commentData s)
    as (_ & Hl & Hpc & Hcc & Hc).
  assert (Hcount : ∀ q,
    MemStorage.likeCount q (MemStorage.createComment now commentData s).2
    = MemStorage.likeCount q s).
  { intros q. unfold MemStorage.likeCount, MemStorage.likesOf. by rewrite Hl. }
  split_and!.
  - intros q post'. rewrite mem_createComment_posts, Hpc, Hcount.
    destruct (MemStorage.posts s !! InsertComment.postId commentData)
      as [post|] eqn:Hp; [|by apply H1].
    rewrite lookup_insert_Some. intros [[<- <-]|[_ Hq]]; [|by apply H1].
    destruct (H1 _ _ Hp) as (? & ? & n & ? & ?).
    split_and!; [done..|]. by exists n.
  - intros key. rewrite Hl, mem_createComment_posts.
    intros Hkey. destruct (H2 key Hkey) as (? & q & u & -> & Hq).
    split; [done|]. exists q, u. split; [done|].
    destruct (MemStorage.posts s !! InsertComment.postId commentData);
      [|done].
    by apply lookup_insert_is_Some'; right.
  - intros id comment. rewrite Hc, Hcc.
    intros [[= -> ->]|Hin]%jsmap_set_elem_of.
    + cbn. split; [done|lia].
    + destruct (H3 _ _ Hin). split; [done|lia].
Qed.

Lemma mem_reachable_invariant s :
  MemStorage.reachable s → MemStorage.invariant s.
Proof.
  induction 1;
    auto using mem_invariant_constructor, mem_invariant_createUser,
      mem_invariant_createPost, mem_invariant_likePost,
      mem_invariant_createComment.
Qed.

Lemma withLikes_withLikes a b post :
  withLikes a (withLikes b post) = withLikes a post.
Proof. done. Qed.

Lemma withLikes_same n post : Post.likes post = n → withLikes n post = post.
Proof. intros <-. by destruct post. Qed.

(** A counter that equals the number of likers keeps doing so, whichever
    pair is toggled. *)
Lemma mem_likePost_exact s id userId q post :
  MemStorage.posts s !! q = Some post →
  Post.likes post = Some (MemStorage.likeCount q s) →
  let s' := (MemStorage.likePost id userId s).2 in
  ∃ post', MemStorage.posts s' !! q = Some post'
           ∧ Post.likes post' = Some (MemStorage.likeCount q s').
Proof.
  intros Hq Hlikes s'. subst s'.
  destruct (MemStorage.posts s !! id) as [post0|] eqn:Hp;
    [|rewrite mem_likePost_missing by done; eauto].
  rewrite (mem_likePost_posts _ _ _ _ Hp).
  rewrite mem_likePost_likeCount by by eexists.
  destruct (decide (q = id)) as [->|Hne].
  - rewrite lookup_insert_eq, bool_decide_true by done.
    rewrite Hq in Hp. injection Hp as <-.
    eexists. split; [done|]. cbn. rewrite Hlikes. cbn. f_equal.
    destruct (MemStorage.hasUserLikedPost id userId s) eqn:Hl; [|done].
    apply mem_likeCount_pos in Hl. lia.
  - rewrite lookup_insert_ne, bool_decide_false by done. eauto.
Qed.

Lemma mem_likes_exact_foldl id users : ∀ s post,
  MemStorage.posts s !! id = Some post →
  Post.likes post = Some (MemStorage.likeCount id s) →
  let s' := foldl (λ s u, (MemStorage.likePost id u s).2) s users in
  ∃ post', MemStorage.posts s' !! id = Some post'
           ∧ Post.likes post' = Some (MemStorage.likeCount id s').
Proof.
  induction users as [|u users IH]; intros s post Hp Hl; cbn; [eauto|].
  destruct (mem_likePost_exact s id u id post Hp Hl) as (post' & ? & ?).
  by eapply IH.
Qed.

(** Users who toggle once each, none of whom liked the post before, all
    like it afterwards, and nobody else's status moves. *)
Lemma mem_distinct_likers_foldl id users : ∀ s,
  NoDup users →
  is_Some (MemStorage.posts s !! id) →
  (∀ u, u ∈ users → MemStorage.hasUserLikedPost id u s = false) →
  let s' := foldl (λ s u, (MemStorage.likePost id u s).2) s users in
  MemStorage.likeCount id s'
  = MemStorage.likeCount id s + Z.of_nat (length users)
  ∧ ∀ u, MemStorage.hasUserLikedPost id u s'
         = if bool_decide (u ∈ users) then true
           else MemStorage.hasUserLikedPost id u s.
Proof.
  induction users as [|u users IH]; intros s Hnd Hp Hno; cbn.
  { split; [lia|]. intros u.
    by rewrite bool_decide_false by apply not_elem_of_nil. }
  apply NoDup_cons in Hnd as [Hu Hnd].
  assert (Hl : MemStorage.hasUserLikedPost id u s = false)
    by (apply Hno, elem_of_cons; auto).
  destruct (IH (MemStorage.likePost id u s).2 Hnd) as [Hcount Hliked].
  - destruct Hp as [post Hp]. rewrite (mem_likePost_posts _ _ _ _ Hp).
    by rewrite lookup_insert_eq.
  - intros v Hv. rewrite mem_likePost_hasLiked by done.
    rewrite bool_decide_false by (intros [_ ->]; done).
    apply Hno, elem_of_cons; auto.
  - split.
    + rewrite Hcount, mem_likePost_likeCount, bool_decide_true, Hl by done.
      cbn [length]. lia.
    + intros v. rewrite Hliked, mem_likePost_hasLiked, Hl by done.
      destruct (decide (v = u)) as [->|Hne].
      * rewrite (bool_decide_false (u ∈ users)) by done.
        rewrite (bool_decide_true (_ ∧ _)) by done.
        by rewrite bool_decide_true by (apply elem_of_cons; auto).
      * rewrite (bool_decide_false (_ ∧ _)) by (intros [_ ?]; done).
        erewrite (bool_decide_ext (v ∈ u :: users)); [done|].
        rewrite elem_of_cons. split; [by intros [?|?]|auto].
Qed.

(** C2.  A post made by [createPost] in a running store starts with
    [likes = 0] and no likers.  After any number of the toggles of a
    sequence of distinct users, its [likes] counter is the number of entries
    of the like relation for the post, which is the number of users who have
    toggled, exactly the users whose status is liked; it is not negative. *)
Theorem C2_likes_counts_likers s now postData users k :
  MemStorage.reachable s →
  NoDup users →
  let created := MemStorage.createPost now postData s in
  let id := Post.id created.1 in
  let done := take k users in
  let s' := foldl (λ s u, (MemStorage.likePost id u s).2) created.2 done in
  Post.likes created.1 = Some 0
  ∧ MemStorage.likeCount id created.2 = 0
  ∧ ∃ post,
      MemStorage.posts s' !! id = Some post
      ∧ Post.likes post = Some (MemStorage.likeCount id s')
      ∧ 0 ≤ MemStorage.likeCount id s'
      ∧ MemStorage.likeCount id s' = Z.of_nat (length done)
      ∧ ∀ u, MemStorage.hasUserLikedPost id u s' = bool_decide (u ∈ done).
Proof.
  intros Hreach Hnd created id done s'.
  apply mem_reachable_invariant in Hreach as Hinv.
  assert (Hfresh : MemStorage.likeCount id created.2 = 0).
  { change (MemStorage.likeCount (MemStorage.postCurrentId s) s = 0).
    by apply mem_likeCount_fresh. }
  assert (Hpost : MemStorage.posts created.2 !! id = Some created.1)
    by apply lookup_insert_eq.
  split; [done|]. split; [done|].
  destruct (mem_likes_exact_foldl id done created.2 created.1 Hpost)
    as (post & Hp & Hlikes); [by rewrite Hfresh|].
  destruct (mem_distinct_likers_foldl id done created.2) as [Hcount Hliked].
  - eapply sublist_NoDup; [done|apply sublist_take].
  - by eexists.
  - intros u _. destruct (MemStorage.hasUserLikedPost id u created.2) eqn:Hl;
      [|done].
    apply mem_likeCount_pos in Hl. lia.
  - exists post. fold s' in Hp, Hlikes, Hcount, Hliked.
    rewrite Hfresh in Hcount. split_and!; [done|done|lia|lia|].
    intros u. rewrite Hliked. case_bool_decide; [done|].
    destruct (MemStorage.hasUserLikedPost id u created.2) eqn:Hl; [|done].
    apply mem_likeCount_pos in Hl. lia.
Qed.

Lemma C2_likes_counts_likers_witness :
  let s := MemStorage.constructor 1700000000000 in
  let postData := InsertPost.mk "Roadmap" "" None 1 in
  MemStorage.reachable s
  ∧ NoDup [2; 3; 1]
  ∧ ∃ post,
      MemStorage.posts
        (foldl (λ s u, (MemStorage.likePost 3 u s).2)
           (MemStorage.createPost 1700000000500 postData s).2 [2; 3]) !! 3
      = Some post
      ∧ Post.likes post = Some 2.
Proof.
  intros s postData.
  assert (Hreach : MemStorage.reachable s) by apply MemStorage.reach_constructor.
  assert (Hnd : NoDup [2; 3; 1])
    by (apply (bool_decide_unpack (NoDup [2; 3; 1])); vm_compute; exact I).
  split; [exact Hreach|]. split; [exact Hnd|].
  destruct (C2_likes_counts_likers s 1700000000500 postData [2; 3; 1] 2
              Hreach Hnd) as (_ & _ & post & Hp & Hl & _ & Hc & _).
  exists post. split; [exact Hp|]. rewrite Hl, Hc. reflexivity.
Defined.

(** C3.  In a running store, two toggles in a row by the same user on a
    stored post bring back the like status and the [likes] count, indeed the
    whole post and the whole store, that were there before the first one;
    the first toggle alone flips the status. *)
Theorem C3_toggle_twice_restores s id userId post :
  MemStorage.reachable s →
  MemStorage.posts s !! id = Some post →
  let s1 := (MemStorage.likePost id userId s).2 in
  let s2 := (MemStorage.likePost id userId s1).2 in
  MemStorage.hasUserLikedPost id userId s1
  = negb (MemStorage.hasUserLikedPost id userId s)
  ∧ MemStorage.hasUserLikedPost id userId s2
    = MemStorage.hasUserLikedPost id userId s
  ∧ (MemStorage.likePost id userId s1).1 = Some post
  ∧ MemStorage.posts s2 !! id = Some post
  ∧ s2 = s.
Proof.
  intros Hreach Hp s1 s2.
  apply mem_reachable_invariant in Hreach as (H1 & H2 & _).
  destruct (H1 _ _ Hp) as (_ & _ & n & Hn & Hle).
  assert (Hs1 : MemStorage.hasUserLikedPost id userId s1
                = negb (MemStorage.hasUserLikedPost id userId s)).
  { unfold s1. rewrite mem_likePost_hasLiked by by eexists.
    by rewrite bool_decide_true. }
  pose proof (mem_likePost_posts s id userId post Hp) as Hposts1.
  fold s1 in Hposts1.
  set (post1 := withLikes _ post) in Hposts1.
  assert (Hp1 : MemStorage.posts s1 !! id = Some post1)
    by (rewrite Hposts1; apply lookup_insert_eq).
  assert (Hback : withLikes
            (Some (if MemStorage.hasUserLikedPost id userId s1
                   then Z.max 0 (orZero (Post.likes post1) - 1)
                   else orZero (Post.likes post1) + 1)) post1 = post).
  { rewrite Hs1. subst post1. rewrite withLikes_withLikes.
    apply withLikes_same. rewrite Hn. cbn. f_equal.
    destruct (MemStorage.hasUserLikedPost id userId s) eqn:Hl; cbn.
    - apply mem_likeCount_pos in Hl. lia.
    - unfold MemStorage.likeCount in Hle. lia. }
  assert (Hstate : s2 = s).
  { unfold s2.
    destruct (MemStorage.hasUserLikedPost id userId s) eqn:Hl; cbn in Hs1.
    - rewrite (mem_likePost_unliked _ _ _ _ Hp1 Hs1). cbn zeta.
      rewrite Hs1 in Hback. rewrite Hback.
      unfold s1. rewrite (mem_likePost_liked _ _ _ _ Hp Hl).
      apply mem_hasUserLikedPost_true in Hl.
      destruct (H2 _ Hl) as [Htrue _].
      destruct s; cbn in *.
      unfold MemStorage.with_posts, MemStorage.with_postLikesMap; cbn.
      f_equal.
      + rewrite insert_insert_eq. by apply insert_id.
      + rewrite insert_delete_eq. by apply insert_id.
    - rewrite (mem_likePost_liked _ _ _ _ Hp1 Hs1). cbn zeta.
      rewrite Hs1 in Hback. rewrite Hback.
      unfold s1. rewrite (mem_likePost_unliked _ _ _ _ Hp Hl).
      apply mem_hasUserLikedPost_false in Hl.
      destruct s; cbn in *.
      unfold MemStorage.with_posts, MemStorage.with_postLikesMap; cbn.
      f_equal.
      + rewrite insert_insert_eq. by apply insert_id.
      + rewrite delete_insert_eq. by apply delete_id. }
  split; [done|]. rewrite Hstate. split; [done|].
  split; [|done].
  destruct (MemStorage.hasUserLikedPost id userId s1) eqn:Hl1.
  - rewrite (mem_likePost_liked _ _ _ _ Hp1 Hl1). cbn [fst].
    by rewrite Hback.
  - rewrite (mem_likePost_unliked _ _ _ _ Hp1 Hl1). cbn [fst].
    by rewrite Hback.
Qed.

(** Reachability is what C3 needs: in a state that no sequence of calls
    produces, a like for a post whose counter is 0, the clamp fires and the
    second toggle leaves the counter at 1. *)
Example mem_toggle_twice_unreachable :
  let post := Post.mk 1 "t" "" None 1 0 (Some 0) (Some 0) in
  let s :=
    MemStorage.mk ∅ {[1 := post]} [] [] 1 2 1 1
      {[MemStorage.likeKey 1 1 := true]} in
  ¬ MemStorage.reachable s
  ∧ (Post.likes
       <$> MemStorage.posts
             (MemStorage.likePost 1 1 (MemStorage.likePost 1 1 s).2).2 !! 1)
    = Some (Some 1).
Proof.
  intros post s. split; [|by vm_compute].
  intros (H1 & _)%mem_reachable_invariant.
  destruct (H1 1 post) as (_ & _ & n & [= <-] & Hle); [by vm_compute|].
  by vm_compute in Hle.
Qed.

Lemma C3_toggle_twice_restores_witness :
  let s := MemStorage.constructor 1700000000000 in
  MemStorage.reachable s
  ∧ is_Some (MemStorage.posts s !! 2)
  ∧ (MemStorage.likePost 2 1 (MemStorage.likePost 2 1 s).2).2 = s.
Proof.
  intros s.
  assert (Hreach : MemStorage.reachable s) by apply MemStorage.reach_constructor.
  assert (Hp : is_Some (MemStorage.posts s !! 2)) by (vm_compute; eauto).
  split; [exact Hreach|]. split; [exact Hp|].
  destruct Hp as [post Hp].
  exact (proj2 (proj2 (proj2 (proj2
           (C3_toggle_twice_restores s 2 1 post Hreach Hp))))).
Defined.

(** ** [DatabaseStorage.likePost], run alone *)

Lemma Exists_filter_length {A} (P : A → Prop) `{!∀ x, Decision (P x)} l :
  Exists P l ↔ (0 < length (filter P l))%nat.
Proof.
  induction l as [|x l IH].
  - rewrite Exists_nil. cbn. lia.
  - rewrite Exists_cons, IH, filter_cons. case_decide; cbn; [|tauto].
    split; [lia|auto].
Qed.

Lemma db_hasPost_of_filter id db post rest :
  filter (λ p, Post.id p = id) (Db.posts db) = post :: rest →
  Db.hasPost id db = true.
Proof.
  intros Hf. apply bool_decide_eq_true, Exists_exists. exists post.
  assert (Hin : post ∈ filter (λ p, Post.id p = id) (Db.posts db))
    by (rewrite Hf; left).
  by apply list_elem_of_filter in Hin as [??].
Qed.

Lemma db_hasPost_of_filter_id id db post rest :
  filter (λ p, Post.id p = id) (Db.posts db) = post :: rest →
  Post.id post = id.
Proof.
  intros Hf.
  assert (Hin : post ∈ filter (λ p, Post.id p = id) (Db.posts db))
    by (rewrite Hf; left).
  by apply list_elem_of_filter in Hin as [??].
Qed.

Lemma db_hasPost_of_filter_in id db post rest :
  filter (λ p, Post.id p = id) (Db.posts db) = post :: rest →
  post ∈ Db.posts db.
Proof.
  intros Hf.
  assert (Hin : post ∈ filter (λ p, Post.id p = id) (Db.posts db))
    by (rewrite Hf; left).
  by apply list_elem_of_filter in Hin as [??].
Qed.

Lemma db_filter_of_hasPost id db :
  Db.hasPost id db = false →
  filter (λ p, Post.id p = id) (Db.posts db) = [].
Proof.
  intros Hno.
  destruct (filter (λ p, Post.id p = id) (Db.posts db)) eqn:Hf; [done|].
  apply db_hasPost_of_filter in Hf. congruence.
Qed.

(** ** Running composed tasks *)

Lemma db_run_bind {A B} (f : A → Db.task B) (job : Db.task A) db :
  Db.run (job ≫= f) db
  = match Db.run job db with
    | (Ok a, db') => Db.run (f a) db'
    | (Throw e, db') => (Throw e, db')
    end.
Proof.
  change (job ≫= f) with (Db.bind f job).
  revert B f db.
  induction job as [A a|A e|A X q k IH|A X body _ k IH]; intros B f db; cbn.
  - done.
  - done.
  - destruct (Db.exec q db) as [r db']. apply IH.
  - destruct (Db.run body db) as [[x|e] db']; apply IH.
Qed.

Lemma db_run_tryCatch {A} (job : Db.task A) handler db :
  Db.run (tryCatch job handler) db
  = match Db.run job db with
    | (Ok a, db') => (Ok a, db')
    | (Throw e, db') => Db.run (handler e) db'
    end.
Proof.
  change (tryCatch job handler) with (Db.tryCatch job handler).
  revert handler db.
  induction job as [A a|A e|A X q k IH|A X body _ k IH]; intros handler db;
    cbn.
  - done.
  - done.
  - destruct (Db.exec q db) as [r db']. apply IH.
  - destruct (Db.run body db) as [[x|e] db']; apply IH.
Qed.

Lemma db_run_await {X} (q : Db.stmt X) db :
  Db.run (Db.await q) db = Db.exec q db.
Proof. cbn. by destruct (Db.exec q db) as [[x|e] db']. Qed.

(** ** The 32-bit columns *)

Lemma db_postIdOk_hasPost id db :
  Db.hasPost id db = true → Db.postIdOk id db = true.
Proof. unfold Db.postIdOk. intros ->. apply orb_true_r. Qed.

Lemma db_postIdOk_missing id db :
  Db.hasPost id db = false → Db.postIdOk id db = bool_decide (Db.int4 id).
Proof. unfold Db.postIdOk. intros ->. apply orb_false_r. Qed.

Lemma db_postIdOk_int4 id db : Db.int4 id → Db.postIdOk id db = true.
Proof. unfold Db.postIdOk. intros H. by rewrite bool_decide_true. Qed.

Lemma db_postIdOk_frame id db db' :
  Db.posts db' = Db.posts db → Db.postIdOk id db' = Db.postIdOk id db.
Proof. unfold Db.postIdOk, Db.hasPost. by intros ->. Qed.

Lemma db_hasPost_filter_nil id db :
  filter (λ p, Post.id p = id) (Db.posts db) = [] → Db.hasPost id db = false.
Proof.
  intros Hf. apply bool_decide_eq_false. intros (p & Hin & Hid)%Exists_exists.
  assert (Hp : p ∈ filter (λ p, Post.id p = id) (Db.posts db))
    by by apply list_elem_of_filter.
  rewrite Hf in Hp. by apply elem_of_nil in Hp.
Qed.

Lemma db_hasUserLikedPost_run postId userId db :
  Db.run (DatabaseStorage.hasUserLikedPost postId userId) db
  = (if Db.postIdOk postId db
     then Ok (bool_decide
                (0 < length (filter (Db.isLike postId userId)
                               (Db.postLikes db)))%nat)
     else Throw "value out of range for type integer",
     db).
Proof.
  unfold DatabaseStorage.hasUserLikedPost.
  rewrite db_run_bind, db_run_await. cbn [Db.exec].
  by destruct (Db.postIdOk postId db).
Qed.

(** [likePost] run alone: what it answers and what it leaves, by the rows
    it finds.  The update that follows the insert or the delete fails when
    the new count is outside the column type, and what went before it
    stays. *)
Lemma db_likePost_run now id userId db :
  Db.run (DatabaseStorage.likePost now id userId) db
  = match filter (λ p, Post.id p = id) (Db.posts db) with
    | [] =>
        (if bool_decide (Db.int4 id) then Ok None
         else Throw "value out of range for type integer", db)
    | post :: _ =>
        let update likes db :=
          if bool_decide (Db.int4 likes) then
            (Ok (head (withLikes (Some likes)
                         <$> filter (λ p, Post.id p = id) (Db.posts db))),
             Db.with_posts
               (fmap (λ p, if bool_decide (Post.id p = id)
                           then withLikes (Some likes) p else p)) db)
          else (Throw "integer out of range", db) in
        if bool_decide
             (0 < length (filter (Db.isLike id userId) (Db.postLikes db)))%nat
        then
          update (Z.max 0 (orZero (Post.likes post) - 1))
            (Db.with_postLikes (filter (λ r, ¬ Db.isLike id userId r)) db)
        else if Db.hasUser userId db then
          update (orZero (Post.likes post) + 1)
            (Db.with_postLikes (λ rows, rows ++ [PostLike.mk id userId now]) db)
        else
          (Throw "insert on table post_likes violates foreign key constraint on user_id",
           db)
    end.
Proof.
  unfold DatabaseStorage.likePost.
  rewrite db_run_bind, db_run_await. cbn [Db.exec].
  destruct (filter (λ p, Post.id p = id) (Db.posts db)) as [|post rest] eqn:Hf.
  { rewrite (db_postIdOk_missing id db) by by apply db_hasPost_filter_nil.
    by case_bool_decide. }
  apply db_hasPost_of_filter in Hf as Hpost.
  rewrite (db_postIdOk_hasPost id db Hpost). cbn [head].
  rewrite db_run_bind, db_hasUserLikedPost_run.
  rewrite (db_postIdOk_hasPost id db Hpost).
  case_bool_decide as Hliked.
  - rewrite db_run_bind, db_run_await. cbn [Db.exec].
    rewrite db_run_bind, db_run_await. cbn [Db.exec]. cbn zeta.
    case_bool_decide; [|done].
    change (Db.posts (Db.with_postLikes _ db)) with (Db.posts db).
    by rewrite Hf.
  - rewrite db_run_bind, db_run_await. cbn [Db.exec PostLike.postId
      PostLike.userId].
    rewrite bool_decide_false by by rewrite Exists_filter_length.
    rewrite Hpost. cbn [negb].
    destruct (Db.hasUser userId db); cbn [negb]; [|done].
    rewrite db_run_bind, db_run_await. cbn [Db.exec]. cbn zeta.
    case_bool_decide; [|done].
    change (Db.posts (Db.with_postLikes _ db)) with (Db.posts db).
    by rewrite Hf.
Qed.

Lemma db_postIdOk_false id db :
  Db.postIdOk id db = false → ¬ Db.int4 id ∧ Db.hasPost id db = false.
Proof.
  unfold Db.postIdOk. intros [H1 H2]%orb_false_iff.
  by apply bool_decide_eq_false in H1.
Qed.

Lemma db_likePost_refused now id userId db :
  Db.postIdOk id db = false →
  Db.run (DatabaseStorage.likePost now id userId) db
  = (Throw "value out of range for type integer", db).
Proof.
  intros [Hrange Hpost]%db_postIdOk_false.
  rewrite db_likePost_run, db_filter_of_hasPost by done.
  by rewrite bool_decide_false.
Qed.

Lemma filter_update_posts id likes (rows : list Post.t) :
  filter (λ p, Post.id p = id)
    ((λ p, if bool_decide (Post.id p = id) then withLikes likes p else p)
       <$> rows)
  = withLikes likes <$> filter (λ p, Post.id p = id) rows.
Proof.
  induction rows as [|p rows IH]; [done|].
  rewrite fmap_cons, !filter_cons. case_bool_decide as Hid.
  - rewrite !decide_True by done. by rewrite fmap_cons, IH.
  - by rewrite !decide_False.
Qed.

(** ** The like handler over either store *)

Lemma mem_postLike_route now id reqUser s :
  Routes.postLike (M := MemM) now
    (Routes.mkRequest (Some id) (Some reqUser)) s
  = match MemStorage.likePost id (User.id reqUser) s with
    | (None, s') => (Ok (Routes.Status 404 "Post not found"), s')
    | (Some post, s') =>
        (Ok (Routes.LikeJson post
               (negb (MemStorage.hasUserLikedPost id (User.id reqUser) s))),
         s')
    end.
Proof.
  unfold Routes.postLike, Routes.postLikeOn. cbn.
  unfold tryCatch, MemM_tryCatch, mbind, MemM_bind. cbn.
  by destruct (MemStorage.likePost id (User.id reqUser) s) as [[post|] s'].
Qed.

Lemma db_postLike_route now id reqUser db :
  Db.run (Routes.postLike (M := Db.task) now
            (Routes.mkRequest (Some id) (Some reqUser))) db
  = match Db.run (DatabaseStorage.likePost now id (User.id reqUser)) db with
    | (Ok None, db') => (Ok (Routes.Status 404 "Post not found"), db')
    | (Ok (Some post), db') =>
        (Ok (Routes.LikeJson post
               (negb (bool_decide
                        (0 < length (filter (Db.isLike id (User.id reqUser))
                                       (Db.postLikes db)))%nat))),
         db')
    | (Throw _, db') => (Ok (Routes.Status 500 "Failed to like post"), db')
    end.
Proof.
  unfold Routes.postLike, Routes.postLikeOn.
  cbn [Routes.params_id Routes.user Routes.Number].
  rewrite db_run_tryCatch, db_run_bind.
  cbn [hasUserLikedPost likePost DatabaseStorage_IStorage].
  rewrite db_hasUserLikedPost_run.
  destruct (Db.postIdOk id db) eqn:Hok.
  - rewrite db_run_bind.
    by destruct (Db.run (DatabaseStorage.likePost now id (User.id reqUser)) db)
      as [[[post|]|e] db'].
  - by rewrite db_likePost_refused.
Qed.

Lemma db_likePost_liked_filter id userId (rows : list PostLike.t) :
  filter (Db.isLike id userId) (filter (λ r, ¬ Db.isLike id userId r) rows)
  = [].
Proof.
  induction rows as [|r rows IH]; [done|].
  rewrite (filter_cons (λ r, ¬ _)). case_decide as Hr; [|done].
  by rewrite filter_cons, decide_False.
Qed.

Lemma db_likePost_unliked_filter id userId now (rows : list PostLike.t) :
  (0 < length (filter (Db.isLike id userId)
                 (rows ++ [PostLike.mk id userId now])))%nat.
Proof.
  rewrite filter_app, length_app, filter_cons, decide_True by done.
  cbn. lia.
Qed.




(** C4.  A toggle on a post id that is not stored writes nothing in
    either store: the whole store, the like relation and every counter
    included, is as it was.  [MemStorage.likePost] answers [undefined] and
    the handler over it 404, whatever the id.  Over the database, which is
    what [routes.ts] imports, that holds for the ids of the [integer]
    column only: the handler lets every number but [NaN] through, and for
    an id outside the 32 bits, or one that is no integer, the first select
    throws and the handler answers 500 instead of 404.  The request
    [POST /api/posts/2147483648/like] on the seeded database is such a
    one. *)
Theorem C4_like_missing_post :
  (∀ now id reqUser s,
     MemStorage.posts s !! id = None →
     MemStorage.likePost id (User.id reqUser) s = (None, s)
     ∧ Routes.postLike (M := MemM) now
         (Routes.mkRequest (Some id) (Some reqUser)) s
       = (Ok (Routes.Status 404 "Post not found"), s))
  ∧ (∀ now reqUser s,
       Routes.postLikeOn (M := MemM) now Routes.NotInteger (Some reqUser) s
       = (Ok (Routes.Status 404 "Post not found"), s))
  ∧ (∀ now id reqUser db,
       Db.hasPost id db = false →
       -2147483648 ≤ id ≤ 2147483647 →
       Db.run (DatabaseStorage.likePost now id (User.id reqUser)) db
       = (Ok None, db)
       ∧ Db.run (Routes.postLike (M := Db.task) now
                   (Routes.mkRequest (Some id) (Some reqUser))) db
         = (Ok (Routes.Status 404 "Post not found"), db))
  ∧ (∀ now id reqUser db,
       Db.hasPost id db = false →
       ¬ (-2147483648 ≤ id ≤ 2147483647) →
       Db.run (DatabaseStorage.likePost now id (User.id reqUser)) db
       = (Throw "value out of range for type integer", db)
       ∧ Db.run (Routes.postLike (M := Db.task) now
                   (Routes.mkRequest (Some id) (Some reqUser))) db
         = (Ok (Routes.Status 500 "Failed to like post"), db))
  ∧ (∀ now reqUser db,
       Db.run (Routes.postLikeOn (M := Db.task) now Routes.NotInteger
                 (Some reqUser)) db
       = (Ok (Routes.Status 500 "Failed to like post"), db))
  ∧ (let now := 1700000000000 in
     let s := MemStorage.constructor now in
     let db := DatabaseStorage.seeded now in
     let reqUser := User.mk 1 "alex.johnson" "password123" "Alex Johnson"
                      None (Some "Product Manager") in
     let req := Routes.mkRequest (Some 2147483648) (Some reqUser) in
     MemStorage.posts s !! 2147483648 = None
     ∧ Db.hasPost 2147483648 db = false
     ∧ Routes.postLike (M := MemM) now req s
       = (Ok (Routes.Status 404 "Post not found"), s)
     ∧ Db.run (Routes.postLike (M := Db.task) now req) db
       = (Ok (Routes.Status 500 "Failed to like post"), db)).
Proof.
  split_and!.
  - intros now id reqUser s Hmem.
    assert (H1 : MemStorage.likePost id (User.id reqUser) s = (None, s))
      by by apply mem_likePost_missing.
    split; [done|]. by rewrite mem_postLike_route, H1.
  - done.
  - intros now id reqUser db Hdb Hrange.
    assert (H2 : Db.run (DatabaseStorage.likePost now id (User.id reqUser)) db
                 = (Ok None, db)).
    { rewrite db_likePost_run, db_filter_of_hasPost by done.
      by rewrite bool_decide_true. }
    split; [done|]. by rewrite db_postLike_route, H2.
  - intros now id reqUser db Hdb Hrange.
    assert (H2 : Db.run (DatabaseStorage.likePost now id (User.id reqUser)) db
                 = (Throw "value out of range for type integer", db)).
    { rewrite db_likePost_run, db_filter_of_hasPost by done.
      by rewrite bool_decide_false. }
    split; [done|]. by rewrite db_postLike_route, H2.
  - done.
  - vm_compute. done.
Qed.

(** C7.  [getTimeAgo], the same in both stores, buckets the elapsed whole
    seconds [d] as the specification says: below 60 seconds [N seconds
    ago]; below 60 minutes [N minute(s) ago]; below 24 hours [N hour(s)
    ago]; below 30 days [N day(s) ago]; otherwise [N month(s) ago] with the
    months the days divided by 30; the singular is used exactly when
    [N = 1].  59 seconds give [59 seconds ago], 60 seconds [1 minute ago],
    3661 seconds [1 hour ago]. *)
Theorem C7_timeAgo_buckets :
  (∀ now date,
     MemStorage.getTimeAgo now date = timeAgo ((now - date) `div` 1000)
     ∧ DatabaseStorage.getTimeAgo now date
       = timeAgo ((now - date) `div` 1000))
  ∧ (∀ n one many,
       agoUnits n one many
       = pretty n +:+ " " +:+ (if bool_decide (n = 1) then one else many)
         +:+ " ago")
  ∧ (∀ date, MemStorage.getTimeAgo (date + 59 * 1000) date = "59 seconds ago")
  ∧ (∀ date, MemStorage.getTimeAgo (date + 60 * 1000) date = "1 minute ago")
  ∧ (∀ date, MemStorage.getTimeAgo (date + 3661 * 1000) date = "1 hour ago")
  ∧ timeAgo 1 = "1 seconds ago"
  ∧ timeAgo 119 = "1 minute ago"
  ∧ timeAgo 120 = "2 minutes ago"
  ∧ timeAgo (30 * 86400 - 1) = "29 days ago"
  ∧ timeAgo (30 * 86400) = "1 month ago"
  ∧ timeAgo (60 * 86400) = "2 months ago".
Proof.
  assert (Hsec : ∀ date k, (date + k * 1000 - date) `div` 1000 = k).
  { intros date k. replace (date + k * 1000 - date) with (k * 1000) by lia.
    by apply Z.div_mul. }
  split_and!; try reflexivity.
  - intros now date. split; apply getTimeAgo_body_buckets.
  - intros date. unfold MemStorage.getTimeAgo.
    by rewrite getTimeAgo_body_buckets, Hsec.
  - intros date. unfold MemStorage.getTimeAgo.
    by rewrite getTimeAgo_body_buckets, Hsec.
  - intros date. unfold MemStorage.getTimeAgo.
    by rewrite getTimeAgo_body_buckets, Hsec.
Qed.

(** C10.  [DatabaseStorage.getRecentActivities] returns the empty list in
    every state of the database and writes nothing, so the activities
    handler over the database store always answers with an empty array. *)
Theorem C10_database_activities_empty db :
  Db.run DatabaseStorage.getRecentActivities db = (Ok [], db)
  ∧ Db.run (Routes.getActivities (M := Db.task)) db
    = (Ok (Routes.ActivitiesJson []), db).
Proof. split; reflexivity. Qed.

Lemma sameButLikes_refl post : sameButLikes post post.
Proof. by repeat split. Qed.

Lemma sameButLikes_withLikes likes post :
  sameButLikes post (withLikes likes post).
Proof. by repeat split. Qed.

Lemma db_update_posts_frame id likes (rows : list Post.t) :
  Forall2 (λ p p', if bool_decide (Post.id p = id)
                   then sameButLikes p p' else p' = p)
    rows
    ((λ p, if bool_decide (Post.id p = id) then withLikes likes p else p)
       <$> rows).
Proof.
  induction rows as [|p rows IH]; [constructor|].
  rewrite fmap_cons. constructor; [|done].
  case_bool_decide; [apply sameButLikes_withLikes|done].
Qed.

Lemma db_posts_frame_refl id (rows : list Post.t) :
  Forall2 (λ p p', if bool_decide (Post.id p = id)
                   then sameButLikes p p' else p' = p) rows rows.
Proof.
  induction rows as [|p rows IH]; constructor; [|done].
  case_bool_decide; [apply sameButLikes_refl|done].
Qed.

Lemma filter_filter_same {A} (P : A → Prop) `{!∀ x, Decision (P x)}
    (l : list A) :
  filter P (filter P l) = filter P l.
Proof.
  induction l as [|x l IH]; [done|].
  rewrite filter_cons. case_decide; [|done].
  by rewrite filter_cons, decide_True, IH.
Qed.

(** C9.  [likePost] on post [id] by user [userId] writes at most the
    membership of that pair in the like relation and the [likes] field of
    that post.  Users, comments, activities and the id counters are the
    same; every other post is the same; the post itself keeps its id,
    title, description, file name, owner, creation time and comment count;
    every other pair keeps its like status.  This holds in both stores and
    in every state, also when the call fails. *)
Theorem C9_likePost_frame now id userId s db :
  let s' := (MemStorage.likePost id userId s).2 in
  let db' := (Db.run (DatabaseStorage.likePost now id userId) db).2 in
  (MemStorage.users s' = MemStorage.users s
   ∧ MemStorage.comments s' = MemStorage.comments s
   ∧ MemStorage.activities s' = MemStorage.activities s
   ∧ MemStorage.userCurrentId s' = MemStorage.userCurrentId s
   ∧ MemStorage.postCurrentId s' = MemStorage.postCurrentId s
   ∧ MemStorage.activityCurrentId s' = MemStorage.activityCurrentId s
   ∧ MemStorage.commentCurrentId s' = MemStorage.commentCurrentId s
   ∧ (∀ q, q ≠ id → MemStorage.posts s' !! q = MemStorage.posts s !! q)
   ∧ match MemStorage.posts s !! id, MemStorage.posts s' !! id with
     | Some post, Some post' => sameButLikes post post'
     | None, None => True
     | _, _ => False
     end
   ∧ (∀ key, key ≠ MemStorage.likeKey id userId →
        MemStorage.postLikesMap s' !! key = MemStorage.postLikesMap s !! key)
   ∧ (∀ q v, ¬ (q = id ∧ v = userId) →
        MemStorage.hasUserLikedPost q v s'
        = MemStorage.hasUserLikedPost q v s))
  ∧ (Db.users db' = Db.users db
     ∧ Db.comments db' = Db.comments db
     ∧ Db.users_id_seq db' = Db.users_id_seq db
     ∧ Db.posts_id_seq db' = Db.posts_id_seq db
     ∧ Db.comments_id_seq db' = Db.comments_id_seq db
     ∧ Forall2 (λ p p', if bool_decide (Post.id p = id)
                        then sameButLikes p p' else p' = p)
         (Db.posts db) (Db.posts db')
     ∧ filter (λ r, ¬ Db.isLike id userId r) (Db.postLikes db')
       = filter (λ r, ¬ Db.isLike id userId r) (Db.postLikes db)).
Proof.
  intros s' db'. split.
  - destruct (mem_likePost_frame s id userId) as (?&?&?&?&?&?&?).
    split_and!; try done.
    + intros q Hq. unfold s'.
      destruct (MemStorage.posts s !! id) as [post|] eqn:Hp;
        [|by rewrite mem_likePost_missing].
      rewrite (mem_likePost_posts _ _ _ _ Hp). by apply lookup_insert_ne.
    + unfold s'.
      destruct (MemStorage.posts s !! id) as [post|] eqn:Hp.
      * rewrite (mem_likePost_posts _ _ _ _ Hp), lookup_insert_eq.
        apply sameButLikes_withLikes.
      * rewrite mem_likePost_missing by done. cbn. by rewrite Hp.
    + intros key Hkey. unfold s'.
      destruct (MemStorage.posts s !! id) as [post|] eqn:Hp;
        [|by rewrite mem_likePost_missing].
      rewrite mem_likePost_postLikesMap by by eexists.
      destruct (MemStorage.hasUserLikedPost id userId s).
      * by apply lookup_delete_ne.
      * by apply lookup_insert_ne.
    + intros q v Hne. unfold s'.
      destruct (MemStorage.posts s !! id) as [post|] eqn:Hp;
        [|by rewrite mem_likePost_missing].
      rewrite mem_likePost_hasLiked by by eexists.
      by rewrite bool_decide_false.
  - unfold db'. rewrite db_likePost_run.
    destruct (filter (λ p, Post.id p = id) (Db.posts db)) as [|row rest].
    { split_and!; try done. apply db_posts_frame_refl. }
    cbn zeta.
    destruct (bool_decide (0 < length _)%nat);
      [|destruct (Db.hasUser userId db)].
    + destruct (bool_decide (Db.int4 _)); cbn.
      * split_and!; try done; [apply db_update_posts_frame|].
        apply filter_filter_same.
      * split_and!; try done; [apply db_posts_frame_refl|].
        apply filter_filter_same.
    + destruct (bool_decide (Db.int4 _)); cbn.
      * split_and!; try done; [apply db_update_posts_frame|].
        rewrite filter_app, filter_cons, decide_False
          by (intros Hn; by apply Hn).
        by rewrite filter_nil, app_nil_r.
      * split_and!; try done; [apply db_posts_frame_refl|].
        rewrite filter_app, filter_cons, decide_False
          by (intros Hn; by apply Hn).
        by rewrite filter_nil, app_nil_r.
    + split_and!; try done. apply db_posts_frame_refl.
Qed.

(** ** The stable sort *)

Section js_sort.
Context {A : Type}.
Implicit Types (cmp : A → A → Z) (l : list A).

Lemma jsSort_snoc cmp l x :
  jsSort cmp (l ++ [x]) = jsInsert cmp x (jsSort cmp l).
Proof. unfold jsSort. by rewrite foldl_app. Qed.

Lemma jsInsert_Permutation cmp x l : jsInsert cmp x l ≡ₚ x :: l.
Proof.
  induction l as [|y l IH]; cbn; [done|].
  case_bool_decide; [done|]. rewrite IH. apply Permutation_swap.
Qed.

Lemma jsSort_Permutation cmp l : jsSort cmp l ≡ₚ l.
Proof.
  induction l as [|x l IH] using rev_ind; [done|].
  rewrite jsSort_snoc, jsInsert_Permutation, IH.
  by rewrite Permutation_cons_append.
Qed.

Lemma jsInsert_length cmp x l : length (jsInsert cmp x l) = S (length l).
Proof. by rewrite jsInsert_Permutation. Qed.

(** An element that goes strictly before everything there goes first. *)
Lemma jsInsert_first cmp x l :
  Forall (λ y, cmp x y < 0) l → jsInsert cmp x l = x :: l.
Proof.
  destruct l as [|y l]; [done|]. intros [Hy _]%Forall_cons. cbn.
  by rewrite bool_decide_true.
Qed.

(** Sorting by a key, largest first, as the comparator
    [(a, b) => key b - key a] does. *)
Variable key : A → Z.

Lemma jsInsert_sorted x l :
  Sorted (λ a b, key b ≤ key a) l →
  Sorted (λ a b, key b ≤ key a) (jsInsert (λ a b, key b - key a) x l).
Proof.
  induction l as [|y l IH]; cbn; intros Hs.
  - by repeat constructor.
  - apply Sorted_inv in Hs as [Hs Hhd]. case_bool_decide as Hlt.
    + constructor; [by constructor|]. constructor. lia.
    + constructor; [by apply IH|].
      destruct l as [|z l]; cbn.
      * constructor. lia.
      * case_bool_decide; constructor; [lia|].
        by apply HdRel_inv in Hhd.
Qed.

Lemma jsSort_sorted l :
  Sorted (λ a b, key b ≤ key a) (jsSort (λ a b, key b - key a) l).
Proof.
  induction l as [|x l IH] using rev_ind; [constructor|].
  rewrite jsSort_snoc. by apply jsInsert_sorted.
Qed.

End js_sort.

(** [mapM] of a callback that may throw, over an insertion: when the
    callback keeps the comparisons, inserting commutes with mapping. *)
Lemma mapM_jsInsert {A B} (f : A → outcome B) cmp cmp' x x' l l' :
  (∀ a b a' b', f a = Ok a' → f b = Ok b' → cmp' a' b' = cmp a b) →
  f x = Ok x' → mapM f l = Ok l' →
  mapM f (jsInsert cmp x l) = Ok (jsInsert cmp' x' l').
Proof.
  intros Hcmp Hx. revert l'. induction l as [|y l IH]; intros l'; cbn.
  - intros [= <-]. by rewrite Hx.
  - destruct (f y) as [y'|e] eqn:Hy; cbn; [|done].
    destruct (mapM f l) as [l0|e] eqn:Hl; cbn; [|done].
    intros [= <-]. cbn. rewrite (Hcmp _ _ _ _ Hx Hy).
    case_bool_decide; cbn.
    + by rewrite Hx, Hy, Hl.
    + by rewrite Hy, (IH l0).
Qed.

Lemma mapM_outcome_ext {A B} (f g : A → outcome B) l :
  (∀ x, f x = g x) → mapM f l = mapM g l.
Proof.
  intros Hfg. induction l as [|y l IH]; [done|]. cbn. by rewrite Hfg, IH.
Qed.

(** A mapped list is sorted by a key when the list it comes from is sorted
    by the same key. *)
Lemma mapM_Ok_sorted {A B} (f : A → outcome B) (key : A → Z) (key' : B → Z)
    l l' :
  (∀ a a', f a = Ok a' → key' a' = key a) →
  mapM f l = Ok l' →
  Sorted (λ a b, key b ≤ key a) l →
  Sorted (λ a b, key' b ≤ key' a) l'.
Proof.
  intros Hkey. revert l'. induction l as [|y l IH]; intros l'; cbn.
  - intros [= <-] _. constructor.
  - destruct (f y) as [y'|e] eqn:Hy; cbn; [|done].
    destruct (mapM f l) as [l0|e] eqn:Hl; cbn; [|done].
    intros [= <-] [Hs Hhd]%Sorted_inv. constructor; [by apply IH|].
    destruct l as [|z l]; cbn in Hl.
    + injection Hl as <-. constructor.
    + destruct (f z) as [z'|] eqn:Hz; cbn in Hl; [|done].
      destruct (mapM f l); cbn in Hl; [|done]. injection Hl as <-.
      constructor. apply HdRel_inv in Hhd.
      by rewrite (Hkey _ _ Hy), (Hkey _ _ Hz).
Qed.

(** ** [createComment] in [MemStorage] *)

Lemma mem_withAuthor_Ok now s comment c' :
  MemStorage.withAuthor now s comment = Ok c' →
  CommentWithAuthor.comment c' = comment.
Proof.
  unfold MemStorage.withAuthor.
  destruct (MemStorage.users s !! Comment.userId comment); [|done].
  by intros [= <-].
Qed.

Lemma mem_createComment_comments now commentData s :
  MemStorage.invariant s →
  MemStorage.comments (MemStorage.createComment now commentData s).2
  = MemStorage.comments s
    ++ [(MemStorage.commentCurrentId s,
         (MemStorage.createComment now commentData s).1)].
Proof.
  intros (_ & _ & H3).
  destruct (mem_createComment_frame now commentData s) as (_ & _ & _ & _ & ->).
  apply jsmap_set_fresh. intros v' Hin. destruct (H3 _ _ Hin). lia.
Qed.

Lemma mem_createComment_list now now' commentData s author before :
  MemStorage.invariant s →
  MemStorage.users s !! InsertComment.userId commentData = Some author →
  MemStorage.getCommentsByPostId now' (InsertComment.postId commentData) s
  = Ok before →
  MemStorage.getCommentsByPostId now' (InsertComment.postId commentData)
    (MemStorage.createComment now commentData s).2
  = Ok (jsInsert
          (λ a b, CommentWithAuthor.createdAt b - CommentWithAuthor.createdAt a)
          (CommentWithAuthor.mk (MemStorage.createComment now commentData s).1
             author (MemStorage.getTimeAgo now' now))
          before).
Proof.
  intros Hinv Hauthor Hbefore. unfold MemStorage.getCommentsByPostId in *.
  rewrite mem_createComment_comments by done.
  unfold jsmap_values in *. rewrite fmap_app, filter_app. cbn [fmap list_fmap snd].
  rewrite (filter_cons _ _ []), decide_True, filter_nil by done.
  rewrite jsSort_snoc.
  destruct (mem_createComment_frame now commentData s) as (Husers & _).
  unfold MemStorage.withAuthor in *. rewrite Husers.
  apply (mapM_jsInsert _ (λ a b, Comment.createdAt b - Comment.createdAt a));
    [|by cbn; rewrite Hauthor|done].
  intros a b a' b' Ha Hb.
  apply mem_withAuthor_Ok in Ha as <-. by apply mem_withAuthor_Ok in Hb as <-.
Qed.

(** ** [createComment] in [DatabaseStorage] *)

Lemma db_run_transaction {X} (body : Db.task X) db :
  Db.run (Db.transaction body) db
  = match Db.run body db with
    | (Ok x, db') => (Ok x, db')
    | (Throw e, db') => (Throw e, Db.rollback db db')
    end.
Proof. cbn. by destruct (Db.run body db) as [[x|e] db']. Qed.

Lemma db_rollback_same db : Db.rollback db db = db.
Proof. by destruct db. Qed.

(** [createComment] run alone.  A post id outside the column type stops
    the insert before it runs; a failed insert has used up the next id;
    when the increment fails the inserted row is rolled back. *)
Lemma db_createComment_run now commentData db :
  let postId := InsertComment.postId commentData in
  let id := Db.comments_id_seq db in
  let row :=
    Comment.mk id (InsertComment.content commentData)
      postId (InsertComment.userId commentData) now in
  let failed := Db.with_comments_id_seq (id + 1) db in
  Db.run (DatabaseStorage.createComment now commentData) db
  = if negb (Db.postIdOk postId db) then
      (Throw "value out of range for type integer", db)
    else if bool_decide (Exists (λ c, Comment.id c = id) (Db.comments db)) then
      (Throw "duplicate key value violates unique constraint comments_pkey",
       failed)
    else if negb (Db.hasPost postId db) then
      (Throw "insert on table comments violates foreign key constraint on post_id",
       failed)
    else if negb (Db.hasUser (InsertComment.userId commentData) db) then
      (Throw "insert on table comments violates foreign key constraint on user_id",
       failed)
    else if bool_decide
              (Exists (λ p, Post.id p = postId ∧ Db.commentsOverflow p)
                 (Db.posts db))
    then (Throw "integer out of range", failed)
    else
      (Ok (Some row),
       Db.with_posts
         (fmap (λ p, if bool_decide (Post.id p = postId)
                     then withComments ((λ n, n + 1) <$> Post.comments p) p
                     else p))
         (Db.with_comments (λ rows, rows ++ [row]) failed)).
Proof.
  intros postId id row failed. unfold DatabaseStorage.createComment.
  rewrite db_run_transaction, db_run_bind, db_run_await. cbn [Db.exec].
  fold postId id.
  destruct (Db.postIdOk postId db); cbn [negb];
    [|by rewrite db_rollback_same].
  cbn zeta.
  change (Db.comments (Db.with_comments_id_seq _ db)) with (Db.comments db).
  change (Db.hasPost ?a (Db.with_comments_id_seq _ db))
    with (Db.hasPost a db).
  change (Db.hasUser ?a (Db.with_comments_id_seq _ db))
    with (Db.hasUser a db).
  fold failed.
  destruct (bool_decide (Exists (λ c, Comment.id c = id) (Db.comments db)));
    [by destruct db|].
  destruct (Db.hasPost postId db); cbn [negb]; [|by destruct db].
  destruct (Db.hasUser _ db); cbn [negb]; [|by destruct db].
  rewrite db_run_bind, db_run_await. cbn [Db.exec].
  change (Db.posts (Db.with_comments _ failed)) with (Db.posts db).
  destruct (bool_decide (Exists _ (Db.posts db))); [by destruct db|].
  done.
Qed.

Lemma db_withAuthor_run now comment db :
  Db.run (DatabaseStorage.withAuthor now comment) db
  = (DatabaseStorage.withAuthorIn now db comment, db).
Proof.
  unfold DatabaseStorage.withAuthorIn, DatabaseStorage.withAuthor. cbn.
  by destruct (head (filter _ (Db.users db))).
Qed.

Lemma db_withAuthorIn_users now db db' comment :
  Db.users db' = Db.users db →
  DatabaseStorage.withAuthorIn now db' comment
  = DatabaseStorage.withAuthorIn now db comment.
Proof.
  intros Husers.
  unfold DatabaseStorage.withAuthorIn, DatabaseStorage.withAuthor. cbn.
  rewrite Husers. by destruct (head (filter _ (Db.users db))).
Qed.

Lemma db_withAuthorIn_Ok now db comment c' :
  DatabaseStorage.withAuthorIn now db comment = Ok c' →
  CommentWithAuthor.comment c' = comment.
Proof.
  unfold DatabaseStorage.withAuthorIn, DatabaseStorage.withAuthor. cbn.
  destruct (head (filter _ (Db.users db))); cbn; [|done]. by intros [= <-].
Qed.

Lemma db_withAuthorIn_hasUser now db comment :
  Db.hasUser (Comment.userId comment) db = true →
  ∃ author,
    DatabaseStorage.withAuthorIn now db comment
    = Ok (CommentWithAuthor.mk comment author
            (DatabaseStorage.getTimeAgo now (Comment.createdAt comment))).
Proof.
  intros Hu%bool_decide_eq_true%Exists_exists. destruct Hu as (u & Hin & Hid).
  unfold DatabaseStorage.withAuthorIn, DatabaseStorage.withAuthor. cbn.
  destruct (filter (λ u, User.id u = Comment.userId comment) (Db.users db))
    as [|author rest] eqn:Hf; cbn; [|by eexists].
  assert (u ∈ filter (λ u, User.id u = Comment.userId comment) (Db.users db))
    as Hu by by apply list_elem_of_filter.
  rewrite Hf in Hu. by apply elem_of_nil in Hu.
Qed.

Lemma db_mapM_withAuthor_run now l db :
  Db.run (mapM (DatabaseStorage.withAuthor now) l) db
  = (mapM (DatabaseStorage.withAuthorIn now db) l, db).
Proof.
  induction l as [|c l IH]; [done|].
  cbn [mapM]. rewrite db_run_bind, db_withAuthor_run.
  destruct (DatabaseStorage.withAuthorIn now db c) as [c'|e];
    cbn [mbind outcome_bind]; [|done].
  rewrite db_run_bind, IH.
  by destruct (mapM (DatabaseStorage.withAuthorIn now db) l).
Qed.

Lemma db_getCommentsByPostId_run now postId db :
  Db.run (DatabaseStorage.getCommentsByPostId now postId) db
  = (if Db.postIdOk postId db then
       commentsWithAuthors ←
         mapM (DatabaseStorage.withAuthorIn now db)
           (jsSort (λ a b, Comment.createdAt a - Comment.createdAt b)
              (filter (λ c, Comment.postId c = postId) (Db.comments db)));
       mret (jsSort (λ a b, CommentWithAuthor.createdAt b
                            - CommentWithAuthor.createdAt a)
               commentsWithAuthors)
     else Throw "value out of range for type integer",
     db).
Proof.
  unfold DatabaseStorage.getCommentsByPostId.
  rewrite db_run_bind, db_run_await. cbn [Db.exec].
  destruct (Db.postIdOk postId db); [|done].
  rewrite db_run_bind, db_mapM_withAuthor_run.
  by destruct (mapM _ _).
Qed.

Lemma mem_getComments_sorted now postId s l :
  MemStorage.getCommentsByPostId now postId s = Ok l →
  Sorted (λ a b, CommentWithAuthor.createdAt b ≤ CommentWithAuthor.createdAt a)
    l.
Proof.
  unfold MemStorage.getCommentsByPostId. intros Hl.
  eapply (mapM_Ok_sorted _ Comment.createdAt); [|done|apply jsSort_sorted].
  by intros a a' <-%mem_withAuthor_Ok.
Qed.

(** [MemStorage.createComment] on a post id that is not stored keeps the
    comment and touches no counter. *)
Lemma mem_createComment_no_post now commentData s :
  MemStorage.posts s !! InsertComment.postId commentData = None →
  MemStorage.posts (MemStorage.createComment now commentData s).2
  = MemStorage.posts s
  ∧ (MemStorage.commentCurrentId s,
     (MemStorage.createComment now commentData s).1)
    ∈ MemStorage.comments (MemStorage.createComment now commentData s).2.
Proof.
  intros Hp. rewrite mem_createComment_posts, Hp. split; [done|].
  destruct (mem_createComment_frame now commentData s) as (_&_&_&_& ->).
  generalize (MemStorage.createComment now commentData s).1.
  generalize (MemStorage.commentCurrentId s). intros k c.
  induction (MemStorage.comments s) as [|[k' c'] m IH]; cbn.
  - apply list_elem_of_singleton. done.
  - case_bool_decide; [left|by right].
Qed.

(** What the SQL [comments = comments + 1] makes of the post rows: the
    rows of the post get one more, a null counter stays null, the other
    fields and the other rows stay. *)
Lemma db_increment_posts_frame postId (rows : list Post.t) :
  Forall2
    (λ p p',
       if bool_decide (Post.id p = postId) then
         sameButComments p p'
         ∧ Post.comments p'
           = match Post.comments p with
             | Some n => Some (n + 1)
             | None => None
             end
       else p' = p)
    rows
    ((λ p, if bool_decide (Post.id p = postId)
           then withComments ((λ n, n + 1) <$> Post.comments p) p else p)
       <$> rows).
Proof.
  induction rows as [|p rows IH]; [constructor|].
  rewrite fmap_cons. constructor; [|done].
  case_bool_decide; [|done]. split; [by repeat split|].
  cbn. by destruct (Post.comments p).
Qed.

Lemma db_hasPost_fmap (f : Post.t → Post.t) id db db' :
  Db.posts db' = f <$> Db.posts db →
  (∀ p, Post.id (f p) = Post.id p) →
  Db.hasPost id db' = Db.hasPost id db.
Proof.
  intros Hposts Hid. unfold Db.hasPost. rewrite Hposts.
  apply bool_decide_ext. rewrite Exists_fmap.
  split; intros H; (eapply Exists_impl; [exact H|]); intros p; cbn;
    by rewrite Hid.
Qed.

(** [createComment] when nothing stands in its way. *)
Lemma db_createComment_ok now commentData db :
  let postId := InsertComment.postId commentData in
  let row :=
    Comment.mk (Db.comments_id_seq db) (InsertComment.content commentData)
      postId (InsertComment.userId commentData) now in
  Db.hasPost postId db = true →
  Db.hasUser (InsertComment.userId commentData) db = true →
  ¬ Exists (λ c, Comment.id c = Db.comments_id_seq db) (Db.comments db) →
  ¬ Exists (λ p, Post.id p = postId ∧ Db.commentsOverflow p) (Db.posts db) →
  let r := Db.run (DatabaseStorage.createComment now commentData) db in
  r.1 = Ok (Some row)
  ∧ Db.comments r.2 = Db.comments db ++ [row]
  ∧ Db.posts r.2
    = (λ p, if bool_decide (Post.id p = postId)
            then withComments ((λ n, n + 1) <$> Post.comments p) p else p)
      <$> Db.posts db
  ∧ Db.users r.2 = Db.users db
  ∧ Db.postLikes r.2 = Db.postLikes db.
Proof.
  intros postId row Hpost Huser Hfresh Hfits r. unfold r.
  rewrite db_createComment_run. fold postId.
  rewrite (db_postIdOk_hasPost _ _ Hpost), Hpost, Huser. cbn [negb].
  by rewrite !bool_decide_false by done.
Qed.

(** [createComment] is all or nothing in every state of the database. *)
Lemma db_createComment_atomic now commentData db :
  let postId := InsertComment.postId commentData in
  let row :=
    Comment.mk (Db.comments_id_seq db) (InsertComment.content commentData)
      postId (InsertComment.userId commentData) now in
  let r := Db.run (DatabaseStorage.createComment now commentData) db in
  Db.users r.2 = Db.users db
  ∧ Db.postLikes r.2 = Db.postLikes db
  ∧ match r.1 with
    | Ok comment =>
        comment = Some row
        ∧ Db.comments r.2 = Db.comments db ++ [row]
        ∧ Db.posts r.2
          = (λ p, if bool_decide (Post.id p = postId)
                  then withComments ((λ n, n + 1) <$> Post.comments p) p
                  else p) <$> Db.posts db
    | Throw _ => Db.comments r.2 = Db.comments db ∧ Db.posts r.2 = Db.posts db
    end.
Proof.
  intros postId row r. unfold r. rewrite db_createComment_run. fold postId.
  destruct (Db.postIdOk postId db); cbn [negb]; [|done].
  case_bool_decide; [done|].
  destruct (Db.hasPost _ db); cbn [negb]; [|done].
  destruct (Db.hasUser _ db); cbn [negb]; [|done].
  case_bool_decide; done.
Qed.




(** [DatabaseStorage.createUser]: the unique constraint on
    [users.username] rejects a taken name and leaves the table as it was; a
    fresh name gives a row with the next id. *)
Lemma db_createUser_taken userData db :
  Exists (λ u, User.username u = InsertUser.username userData) (Db.users db) →
  ∃ e db', Db.run (DatabaseStorage.createUser userData) db = (Throw e, db')
           ∧ Db.users db' = Db.users db.
Proof.
  intros Htaken. unfold DatabaseStorage.createUser. cbn.
  change (Db.hasUser ?a (Db.with_users_id_seq _ db)) with (Db.hasUser a db).
  destruct (Db.hasUser _ db); cbn; [by eauto|].
  rewrite bool_decide_true by done. cbn. by eauto.
Qed.

Lemma db_createUser_fresh userData db :
  ¬ Exists (λ u, User.username u = InsertUser.username userData)
      (Db.users db) →
  Db.hasUser (Db.users_id_seq db) db = false →
  ∃ user db',
    Db.run (DatabaseStorage.createUser userData) db = (Ok (Some user), db')
    ∧ User.id user = Db.users_id_seq db
    ∧ User.username user = InsertUser.username userData
    ∧ Db.users db' = Db.users db ++ [user].
Proof.
  intros Hfresh Hid. unfold DatabaseStorage.createUser. cbn.
  change (Db.hasUser ?a (Db.with_users_id_seq _ db)) with (Db.hasUser a db).
  rewrite Hid, bool_decide_false by done. cbn. by eauto 10.
Qed.

(** C6.  [MemStorage.createUser] never looks at the usernames in the
    store: it always returns a user under the next id and stores it, also
    when the username is taken.  In the store the constructor makes,
    creating [alex.johnson] again gives user 4 next to user 1 of the same
    name.  [DatabaseStorage.createUser] on the seeded database does what
    the claim says: the insert throws on the unique constraint and the
    [users] table is as it was. *)
Theorem C6_mem_createUser_takes_duplicates :
  let again :=
    InsertUser.mk "alex.johnson" "secret" "Another Alex" None None in
  (∀ userData s,
     let r := MemStorage.createUser userData s in
     User.id r.1 = MemStorage.userCurrentId s
     ∧ User.username r.1 = InsertUser.username userData
     ∧ MemStorage.users r.2 !! MemStorage.userCurrentId s = Some r.1)
  ∧ (∀ now,
       let s := MemStorage.constructor now in
       let r := MemStorage.createUser again s in
       (User.username <$> MemStorage.users s !! 1) = Some "alex.johnson"
       ∧ User.id r.1 = 4
       ∧ (User.username <$> MemStorage.users r.2 !! 1) = Some "alex.johnson"
       ∧ (User.username <$> MemStorage.users r.2 !! 4) = Some "alex.johnson")
  ∧ (∀ now,
       let db := DatabaseStorage.seeded now in
       let r := Db.run (DatabaseStorage.createUser again) db in
       r.1 = Throw "duplicate key value violates unique constraint users_username_unique"
       ∧ Db.users r.2 = Db.users db).
Proof.
  split_and!.
  - intros userData s r. split_and!; [done..|]. apply lookup_insert_eq.
  - intros now. vm_compute. done.
  - intros now. vm_compute. done.
Qed.

(** ** Two toggles in flight *)

(** Whatever the database, when two different users who do not like a
    stored post toggle it with their statements taking turns, both read the
    same counter and both write it plus one. *)
Lemma db_likePost_interleaved now id u1 u2 db row rest :
  filter (λ p, Post.id p = id) (Db.posts db) = row :: rest →
  u1 ≠ u2 →
  Db.hasUser u1 db = true → Db.hasUser u2 db = true →
  filter (Db.isLike id u1) (Db.postLikes db) = [] →
  filter (Db.isLike id u2) (Db.postLikes db) = [] →
  Db.int4 (orZero (Post.likes row) + 1) →
  let likes := Some (orZero (Post.likes row) + 1) in
  let r :=
    Db.interleave [true; false; true; false; true; false; true; false]
      (DatabaseStorage.likePost now id u1)
      (DatabaseStorage.likePost now id u2) db in
  r.1.1 = Db.Return (Some (withLikes likes row))
  ∧ r.1.2 = Db.Return (Some (withLikes likes row))
  ∧ Db.postLikes r.2
    = Db.postLikes db ++ [PostLike.mk id u1 now; PostLike.mk id u2 now]
  ∧ filter (λ p, Post.id p = id) (Db.posts r.2)
    = withLikes likes <$> (row :: rest).
Proof.
  intros Hrow Hne Hu1 Hu2 Hl1 Hl2 Hfits likes r.
  apply db_hasPost_of_filter in Hrow as Hpost.
  pose proof (db_postIdOk_hasPost id db Hpost) as Hok.
  assert (Hr : r = (Db.Return (Some (withLikes likes row)),
                    Db.Return (Some (withLikes likes row)),
                    Db.with_posts
                      (fmap (λ p, if bool_decide (Post.id p = id)
                                  then withLikes likes p else p))
                      (Db.with_posts
                         (fmap (λ p, if bool_decide (Post.id p = id)
                                     then withLikes likes p else p))
                         (Db.with_postLikes
                            (λ rows, rows ++ [PostLike.mk id u2 now])
                            (Db.with_postLikes
                               (λ rows, rows ++ [PostLike.mk id u1 now])
                               db))))).
  { assert (Hno1 : ¬ Exists (Db.isLike id u1) (Db.postLikes db))
      by (rewrite Exists_filter_length, Hl1; cbn; lia).
    assert (Hno2 : ¬ Exists (Db.isLike id u2)
                       (Db.postLikes db ++ [PostLike.mk id u1 now])).
    { rewrite Exists_filter_length, filter_app, Hl2, filter_cons,
        decide_False.
      - cbn. lia.
      - by intros [_ ?]. }
    unfold r, DatabaseStorage.likePost, DatabaseStorage.hasUserLikedPost.
    repeat
      (cbn -[filter Db.postIdOk Db.int4 Db.hasPost Db.hasUser];
       first
         [ rewrite Hok
         | rewrite Hrow
         | rewrite Hl1
         | rewrite Hl2
         | rewrite (bool_decide_false (0 < 0)%nat) by lia
         | rewrite (bool_decide_false _ Hno1)
         | rewrite (bool_decide_false _ Hno2)
         | rewrite Hpost
         | rewrite Hu1
         | rewrite Hu2
         | rewrite (bool_decide_true (Db.int4 _) Hfits)
         | progress change (Db.postIdOk id (Db.with_postLikes ?f ?d))
             with (Db.postIdOk id d)
         | progress change (Db.hasPost id (Db.with_postLikes ?f ?d))
             with (Db.hasPost id d)
         | progress change (Db.hasUser ?u (Db.with_postLikes ?f ?d))
             with (Db.hasUser u d)
         | progress change (Db.posts (Db.with_postLikes ?f ?d))
             with (Db.posts d) ]).
    rewrite filter_update_posts, Hrow. reflexivity. }
  rewrite Hr. cbn -[filter]. split_and!.
  - reflexivity.
  - reflexivity.
  - by rewrite <-app_assoc.
  - rewrite !filter_update_posts, Hrow, <-list_fmap_compose.
    apply (list_fmap_ext (withLikes likes ∘ withLikes likes)
             (withLikes likes) (row :: rest)).
    by intros.
Qed.

(** Two [createComment] calls in flight are two transactions: whichever
    goes first, the database ends as if the calls had been made one after
    the other. *)
Lemma db_createComment_interleaved now data1 data2 db :
  (Db.interleave [true; false] (DatabaseStorage.createComment now data1)
     (DatabaseStorage.createComment now data2) db).2
  = (Db.run (DatabaseStorage.createComment now data2)
       (Db.run (DatabaseStorage.createComment now data1) db).2).2
  ∧ (Db.interleave [false; true] (DatabaseStorage.createComment now data1)
       (DatabaseStorage.createComment now data2) db).2
    = (Db.run (DatabaseStorage.createComment now data1)
         (Db.run (DatabaseStorage.createComment now data2) db).2).2.
Proof.
  assert (Hstep : ∀ data db0,
    (Db.step (DatabaseStorage.createComment now data) db0).2
    = (Db.run (DatabaseStorage.createComment now data) db0).2).
  { intros data db0. unfold DatabaseStorage.createComment, Db.transaction.
    cbn [Db.step Db.run].
    by destruct (Db.run _ db0) as [[x|e] db']. }
  split; cbn [Db.interleave].
  - destruct (Db.step (DatabaseStorage.createComment now data1) db)
      as [t1 db1] eqn:H1.
    destruct (Db.step (DatabaseStorage.createComment now data2) db1)
      as [t2 db2] eqn:H2.
    cbn [snd]. rewrite <-(Hstep data1 db), H1. cbn [snd].
    by rewrite <-Hstep, H2.
  - destruct (Db.step (DatabaseStorage.createComment now data2) db)
      as [t2 db2] eqn:H2.
    destruct (Db.step (DatabaseStorage.createComment now data1) db2)
      as [t1 db1] eqn:H1.
    cbn [snd]. rewrite <-(Hstep data2 db), H2. cbn [snd].
    by rewrite <-Hstep, H1.
Qed.

(** C8.  [DatabaseStorage.likePost] reads the post, computes the new count
    from the value it read and writes it back in a later statement, with no
    transaction around them.  Two toggles by users 1 and 2 on post 1 of the
    seeded database, their statements taking turns, both insert their like
    row and both write 25: two rows more, a counter that went from 24 to 25
    only, where the two calls one after the other give 26.
    [DatabaseStorage.createComment] has the relative update inside one
    transaction, and two of them in either order add 2. *)
Theorem C8_concurrent_likes_lose_an_update :
  let now := 1700000000000 in
  let db := DatabaseStorage.seeded now in
  let likesOf1 (db : Db.t) :=
    Post.likes <$> head (filter (λ p, Post.id p = 1) (Db.posts db)) in
  let commentsOf1 (db : Db.t) :=
    Post.comments <$> head (filter (λ p, Post.id p = 1) (Db.posts db)) in
  let returned (job : Db.task (option Post.t)) :=
    match job with
    | Db.Return (Some post) => Some (Post.likes post)
    | _ => None
    end in
  let turns := [true; false; true; false; true; false; true; false] in
  let both :=
    Db.interleave turns (DatabaseStorage.likePost now 1 1)
      (DatabaseStorage.likePost now 1 2) db in
  let inTurn :=
    (Db.run (DatabaseStorage.likePost now 1 2)
       (Db.run (DatabaseStorage.likePost now 1 1) db).2).2 in
  let comment1 := DatabaseStorage.createComment now (InsertComment.mk "a" 1 1) in
  let comment2 := DatabaseStorage.createComment now (InsertComment.mk "b" 1 2) in
  likesOf1 db = Some (Some 24)
  ∧ Db.postLikes db = []
  ∧ returned both.1.1 = Some (Some 25)
  ∧ returned both.1.2 = Some (Some 25)
  ∧ Db.postLikes both.2 = [PostLike.mk 1 1 now; PostLike.mk 1 2 now]
  ∧ likesOf1 both.2 = Some (Some 25)
  ∧ likesOf1 inTurn = Some (Some 26)
  ∧ commentsOf1 db = Some (Some 8)
  ∧ commentsOf1 (Db.interleave [true; false] comment1 comment2 db).2
    = Some (Some 10)
  ∧ commentsOf1 (Db.interleave [false; true] comment1 comment2 db).2
    = Some (Some 10).
Proof. vm_compute. done. Qed.

(** * More of the storage layer *)

(** ** [MemStorage]: what every reachable state satisfies *)

Lemma mem_reachable_performAll calls : ∀ s,
  MemStorage.reachable s → MemStorage.reachable (MemStorage.performAll calls s).
Proof.
  induction calls as [|c calls IH]; intros s Hs; [done|].
  apply IH. destruct c; cbn.
  - by apply MemStorage.reach_createUser.
  - by apply MemStorage.reach_createPost.
  - by apply MemStorage.reach_likePost.
  - by apply MemStorage.reach_createComment.
Qed.

Lemma mem_reachable_usersInvariant s :
  MemStorage.reachable s → MemStorage.usersInvariant s.
Proof.
  induction 1 as [now|userData s _ IH|now postData s _ IH|id userId s _ IH
                 |now commentData s _ IH]; intros k user.
  - cbn. rewrite !lookup_insert_Some, lookup_empty.
    intros [[<- <-]|[_ [[<- <-]|[_ [[<- <-]|[_ ?]]]]]]; done.
  - cbn. rewrite lookup_insert_Some. intros [[<- <-]|[_ Hk]].
    + cbn. lia.
    + destruct (IH _ _ Hk). lia.
  - apply IH.
  - destruct (mem_likePost_frame s id userId) as (-> & _ & _ & -> & _).
    apply IH.
  - destruct (mem_createComment_frame now commentData s) as (-> & _).
    assert (MemStorage.userCurrentId
              (MemStorage.createComment now commentData s).2
            = MemStorage.userCurrentId s) as ->; [|apply IH].
    unfold MemStorage.createComment. cbn.
    by destruct (MemStorage.posts s !! InsertComment.postId commentData).
Qed.

(** Both counters of every stored post are numbers, not null, and not
    negative. *)
Lemma mem_reachable_counters s id post :
  MemStorage.reachable s →
  MemStorage.posts s !! id = Some post →
  ∃ n m, Post.likes post = Some n ∧ Post.comments post = Some m
         ∧ 0 ≤ n ∧ 0 ≤ m.
Proof.
  intros Hs. revert id post.
  induction Hs as [now|userData s _ IH|now postData s _ IH|k userId s _ IH
                  |now commentData s _ IH]; intros id post.
  - cbn. rewrite !lookup_insert_Some, lookup_empty.
    intros [[<- <-]|[_ [[<- <-]|[_ ?]]]]; [| |done]; cbn;
      eexists _, _; split_and!; done.
  - apply IH.
  - cbn. rewrite lookup_insert_Some. intros [[<- <-]|[_ Hp]]; [|by eapply IH].
    cbn. exists 0, 0. done.
  - destruct (MemStorage.posts s !! k) as [post0|] eqn:Hk;
      [|rewrite mem_likePost_missing by done; apply IH].
    rewrite (mem_likePost_posts _ _ _ _ Hk), lookup_insert_Some.
    intros [[<- <-]|[_ Hp]]; [|by eapply IH].
    destruct (IH _ _ Hk) as (n & m & Hn & Hm & ? & ?). cbn. rewrite Hn. cbn.
    eexists _, m. split_and!; [done|done| |done].
    destruct (MemStorage.hasUserLikedPost k userId s); lia.
  - rewrite mem_createComment_posts.
    destruct (MemStorage.posts s !! InsertComment.postId commentData)
      as [post0|] eqn:Hk; [|by eapply IH].
    rewrite lookup_insert_Some. intros [[<- <-]|[_ Hp]]; [|by eapply IH].
    destruct (IH _ _ Hk) as (n & m & Hn & Hm & ? & ?). cbn. rewrite Hm. cbn.
    exists n, (m + 1). split_and!; [done|done|done|lia].
Qed.

(** X2.  Whatever public methods have been called on a [MemStorage], its
    maps are consistent: every user, post and comment sits under the key
    that is its own id, below the counter that hands out the next id; the
    two counters of every post are numbers that are not negative; the
    [likes] counter is not below the number of entries of the like map for
    the post; and every entry of the like map is the key of a stored post
    and holds [true]. *)
Theorem X2_mem_reachable_invariant s :
  MemStorage.reachable s →
  MemStorage.usersInvariant s
  ∧ (∀ id post, MemStorage.posts s !! id = Some post →
       Post.id post = id ∧ id < MemStorage.postCurrentId s
       ∧ ∃ n m, Post.likes post = Some n ∧ Post.comments post = Some m
                ∧ 0 ≤ MemStorage.likeCount id s ≤ n ∧ 0 ≤ m)
  ∧ (∀ id comment, (id, comment) ∈ MemStorage.comments s →
       Comment.id comment = id ∧ id < MemStorage.commentCurrentId s)
  ∧ (∀ key, is_Some (MemStorage.postLikesMap s !! key) →
       MemStorage.postLikesMap s !! key = Some true
       ∧ ∃ id userId, key = MemStorage.likeKey id userId
                      ∧ is_Some (MemStorage.posts s !! id)).
Proof.
  intros Hs. pose proof (mem_reachable_invariant s Hs) as (H1 & H2 & H3).
  split_and!; [by apply mem_reachable_usersInvariant| |done|done].
  intros id post Hp. destruct (H1 _ _ Hp) as (? & ? & n & Hn & Hle).
  destruct (mem_reachable_counters s id post Hs Hp) as (n' & m & Hn' & Hm & ? & ?).
  split_and!; [done..|]. exists n, m. split_and!; try done.
  unfold MemStorage.likeCount. lia.
Qed.

Lemma X2_mem_reachable_invariant_witness :
  let s :=
    MemStorage.performAll
      [MemStorage.CreatePost 1700000001000 (InsertPost.mk "Notes" "" None 1);
       MemStorage.LikePost 3 2;
       MemStorage.CreateComment 1700000002000 (InsertComment.mk "Hi" 3 2)]
      (MemStorage.constructor 1700000000000) in
  MemStorage.reachable s
  ∧ ∀ id post, MemStorage.posts s !! id = Some post → Post.id post = id.
Proof.
  intros s.
  assert (Hs : MemStorage.reachable s).
  { apply mem_reachable_performAll, MemStorage.reach_constructor. }
  split; [exact Hs|]. intros id post Hp.
  destruct (X2_mem_reachable_invariant s Hs) as (_ & H & _).
  exact (proj1 (H id post Hp)).
Defined.

(** X1.  The key [`${postId}-${userId}`] of the like map determines the
    pair: two pairs of integers have the same key only when they are the
    same pair, and a key starts with [`${p}-`] only when it is a key of post
    [p].  So a like of one pair never reads as a like of another. *)
Theorem X1_likeKey_injective p u q v :
  (MemStorage.likeKey p u = MemStorage.likeKey q v ↔ p = q ∧ u = v)
  ∧ (String.prefix (pretty p +:+ "-") (MemStorage.likeKey q v) = true
     ↔ p = q).
Proof.
  split.
  - split; [apply likeKey_inj|]. by intros [-> ->].
  - rewrite <-Is_true_true. apply likeKey_prefix.
Qed.

(** ** [MemStorage]: creating and reading back *)

(** X3.  In a running store [createUser] hands out an id that no stored
    user has, stores the user under it with the fields of the input (an
    empty avatar or role becomes null), and [getUserById] reads it back;
    every other id reads as before, and posts, comments and likes are not
    touched. *)
Theorem X3_mem_createUser_roundtrip userData s :
  MemStorage.reachable s →
  let r := MemStorage.createUser userData s in
  MemStorage.getUserById (User.id r.1) s = None
  ∧ MemStorage.getUserById (User.id r.1) r.2 = Some r.1
  ∧ (∀ id, id ≠ User.id r.1 →
       MemStorage.getUserById id r.2 = MemStorage.getUserById id s)
  ∧ r.1 = User.mk (MemStorage.userCurrentId s)
            (InsertUser.username userData) (InsertUser.password userData)
            (InsertUser.fullName userData)
            (orNull (InsertUser.avatar userData))
            (orNull (InsertUser.role userData))
  ∧ MemStorage.userCurrentId r.2 = MemStorage.userCurrentId s + 1
  ∧ MemStorage.posts r.2 = MemStorage.posts s
  ∧ MemStorage.comments r.2 = MemStorage.comments s
  ∧ MemStorage.postLikesMap r.2 = MemStorage.postLikesMap s.
Proof.
  intros Hs%mem_reachable_usersInvariant r. split_and!; try done.
  - unfold MemStorage.getUserById. cbn.
    destruct (MemStorage.users s !! MemStorage.userCurrentId s)
      as [u|] eqn:Hu; [|done].
    destruct (Hs _ _ Hu). lia.
  - apply lookup_insert_eq.
  - intros id Hid. unfold MemStorage.getUserById. cbn.
    by apply lookup_insert_ne.
Qed.

Lemma X3_mem_createUser_roundtrip_witness :
  let s := MemStorage.constructor 1700000000000 in
  let userData := InsertUser.mk "dana" "pw" "Dana" (Some "") None in
  MemStorage.reachable s
  ∧ (User.avatar
       <$> MemStorage.getUserById 4 (MemStorage.createUser userData s).2)
    = Some None.
Proof.
  intros s userData.
  assert (Hs : MemStorage.reachable s) by apply MemStorage.reach_constructor.
  split; [exact Hs|].
  destruct (X3_mem_createUser_roundtrip userData s Hs) as (_ & H & _).
  change (User.id (MemStorage.createUser userData s).1) with 4 in H.
  rewrite H. reflexivity.
Defined.

(** X4.  In a running store [createPost] hands out an id that no stored
    post has and stores a post with the input's fields, [createdAt = now]
    and both counters 0; nobody likes the new post; every other post and
    every like status is as before.  The author id is not looked up. *)
Theorem X4_mem_createPost_fresh now postData s :
  MemStorage.reachable s →
  let r := MemStorage.createPost now postData s in
  let id := Post.id r.1 in
  MemStorage.posts s !! id = None
  ∧ MemStorage.posts r.2 !! id = Some r.1
  ∧ r.1 = Post.mk (MemStorage.postCurrentId s) (InsertPost.title postData)
            (InsertPost.description postData)
            (orNull (InsertPost.fileName postData))
            (InsertPost.userId postData) now (Some 0) (Some 0)
  ∧ (∀ q, q ≠ id → MemStorage.posts r.2 !! q = MemStorage.posts s !! q)
  ∧ (∀ u, MemStorage.hasUserLikedPost id u r.2 = false)
  ∧ (∀ q u, MemStorage.hasUserLikedPost q u r.2
            = MemStorage.hasUserLikedPost q u s)
  ∧ MemStorage.users r.2 = MemStorage.users s
  ∧ MemStorage.comments r.2 = MemStorage.comments s.
Proof.
  intros Hs r id. pose proof (mem_reachable_invariant s Hs) as Hinv.
  pose proof Hinv as (H1 & _). split_and!; try done.
  - destruct (MemStorage.posts s !! id) as [p|] eqn:Hp; [|done].
    destruct (H1 _ _ Hp) as (_ & Hlt & _). unfold id in Hlt. cbn in Hlt. lia.
  - apply lookup_insert_eq.
  - intros q Hq. cbn. by apply lookup_insert_ne.
  - intros u.
    destruct (MemStorage.hasUserLikedPost id u r.2) eqn:Hl; [|done].
    apply mem_likeCount_pos in Hl.
    assert (MemStorage.likeCount id r.2 = 0); [|lia].
    change (MemStorage.likeCount (MemStorage.postCurrentId s) s = 0).
    by apply mem_likeCount_fresh.
Qed.

Lemma X4_mem_createPost_fresh_witness :
  let s := MemStorage.constructor 1700000000000 in
  let postData := InsertPost.mk "Notes" "text" (Some "") 99 in
  MemStorage.reachable s
  ∧ (MemStorage.createPost 1700000000500 postData s).1
    = Post.mk 3 "Notes" "text" None 99 1700000000500 (Some 0) (Some 0).
Proof.
  intros s postData.
  assert (Hs : MemStorage.reachable s) by apply MemStorage.reach_constructor.
  split; [exact Hs|].
  destruct (X4_mem_createPost_fresh 1700000000500 postData s Hs)
    as (_ & _ & H & _).
  exact H.
Defined.

(** X5.  [getPost] after [createPost]: when the author id of the input is
    a stored user the new post is read back with that user and the time
    since [now]; when it is not, [createPost] still succeeds and [getPost]
    of the new id throws [User with ID … not found].  An id that is not
    stored reads as [undefined], and the other ids read as before. *)
Theorem X5_mem_getPost_after_createPost now now' postData s :
  let r := MemStorage.createPost now postData s in
  MemStorage.getPost now' (Post.id r.1) r.2
  = match MemStorage.users s !! InsertPost.userId postData with
    | Some author =>
        Ok (Some (PostWithAuthor.mk r.1 author
                    (MemStorage.getTimeAgo now' now)))
    | None =>
        Throw ("User with ID " +:+ pretty (InsertPost.userId postData)
               +:+ " not found")
    end
  ∧ (∀ id, id ≠ Post.id r.1 →
       MemStorage.getPost now' id r.2 = MemStorage.getPost now' id s)
  ∧ (∀ id, MemStorage.posts s !! id = None →
       MemStorage.getPost now' id s = Ok None).
Proof.
  intros r. split_and!.
  - unfold MemStorage.getPost. cbn. rewrite lookup_insert_eq. cbn.
    by destruct (MemStorage.users s !! InsertPost.userId postData).
  - intros id Hid. unfold MemStorage.getPost. cbn.
    by rewrite lookup_insert_ne.
  - intros id Hid. unfold MemStorage.getPost. by rewrite Hid.
Qed.

(** X7.  No public method writes the activities: in every reachable state
    [getRecentActivities] returns the three entries the constructor made,
    in the order it made them. *)
Theorem X7_mem_activities_constant s now :
  MemStorage.reachable s →
  MemStorage.getRecentActivities s
  = MemStorage.getRecentActivities (MemStorage.constructor now)
  ∧ (Activity.target <$> MemStorage.getRecentActivities s)
    = ["Q2 Marketing Strategy"; "Design Assets.zip"; "Team Meeting Notes"].
Proof.
  intros Hs.
  assert (H : MemStorage.activities s
              = MemStorage.activities (MemStorage.constructor now)).
  { induction Hs as [now0|userData s _ IH|now0 postData s _ IH
                    |id userId s _ IH|now0 commentData s _ IH];
      [done|done|done| |].
    - by destruct (mem_likePost_frame s id userId) as (_ & _ & -> & _).
    - rewrite <-IH. unfold MemStorage.createComment. cbn.
      by destruct (MemStorage.posts s !! InsertComment.postId commentData). }
  unfold MemStorage.getRecentActivities. rewrite H. done.
Qed.

Lemma X7_mem_activities_constant_witness :
  let s :=
    MemStorage.performAll
      [MemStorage.CreateUser (InsertUser.mk "dana" "pw" "Dana" None None);
       MemStorage.LikePost 1 4]
      (MemStorage.constructor 1700000000000) in
  MemStorage.reachable s
  ∧ length (MemStorage.getRecentActivities s) = 3%nat.
Proof.
  intros s.
  assert (Hs : MemStorage.reachable s).
  { apply mem_reachable_performAll, MemStorage.reach_constructor. }
  split; [exact Hs|].
  destruct (X7_mem_activities_constant s 0 Hs) as [_ H].
  rewrite <-(length_fmap Activity.target), H. reflexivity.
Defined.

(** ** [MemStorage]: counters under any sequence of calls *)

Lemma mem_perform_likes_exact c s id post :
  MemStorage.reachable s →
  MemStorage.posts s !! id = Some post →
  Post.likes post = Some (MemStorage.likeCount id s) →
  ∃ post', MemStorage.posts (MemStorage.perform c s) !! id = Some post'
           ∧ Post.likes post'
             = Some (MemStorage.likeCount id (MemStorage.perform c s)).
Proof.
  intros Hs Hp Hl. pose proof (mem_reachable_invariant s Hs) as (H1 & _).
  destruct c as [userData|now postData|k userId|now commentData];
    cbn [MemStorage.perform].
  - by exists post.
  - exists post. split; [|done].
    destruct (H1 _ _ Hp) as (_ & ? & _). cbn.
    rewrite lookup_insert_ne by lia. done.
  - by apply (mem_likePost_exact s k userId id post).
  - destruct (mem_createComment_frame now commentData s) as (_ & Hm & _).
    assert (Hcount : MemStorage.likeCount id
                       (MemStorage.createComment now commentData s).2
                     = MemStorage.likeCount id s).
    { unfold MemStorage.likeCount, MemStorage.likesOf. by rewrite Hm. }
    rewrite Hcount, mem_createComment_posts.
    destruct (MemStorage.posts s !! InsertComment.postId commentData)
      as [post0|] eqn:Hk; [|by exists post].
    destruct (decide (InsertComment.postId commentData = id)) as [Heq|Hne].
    + rewrite Heq in Hk |- *. rewrite Hp in Hk. injection Hk as <-.
      rewrite lookup_insert_eq. by eexists.
    + rewrite lookup_insert_ne by done. by exists post.
Qed.

(** X9.  The [likes] counter of a post made by [createPost] in a running
    store equals the number of entries of the like map for it after any
    sequence of later calls of the public methods, by whichever users and
    on whichever posts, toggles repeated or not. *)
Theorem X9_mem_likes_exact_any_calls now postData calls s :
  MemStorage.reachable s →
  let created := MemStorage.createPost now postData s in
  let id := Post.id created.1 in
  let s' := MemStorage.performAll calls created.2 in
  ∃ post, MemStorage.posts s' !! id = Some post
          ∧ Post.likes post = Some (MemStorage.likeCount id s')
          ∧ 0 ≤ MemStorage.likeCount id s'.
Proof.
  intros Hs created id s'.
  assert (Hgen : ∀ calls s0 post0,
            MemStorage.reachable s0 →
            MemStorage.posts s0 !! id = Some post0 →
            Post.likes post0 = Some (MemStorage.likeCount id s0) →
            ∃ post,
              MemStorage.posts (MemStorage.performAll calls s0) !! id
              = Some post
              ∧ Post.likes post
                = Some (MemStorage.likeCount id
                          (MemStorage.performAll calls s0))).
  { clear. induction calls as [|c calls IH]; intros s0 post0 Hs0 Hp Hl;
      [by exists post0|].
    destruct (mem_perform_likes_exact c s0 id post0 Hs0 Hp Hl)
      as (post1 & Hp1 & Hl1).
    apply (IH _ post1); [|done..].
    apply (mem_reachable_performAll [c]). done. }
  destruct (Hgen calls created.2 created.1) as (post & Hp & Hl).
  - by apply MemStorage.reach_createPost.
  - apply lookup_insert_eq.
  - change (Some 0 = Some (MemStorage.likeCount (MemStorage.postCurrentId s) s)).
    by rewrite mem_likeCount_fresh by (by apply mem_reachable_invariant || lia).
  - exists post. split_and!; [done..|]. unfold MemStorage.likeCount. lia.
Qed.

Lemma X9_mem_likes_exact_any_calls_witness :
  let s := MemStorage.constructor 1700000000000 in
  let calls :=
    [MemStorage.LikePost 3 1; MemStorage.LikePost 3 2;
     MemStorage.LikePost 1 2; MemStorage.LikePost 3 1;
     MemStorage.CreateComment 1700000002000 (InsertComment.mk "Hi" 3 2)] in
  let s' :=
    MemStorage.performAll calls
      (MemStorage.createPost 1700000001000
         (InsertPost.mk "Notes" "" None 1) s).2 in
  MemStorage.reachable s
  ∧ ∃ post, MemStorage.posts s' !! 3 = Some post
            ∧ Post.likes post = Some (MemStorage.likeCount 3 s').
Proof.
  intros s calls s'.
  assert (Hs : MemStorage.reachable s) by apply MemStorage.reach_constructor.
  split; [exact Hs|].
  destruct (X9_mem_likes_exact_any_calls 1700000001000
              (InsertPost.mk "Notes" "" None 1) calls s Hs)
    as (post & Hp & Hl & _).
  exists post. split; [exact Hp|exact Hl].
Defined.

Lemma mem_perform_comments_exact c s id post :
  MemStorage.reachable s →
  MemStorage.posts s !! id = Some post →
  Post.comments post
  = Some (Z.of_nat (length (MemStorage.commentsOf id s))) →
  ∃ post', MemStorage.posts (MemStorage.perform c s) !! id = Some post'
           ∧ Post.comments post'
             = Some (Z.of_nat (length (MemStorage.commentsOf id
                                         (MemStorage.perform c s)))).
Proof.
  intros Hs Hp Hc. pose proof (mem_reachable_invariant s Hs) as Hinv.
  pose proof Hinv as (H1 & _).
  destruct c as [userData|now postData|k userId|now commentData];
    cbn [MemStorage.perform].
  - by exists post.
  - exists post. split; [|done].
    destruct (H1 _ _ Hp) as (_ & ? & _). cbn.
    rewrite lookup_insert_ne by lia. done.
  - destruct (mem_likePost_frame s k userId) as (_ & Hcs & _).
    unfold MemStorage.commentsOf. rewrite Hcs.
    destruct (MemStorage.posts s !! k) as [post0|] eqn:Hk;
      [|rewrite mem_likePost_missing by done; by exists post].
    rewrite (mem_likePost_posts _ _ _ _ Hk).
    destruct (decide (k = id)) as [->|Hne].
    + rewrite Hp in Hk. injection Hk as <-.
      rewrite lookup_insert_eq. by eexists.
    + rewrite lookup_insert_ne by done. by exists post.
  - unfold MemStorage.commentsOf.
    rewrite mem_createComment_comments by done.
    unfold jsmap_values. rewrite fmap_app, filter_app, length_app.
    cbn [fmap list_fmap snd]. rewrite mem_createComment_posts.
    destruct (decide (InsertComment.postId commentData = id)) as [Heq|Hne].
    + rewrite Heq, Hp, lookup_insert_eq.
      rewrite (filter_cons _ _ []), decide_True, filter_nil by done.
      eexists. split; [done|]. cbn. rewrite Hc. cbn. f_equal.
      unfold MemStorage.commentsOf, jsmap_values. lia.
    + rewrite (filter_cons _ _ []), decide_False, filter_nil by done.
      cbn [length]. rewrite Nat.add_0_r.
      destruct (MemStorage.posts s !! InsertComment.postId commentData);
        [|by exists post].
      rewrite lookup_insert_ne by done. by exists post.
Qed.

(** X8.  Once the [comments] counter of a stored post equals the number of
    comments stored for it, it does so after any sequence of later calls
    of the public methods.  It holds at once for a post made by
    [createPost] when no comment was stored before under the id it gets;
    [createComment] accepts ids that have no post yet, so that is a
    condition. *)
Theorem X8_mem_comments_exact_any_calls calls s id post :
  MemStorage.reachable s →
  MemStorage.posts s !! id = Some post →
  Post.comments post
  = Some (Z.of_nat (length (MemStorage.commentsOf id s))) →
  let s' := MemStorage.performAll calls s in
  ∃ post', MemStorage.posts s' !! id = Some post'
           ∧ Post.comments post'
             = Some (Z.of_nat (length (MemStorage.commentsOf id s'))).
Proof.
  revert s post. induction calls as [|c calls IH]; intros s post Hs Hp Hc;
    [by exists post|].
  destruct (mem_perform_comments_exact c s id post Hs Hp Hc)
    as (post1 & Hp1 & Hc1).
  apply (IH _ post1); [|done..].
  apply (mem_reachable_performAll [c]). done.
Qed.

Lemma X8_mem_comments_exact_any_calls_witness :
  let s :=
    (MemStorage.createPost 1700000001000 (InsertPost.mk "Notes" "" None 1)
       (MemStorage.constructor 1700000000000)).2 in
  let calls :=
    [MemStorage.CreateComment 1700000002000 (InsertComment.mk "Hi" 3 2);
     MemStorage.LikePost 3 1;
     MemStorage.CreateComment 1700000003000 (InsertComment.mk "Yo" 3 1);
     MemStorage.CreateComment 1700000004000 (InsertComment.mk "No" 1 1)] in
  MemStorage.reachable s
  ∧ (Post.comments <$> MemStorage.posts s !! 3) = Some (Some 0)
  ∧ MemStorage.commentsOf 3 s = []
  ∧ ∃ post', MemStorage.posts (MemStorage.performAll calls s) !! 3
             = Some post'
             ∧ Post.comments post'
               = Some (Z.of_nat
                         (length (MemStorage.commentsOf 3
                                    (MemStorage.performAll calls s)))).
Proof.
  intros s calls.
  assert (Hs : MemStorage.reachable s)
    by apply MemStorage.reach_createPost, MemStorage.reach_constructor.
  assert (Hp : ∃ post, MemStorage.posts s !! 3 = Some post
                       ∧ Post.comments post = Some 0)
    by (vm_compute; eauto).
  assert (Hnone : MemStorage.commentsOf 3 s = []) by (vm_compute; reflexivity).
  destruct Hp as (post & Hp & Hc).
  split; [exact Hs|]. split; [by rewrite Hp; cbn; rewrite Hc|].
  split; [exact Hnone|].
  apply (X8_mem_comments_exact_any_calls calls s 3 post Hs Hp).
  rewrite Hc, Hnone. reflexivity.
Defined.

(** ** Reading lists of comments and posts *)

Lemma mapM_Ok_Forall2 {A B} (f : A → outcome B) l l' :
  mapM f l = Ok l' ↔ Forall2 (λ x y, f x = Ok y) l l'.
Proof.
  revert l'. induction l as [|x l IH]; intros l'; cbn.
  - split; [intros [= <-]; constructor|by intros ->%Forall2_nil_inv_l].
  - split.
    + destruct (f x) as [y|e] eqn:Hx; cbn; [|done].
      destruct (mapM f l) as [l0|e] eqn:Hl; cbn; [|done].
      intros [= <-]. constructor; [done|]. by apply IH.
    + intros (y & l0 & Hx & Hl & ->)%Forall2_cons_inv_l.
      apply IH in Hl. by rewrite Hx, Hl.
Qed.

Lemma mapM_Throw_Exists {A B} (f : A → outcome B) l e :
  mapM f l = Throw e → Exists (λ x, f x = Throw e) l.
Proof.
  induction l as [|x l IH]; cbn; [done|].
  destruct (f x) as [y|e'] eqn:Hx; cbn.
  - destruct (mapM f l) as [l0|e'] eqn:Hl; cbn; [done|].
    intros [= ->]. right. by apply IH.
  - intros [= ->]. by left.
Qed.

(** X6.  [MemStorage.getCommentsByPostId] returns a list exactly when
    every comment stored for the post has a stored author; the list then
    holds these comments, each once, newest first (comments made at the
    same millisecond in the order they were made), each with the user
    stored under its author id and the time since its creation.  When a
    comment of the post has no stored author the call throws
    [User with ID … not found] for such a comment, whatever the other
    comments are. *)
Theorem X6_mem_getComments now postId s :
  let stored := MemStorage.commentsOf postId s in
  let hasAuthor (c : Comment.t) :=
    is_Some (MemStorage.users s !! Comment.userId c) in
  (Forall hasAuthor stored →
   ∃ l, MemStorage.getCommentsByPostId now postId s = Ok l
        ∧ CommentWithAuthor.comment <$> l
          = jsSort (λ a b, Comment.createdAt b - Comment.createdAt a) stored
        ∧ CommentWithAuthor.comment <$> l ≡ₚ stored
        ∧ Sorted (λ a b, CommentWithAuthor.createdAt b
                         ≤ CommentWithAuthor.createdAt a) l
        ∧ Forall (λ c,
            MemStorage.users s !! Comment.userId (CommentWithAuthor.comment c)
            = Some (CommentWithAuthor.author c)
            ∧ CommentWithAuthor.timeAgo c
              = MemStorage.getTimeAgo now (CommentWithAuthor.createdAt c)) l)
  ∧ (¬ Forall hasAuthor stored →
     ∃ c, c ∈ stored ∧ ¬ hasAuthor c
          ∧ MemStorage.getCommentsByPostId now postId s
            = Throw ("User with ID " +:+ pretty (Comment.userId c)
                     +:+ " not found"))
  ∧ (stored = [] → MemStorage.getCommentsByPostId now postId s = Ok []).
Proof.
  intros stored hasAuthor.
  set (sorted := jsSort (λ a b, Comment.createdAt b - Comment.createdAt a)
                   stored).
  assert (Hperm : sorted ≡ₚ stored) by apply jsSort_Permutation.
  change (MemStorage.getCommentsByPostId now postId s)
    with (mapM (MemStorage.withAuthor now s) sorted).
  destruct (mapM (MemStorage.withAuthor now s) sorted) as [l|e] eqn:Hl.
  - apply mapM_Ok_Forall2 in Hl as HF.
    assert (Hcomment : CommentWithAuthor.comment <$> l = sorted).
    { clear -HF. induction HF as [|c c' l l' Hc _ IH]; [done|].
      cbn. apply mem_withAuthor_Ok in Hc. by rewrite Hc, IH. }
    split_and!.
    + intros _. exists l. split_and!; [done|done|by rewrite Hcomment| |].
      * eapply mem_getComments_sorted. exact Hl.
      * clear -HF. induction HF as [|c c' l l' Hc _ IH]; constructor; [|done].
        unfold MemStorage.withAuthor in Hc.
        destruct (MemStorage.users s !! Comment.userId c) as [a|] eqn:Ha;
          [|done].
        injection Hc as <-. done.
    + intros Hno. destruct Hno. rewrite <-Hperm.
      clear -HF. induction HF as [|c c' l l' Hc _ IH]; constructor; [|done].
      unfold hasAuthor. unfold MemStorage.withAuthor in Hc.
      by destruct (MemStorage.users s !! Comment.userId c).
    + intros Hnil. unfold sorted in Hl. rewrite Hnil in Hl. by injection Hl.
  - apply mapM_Throw_Exists, Exists_exists in Hl as (c & Hin & Hc).
    assert (Hnone : MemStorage.users s !! Comment.userId c = None
                    ∧ e = "User with ID " +:+ pretty (Comment.userId c)
                          +:+ " not found").
    { unfold MemStorage.withAuthor in Hc.
      destruct (MemStorage.users s !! Comment.userId c); [done|].
      by injection Hc. }
    destruct Hnone as [Hnone ->].
    assert (Hbad : ¬ hasAuthor c).
    { unfold hasAuthor. rewrite Hnone. by intros [??]. }
    split_and!.
    + intros Hall. rewrite <-Hperm in Hall.
      by eapply Forall_forall in Hall.
    + intros _. exists c. split_and!; [by rewrite <-Hperm|done|done].
    + intros Hnil. unfold sorted in Hin. rewrite Hnil in Hin.
      by apply elem_of_nil in Hin.
Qed.

Lemma X6_mem_getComments_witness :
  let s :=
    MemStorage.performAll
      [MemStorage.CreateComment 1700000002000 (InsertComment.mk "one" 1 2);
       MemStorage.CreateComment 1700000003000 (InsertComment.mk "two" 1 3)]
      (MemStorage.constructor 1700000000000) in
  Forall (λ c, is_Some (MemStorage.users s !! Comment.userId c))
    (MemStorage.commentsOf 1 s)
  ∧ ∃ l, MemStorage.getCommentsByPostId 1700000004000 1 s = Ok l
         ∧ Comment.content <$> (CommentWithAuthor.comment <$> l)
           = ["two"; "one"].
Proof.
  intros s.
  assert (Hall : Forall (λ c, is_Some (MemStorage.users s !! Comment.userId c))
                   (MemStorage.commentsOf 1 s)).
  { apply (bool_decide_unpack
             (Forall (λ c, is_Some (MemStorage.users s !! Comment.userId c))
                (MemStorage.commentsOf 1 s))).
    vm_compute. exact I. }
  split; [exact Hall|].
  destruct (X6_mem_getComments 1700000004000 1 s) as ((l & Hl & Hc & _) & _).
  { exact Hall. }
  exists l. split; [exact Hl|]. rewrite Hc. vm_compute. reflexivity.
Defined.

(** ** [DatabaseStorage]: errors of the writes *)

(** X11.  A first like by a user id that has no row in [users], on a
    stored post, violates the foreign key of [post_likes]:
    [DatabaseStorage.likePost] throws, nothing is written, and the handler
    answers 500.  [MemStorage.likePost] has no such check and records the
    like. *)
Theorem X11_db_likePost_unknown_user now id reqUser db s post :
  let userId := User.id reqUser in
  Db.hasPost id db = true →
  Db.hasUser userId db = false →
  filter (Db.isLike id userId) (Db.postLikes db) = [] →
  MemStorage.posts s !! id = Some post →
  MemStorage.hasUserLikedPost id userId s = false →
  Db.run (DatabaseStorage.likePost now id userId) db
  = (Throw "insert on table post_likes violates foreign key constraint on user_id",
     db)
  ∧ Db.run (Routes.postLike (M := Db.task) now
              (Routes.mkRequest (Some id) (Some reqUser))) db
    = (Ok (Routes.Status 500 "Failed to like post"), db)
  ∧ MemStorage.hasUserLikedPost id userId
      (MemStorage.likePost id userId s).2 = true.
Proof.
  intros userId Hpost Huser Hnone Hp Hl.
  assert (Hrun : Db.run (DatabaseStorage.likePost now id userId) db
                 = (Throw "insert on table post_likes violates foreign key constraint on user_id",
                    db)).
  { rewrite db_likePost_run.
    destruct (filter (λ p, Post.id p = id) (Db.posts db)) as [|row rest] eqn:Hf.
    - apply (f_equal (λ l, bool_decide (l ≠ []))) in Hf.
      assert (Db.hasPost id db = false); [|congruence].
      unfold Db.hasPost. apply bool_decide_eq_false.
      intros (p & Hin & Hid)%Exists_exists.
      assert (p ∈ filter (λ p, Post.id p = id) (Db.posts db)) as Hp'
        by by apply list_elem_of_filter.
      destruct (filter (λ p, Post.id p = id) (Db.posts db)); [|done].
      by apply elem_of_nil in Hp'.
    - cbn zeta. rewrite Hnone, Huser. done. }
  split_and!; [done| |].
  - rewrite db_postLike_route. fold userId. by rewrite Hrun.
  - rewrite mem_likePost_hasLiked by by eexists.
    by rewrite bool_decide_true, Hl.
Qed.

Lemma X11_db_likePost_unknown_user_witness :
  let now := 1700000000000 in
  let db := DatabaseStorage.seeded now in
  let s := MemStorage.constructor now in
  let ghost := User.mk 9 "ghost" "" "Ghost" None None in
  Db.hasPost 1 db = true
  ∧ Db.hasUser 9 db = false
  ∧ Db.run (Routes.postLike (M := Db.task) now
              (Routes.mkRequest (Some 1) (Some ghost))) db
    = (Ok (Routes.Status 500 "Failed to like post"), db).
Proof.
  intros now db s ghost.
  assert (H1 : Db.hasPost 1 db = true) by (vm_compute; reflexivity).
  assert (H2 : Db.hasUser 9 db = false) by (vm_compute; reflexivity).
  assert (H3 : filter (Db.isLike 1 9) (Db.postLikes db) = [])
    by (vm_compute; reflexivity).
  assert (H4 : ∃ post, MemStorage.posts s !! 1 = Some post)
    by (vm_compute; eauto).
  assert (H5 : MemStorage.hasUserLikedPost 1 9 s = false)
    by (vm_compute; reflexivity).
  destruct H4 as [post H4].
  destruct (X11_db_likePost_unknown_user now 1 ghost db s post H1 H2 H3 H4 H5)
    as (_ & H & _).
  split; [exact H1|]. split; [exact H2|exact H].
Defined.

Lemma db_commentsOverflow_iff p :
  Db.commentsOverflow p
  ↔ ∃ n, Post.comments p = Some n ∧ ¬ (-2147483648 ≤ n + 1 ≤ 2147483647).
Proof.
  unfold Db.commentsOverflow. destruct (Post.comments p) as [n|].
  - split; [by exists n|]. by intros (? & [= <-] & ?).
  - split; [done|]. by intros (? & ? & _).
Qed.





(** ** [DatabaseStorage]: creating and reading back *)

Lemma filter_none {A} (P : A → Prop) `{!∀ x, Decision (P x)} (l : list A) :
  ¬ Exists P l → filter P l = [].
Proof.
  intros Hno. induction l as [|x l IH]; [done|].
  rewrite filter_cons, decide_False.
  - apply IH. intros ?. apply Hno. by right.
  - intros ?. apply Hno. by left.
Qed.



Lemma db_getPost_run now id db :
  Db.run (DatabaseStorage.getPost now id) db
  = (if Db.postIdOk id db then
       match head (filter (λ p, Post.id p = id) (Db.posts db)) with
       | None => Ok None
       | Some post =>
           match head (filter (λ u, User.id u = Post.userId post)
                         (Db.users db)) with
           | None =>
               Throw ("User with ID " +:+ pretty (Post.userId post)
                      +:+ " not found")
           | Some author =>
               Ok (Some (PostWithAuthor.mk post author
                           (DatabaseStorage.getTimeAgo now
                              (Post.createdAt post))))
           end
       end
     else Throw "value out of range for type integer", db).
Proof.
  unfold DatabaseStorage.getPost.
  rewrite db_run_bind, db_run_await. cbn [Db.exec].
  destruct (Db.postIdOk id db); [|done].
  destruct (head (filter _ (Db.posts db))) as [post|]; [|done].
  unfold DatabaseStorage.getUserById. cbn.
  by destruct (head (filter _ (Db.users db))).
Qed.



(** X17.  [initDatabase] seeds only an empty [users] table: on a database
    that has a user it writes nothing, so running it again after it seeded
    leaves the three users and two posts as they are. *)
Theorem X17_db_initDatabase_idempotent :
  (∀ now db, Db.users db ≠ [] →
     Db.run (DatabaseStorage.initDatabase now) db = (Ok (), db))
  ∧ (∀ now now',
       Db.run (DatabaseStorage.initDatabase now') (DatabaseStorage.seeded now)
       = (Ok (), DatabaseStorage.seeded now)
       ∧ length (Db.users (DatabaseStorage.seeded now)) = 3%nat
       ∧ length (Db.posts (DatabaseStorage.seeded now)) = 2%nat
       ∧ Forall (λ p, Db.hasUser (Post.userId p) (DatabaseStorage.seeded now)
                      = true)
           (Db.posts (DatabaseStorage.seeded now))).
Proof.
  assert (Hgen : ∀ now db, Db.users db ≠ [] →
            Db.run (DatabaseStorage.initDatabase now) db = (Ok (), db)).
  { intros now db Hne. unfold DatabaseStorage.initDatabase. cbn.
    destruct (Db.users db); [done|]. done. }
  split; [done|]. intros now now'. split_and!.
  - apply Hgen. by vm_compute.
  - by vm_compute.
  - by vm_compute.
  - repeat constructor.
Qed.

(** ** [DatabaseStorage.likePost] run alone *)

Lemma db_filter_unlike_length_le i u id userId (rows : list PostLike.t) :
  (length (filter (Db.isLike i u)
             (filter (λ r, ¬ Db.isLike id userId r) rows))
   ≤ length (filter (Db.isLike i u) rows))%nat.
Proof.
  induction rows as [|r rows IH]; [done|].
  rewrite (filter_cons (λ r, ¬ _)), (filter_cons (Db.isLike i u) r rows).
  case_decide; [rewrite filter_cons|]; repeat case_decide; cbn; lia.
Qed.

Lemma db_filter_unlike_split id userId (rows : list PostLike.t) :
  length (filter (λ r, PostLike.postId r = id) rows)
  = (length (filter (λ r, PostLike.postId r = id)
               (filter (λ r, ¬ Db.isLike id userId r) rows))
     + length (filter (Db.isLike id userId) rows))%nat.
Proof.
  induction rows as [|r rows IH]; [done|].
  rewrite (filter_cons (λ r, ¬ _)), (filter_cons (Db.isLike id userId) r rows),
    (filter_cons (λ r, PostLike.postId r = id) r rows).
  destruct (decide (Db.isLike id userId r)) as [Hr|Hr].
  - rewrite (decide_False (P := ¬ Db.isLike id userId r))
      by (intros Hn; by apply Hn).
    rewrite (decide_True (P := PostLike.postId r = id)) by apply Hr.
    cbn. lia.
  - rewrite (decide_True (P := ¬ Db.isLike id userId r)) by done.
    rewrite filter_cons.
    case_decide; cbn; lia.
Qed.

Lemma db_filter_unlike_other i id userId (rows : list PostLike.t) :
  i ≠ id →
  filter (λ r, PostLike.postId r = i)
    (filter (λ r, ¬ Db.isLike id userId r) rows)
  = filter (λ r, PostLike.postId r = i) rows.
Proof.
  intros Hne. induction rows as [|r rows IH]; [done|].
  rewrite (filter_cons (λ r, ¬ _)), (filter_cons (λ r, PostLike.postId r = i) r rows).
  destruct (decide (PostLike.postId r = i)) as [Hr|Hr].
  - rewrite (decide_True (P := ¬ Db.isLike id userId r))
      by (unfold Db.isLike; intros [? _]; congruence).
    rewrite filter_cons, decide_True by done. by rewrite IH.
  - destruct (decide (¬ Db.isLike id userId r)); [|done].
    by rewrite filter_cons, decide_False.
Qed.

Lemma NoDup_fmap_elem_eq {A B} (f : A → B) (l : list A) x y :
  NoDup (f <$> l) → x ∈ l → y ∈ l → f x = f y → x = y.
Proof.
  induction l as [|a l IH]; [by intros _ ?%elem_of_nil|].
  rewrite fmap_cons, NoDup_cons, !elem_of_cons.
  intros [Ha Hl] [->|Hx] [->|Hy] Hf; [done|..].
  - destruct Ha. rewrite Hf. by apply list_elem_of_fmap_2.
  - destruct Ha. rewrite <-Hf. by apply list_elem_of_fmap_2.
  - by apply IH.
Qed.

Lemma db_update_posts_ids id likes (rows : list Post.t) :
  Post.id <$> ((λ p, if bool_decide (Post.id p = id)
                     then withLikes likes p else p) <$> rows)
  = Post.id <$> rows.
Proof.
  rewrite <-list_fmap_compose. apply Forall_fmap_ext_1, Forall_forall.
  intros p _. cbn. by case_bool_decide.
Qed.

(** X10.  A like toggle that the database runs alone keeps, for every
    post row, the difference between its [likes] counter and the number of
    its like rows, whether it puts the like in, takes it out, finds no post
    or is refused for an unknown user or an id outside the column type, as
    long as no counter is below its like rows or above 2147483647 and the
    primary keys of [posts] and [post_likes] hold.  The one exception is a
    first like on a post whose counter stands at 2147483647: the like row
    is inserted, the update is refused with [integer out of range], and the
    counter stays; this happens for no post below that value.  The primary
    keys and the bound on the counters hold afterwards in every case. *)
Theorem X10_db_likePost_keeps_surplus now id userId db :
  DatabaseStorage.postsKey db →
  DatabaseStorage.likesKey db →
  DatabaseStorage.likesCover db →
  DatabaseStorage.likesFit db →
  let r := Db.run (DatabaseStorage.likePost now id userId) db in
  let full := r.1 = Throw "integer out of range" in
  DatabaseStorage.postsKey r.2
  ∧ DatabaseStorage.likesKey r.2
  ∧ DatabaseStorage.likesFit r.2
  ∧ (¬ full →
     DatabaseStorage.likesCover r.2
     ∧ DatabaseStorage.surplus r.2 <$> Db.posts r.2
       = DatabaseStorage.surplus db <$> Db.posts db)
  ∧ (full →
     Db.posts r.2 = Db.posts db
     ∧ Db.postLikes r.2 = Db.postLikes db ++ [PostLike.mk id userId now]
     ∧ ∃ post, post ∈ Db.posts db ∧ Post.id post = id
               ∧ Post.likes post = Some 2147483647)
  ∧ (∀ post, post ∈ Db.posts db → Post.id post = id →
       orZero (Post.likes post) < 2147483647 → ¬ full).
Proof.
  intros Hpk Hlk Hcover Hfit r full. unfold full, r. clear full r.
  rewrite db_likePost_run.
  destruct (filter (λ p, Post.id p = id) (Db.posts db))
    as [|post rest] eqn:Hf.
  { cbn [fst snd]. split_and!; [done..| | |].
    - done.
    - by case_bool_decide.
    - intros ? _ _ _. by case_bool_decide. }
  assert (Hpost : Post.id post = id ∧ post ∈ Db.posts db).
  { apply (list_elem_of_filter (λ p, Post.id p = id)).
    rewrite Hf. left. }
  destruct Hpost as [Hid Hin].
  assert (Huniq : ∀ p, p ∈ Db.posts db → Post.id p = id → p = post).
  { intros p Hp Hp'. apply (NoDup_fmap_elem_eq Post.id (Db.posts db));
      [done..|congruence]. }
  assert (Hpost0 : 0 ≤ DatabaseStorage.surplus db post).
  { unfold DatabaseStorage.likesCover in Hcover.
    rewrite Forall_forall in Hcover. by apply Hcover. }
  assert (Hpost1 : orZero (Post.likes post) ≤ 2147483647).
  { unfold DatabaseStorage.likesFit in Hfit.
    rewrite Forall_forall in Hfit. by apply Hfit. }
  (* what is left to show once each post row keeps its surplus *)
  assert (Hfinish : ∀ likes rows',
    (∀ i u, (length (filter (Db.isLike i u) rows') ≤ 1)%nat) →
    (∀ i, i ≠ id →
       filter (λ r, PostLike.postId r = i) rows'
       = filter (λ r, PostLike.postId r = i) (Db.postLikes db)) →
    orZero likes
    - Z.of_nat (length (filter (λ r, PostLike.postId r = id) rows'))
    = DatabaseStorage.surplus db post →
    orZero likes ≤ 2147483647 →
    ∀ db'', Db.posts db''
            = (λ p, if bool_decide (Post.id p = id)
                    then withLikes likes p else p) <$> Db.posts db →
            Db.postLikes db'' = rows' →
    DatabaseStorage.postsKey db''
    ∧ DatabaseStorage.likesKey db''
    ∧ DatabaseStorage.likesFit db''
    ∧ DatabaseStorage.likesCover db''
    ∧ DatabaseStorage.surplus db'' <$> Db.posts db''
      = DatabaseStorage.surplus db <$> Db.posts db).
  { intros likes rows' Hkey' Hother Hthis Hmax db'' Hposts Hlikes.
    assert (Hpoint : ∀ p, p ∈ Db.posts db →
              DatabaseStorage.surplus db''
                (if bool_decide (Post.id p = id)
                 then withLikes likes p else p)
              = DatabaseStorage.surplus db p).
    { intros p Hp. case_bool_decide as Hpid.
      - rewrite (Huniq p Hp Hpid). rewrite <-Hthis.
        unfold DatabaseStorage.surplus, DatabaseStorage.likesOf.
        rewrite Hlikes. cbn. by rewrite Hid.
      - unfold DatabaseStorage.surplus, DatabaseStorage.likesOf.
        rewrite Hlikes. by rewrite Hother. }
    split_and!.
    - unfold DatabaseStorage.postsKey. rewrite Hposts.
      by rewrite db_update_posts_ids.
    - unfold DatabaseStorage.likesKey. rewrite Hlikes. done.
    - unfold DatabaseStorage.likesFit. rewrite Hposts.
      rewrite Forall_fmap. apply Forall_forall. intros p Hp. cbn.
      case_bool_decide; [done|].
      unfold DatabaseStorage.likesFit in Hfit.
      rewrite Forall_forall in Hfit. by apply Hfit.
    - unfold DatabaseStorage.likesCover. rewrite Hposts.
      rewrite Forall_fmap. apply Forall_forall. intros p Hp. cbn.
      rewrite Hpoint by done.
      unfold DatabaseStorage.likesCover in Hcover.
      rewrite Forall_forall in Hcover. by apply Hcover.
    - rewrite Hposts, <-list_fmap_compose.
      apply Forall_fmap_ext_1, Forall_forall. intros p Hp. cbn.
      by apply Hpoint. }
  unfold DatabaseStorage.surplus, DatabaseStorage.likesOf in Hpost0, Hfinish.
  rewrite Hid in Hpost0, Hfinish.
  pose proof (Hlk id userId) as Hone.
  pose proof (db_filter_unlike_split id userId (Db.postLikes db)) as Hsplit.
  case_bool_decide as Hliked; cbn beta zeta.
  - rewrite bool_decide_true by (unfold Db.int4; lia). cbn [fst snd].
    destruct (Hfinish (Some (Z.max 0 (orZero (Post.likes post) - 1)))
                (filter (λ r, ¬ Db.isLike id userId r) (Db.postLikes db)))
      with (db'' := Db.with_posts
                      (fmap (λ p, if bool_decide (Post.id p = id)
                                  then withLikes
                                         (Some (Z.max 0 (orZero (Post.likes post) - 1)))
                                         p
                                  else p))
                      (Db.with_postLikes
                         (filter (λ r, ¬ Db.isLike id userId r)) db))
      as (H1 & H2 & H3 & H4 & H5); [| |cbn; lia|cbn; lia|done|done|].
    + intros i u. etrans; [apply db_filter_unlike_length_le|apply Hlk].
    + intros i Hi. by apply db_filter_unlike_other.
    + split_and!; [done..| |]; done.
  - destruct (Db.hasUser userId db).
    2:{ cbn [fst snd]. split_and!; [done..| | |]; done. }
    cbn beta. case_bool_decide as Hroom; cbn [fst snd].
    + destruct (Hfinish (Some (orZero (Post.likes post) + 1))
                  (Db.postLikes db ++ [PostLike.mk id userId now]))
        with (db'' := Db.with_posts
                        (fmap (λ p, if bool_decide (Post.id p = id)
                                    then withLikes
                                           (Some (orZero (Post.likes post) + 1))
                                           p
                                    else p))
                        (Db.with_postLikes
                           (λ rows, rows ++ [PostLike.mk id userId now]) db))
        as (H1 & H2 & H3 & H4 & H5);
        [| | |unfold Db.int4 in Hroom; cbn; lia|done|done|].
      * intros i u. rewrite filter_app, length_app, (filter_cons _ _ []).
        case_decide as Hiu; cbn; [|pose proof (Hlk i u); lia].
        destruct Hiu as [Hi Hu]. cbn in Hi, Hu. subst i u. lia.
      * intros i Hi. rewrite filter_app, (filter_cons _ _ []).
        rewrite decide_False by (cbn; congruence). cbn. by rewrite app_nil_r.
      * rewrite filter_app, length_app, (filter_cons _ _ []).
        rewrite decide_True by done. cbn. lia.
      * split_and!; [done..| |]; done.
    + assert (Hmax : Post.likes post = Some 2147483647).
      { unfold Db.int4 in Hroom. destruct (Post.likes post) as [n|];
          cbn in *; [f_equal|]; lia. }
      split_and!.
      * done.
      * intros i u. cbn. rewrite filter_app, length_app, (filter_cons _ _ []).
        case_decide as Hiu; cbn; [|pose proof (Hlk i u); lia].
        destruct Hiu as [Hi Hu]. cbn in Hi, Hu. subst i u. lia.
      * done.
      * done.
      * intros _. split_and!; [done..|]. by exists post.
      * intros p Hp Hpid Hlt _. rewrite (Huniq p Hp Hpid), Hmax in Hlt.
        cbn in Hlt. lia.
Qed.

Lemma X10_db_likePost_keeps_surplus_witness :
  let now := 1700000000000 in
  let db := DatabaseStorage.seeded now in
  DatabaseStorage.postsKey db
  ∧ DatabaseStorage.likesKey db
  ∧ DatabaseStorage.likesCover db
  ∧ DatabaseStorage.likesFit db
  ∧ DatabaseStorage.surplus
      (Db.run (DatabaseStorage.likePost now 1 2) db).2
    <$> Db.posts (Db.run (DatabaseStorage.likePost now 1 2) db).2
    = [24; 42].
Proof.
  intros now db.
  assert (H1 : DatabaseStorage.postsKey db).
  { apply (bool_decide_unpack (NoDup (Post.id <$> Db.posts db))).
    vm_compute. exact I. }
  assert (H2 : DatabaseStorage.likesKey db).
  { intros i u. vm_compute. lia. }
  assert (H3 : DatabaseStorage.likesCover db).
  { apply (bool_decide_unpack
             (Forall (λ post, 0 ≤ DatabaseStorage.surplus db post)
                (Db.posts db))).
    vm_compute. exact I. }
  assert (H4 : DatabaseStorage.likesFit db).
  { apply (bool_decide_unpack
             (Forall (λ post, orZero (Post.likes post) ≤ 2147483647)
                (Db.posts db))).
    vm_compute. exact I. }
  split; [exact H1|]. split; [exact H2|]. split; [exact H3|].
  split; [exact H4|].
  destruct (X10_db_likePost_keeps_surplus now 1 2 db H1 H2 H3 H4)
    as (_ & _ & _ & H & _).
  destruct H as [_ H].
  { vm_compute. discriminate. }
  etrans; [exact H|]. vm_compute. reflexivity.
Defined.

Lemma db_likePost_step now id userId db post rest :
  filter (λ p, Post.id p = id) (Db.posts db) = post :: rest →
  Db.hasUser userId db = true →
  Db.int4 (if bool_decide
                (0 < length (filter (Db.isLike id userId) (Db.postLikes db)))%nat
           then Z.max 0 (orZero (Post.likes post) - 1)
           else orZero (Post.likes post) + 1) →
  let liked :=
    bool_decide
      (0 < length (filter (Db.isLike id userId) (Db.postLikes db)))%nat in
  let likes' :=
    Some (if liked then Z.max 0 (orZero (Post.likes post) - 1)
          else orZero (Post.likes post) + 1) in
  let r := Db.run (DatabaseStorage.likePost now id userId) db in
  r.1 = Ok (Some (withLikes likes' post))
  ∧ Db.posts r.2
    = (λ p, if bool_decide (Post.id p = id) then withLikes likes' p else p)
      <$> Db.posts db
  ∧ Db.postLikes r.2
    = (if liked
       then filter (λ r, ¬ Db.isLike id userId r) (Db.postLikes db)
       else Db.postLikes db ++ [PostLike.mk id userId now])
  ∧ Db.users r.2 = Db.users db
  ∧ Db.comments r.2 = Db.comments db.
Proof.
  intros Hf Huser Hfit liked likes' r. unfold r, likes', liked.
  rewrite db_likePost_run, Hf. cbn beta zeta. revert Hfit.
  destruct (bool_decide (0 < length _)%nat); intros Hfit.
  - rewrite (bool_decide_true (Db.int4 _)) by exact Hfit.
    cbn [fst snd]. split_and!; [|done..].
    change (Db.posts (Db.with_postLikes ?f db)) with (Db.posts db).
    by rewrite Hf.
  - rewrite Huser. cbn beta.
    rewrite (bool_decide_true (Db.int4 _)) by exact Hfit.
    cbn [fst snd]. split_and!; [|done..].
    change (Db.posts (Db.with_postLikes ?f db)) with (Db.posts db).
    by rewrite Hf.
Qed.

Lemma db_likePost_full now id userId db post rest :
  filter (λ p, Post.id p = id) (Db.posts db) = post :: rest →
  Db.hasUser userId db = true →
  bool_decide (0 < length (filter (Db.isLike id userId) (Db.postLikes db)))%nat
  = false →
  ¬ Db.int4 (orZero (Post.likes post) + 1) →
  Db.run (DatabaseStorage.likePost now id userId) db
  = (Throw "integer out of range",
     Db.with_postLikes (λ rows, rows ++ [PostLike.mk id userId now]) db).
Proof.
  intros Hf Huser Hliked Hfull.
  rewrite db_likePost_run, Hf, Hliked, Huser. cbn beta zeta.
  by rewrite (bool_decide_false (Db.int4 _)) by exact Hfull.
Qed.

(** X12.  In the database, two like toggles in a row by the same user on
    a stored post, each run alone, by a user who has a row in [users],
    where the counter is not below the user's like rows of the post.  When
    the counter that the first toggle writes fits the [integer] column
    (the counter is at most 2147483647, and below it when the user has not
    liked the post), the toggles flip the like status and flip it back,
    and the second one returns the post with the counter it had before the
    first one and leaves that counter in the table; the other tables apart
    from [post_likes] are as before.  When the user has not liked the post
    and its counter is 2147483647, the first toggle inserts the like row
    and then fails with [integer out of range], leaving [posts] as it was,
    and the second toggle removes the like and returns the post with the
    counter 2147483646: the two toggles do not cancel. *)
Theorem X12_db_toggle_twice now1 now2 id userId db post rest :
  filter (λ p, Post.id p = id) (Db.posts db) = post :: rest →
  Db.hasUser userId db = true →
  Z.of_nat (length (filter (Db.isLike id userId) (Db.postLikes db)))
  ≤ orZero (Post.likes post) →
  let liked d :=
    bool_decide
      (0 < length (filter (Db.isLike id userId) (Db.postLikes d)))%nat in
  let r1 := Db.run (DatabaseStorage.likePost now1 id userId) db in
  let r2 := Db.run (DatabaseStorage.likePost now2 id userId) r1.2 in
  let back := withLikes (Some (orZero (Post.likes post))) in
  (orZero (Post.likes post) + (if liked db then 0 else 1) ≤ 2147483647 →
   liked r1.2 = negb (liked db)
   ∧ liked r2.2 = liked db
   ∧ r2.1 = Ok (Some (back post))
   ∧ Db.posts r2.2
     = (λ p, if bool_decide (Post.id p = id) then back p else p)
       <$> Db.posts db
   ∧ Db.users r2.2 = Db.users db
   ∧ Db.comments r2.2 = Db.comments db
   ∧ (rest = [] → is_Some (Post.likes post) → Db.posts r2.2 = Db.posts db))
  ∧ (liked db = false → Post.likes post = Some 2147483647 →
     r1.1 = Throw "integer out of range"
     ∧ Db.posts r1.2 = Db.posts db
     ∧ Db.postLikes r1.2 = Db.postLikes db ++ [PostLike.mk id userId now1]
     ∧ liked r1.2 = true
     ∧ r2.1 = Ok (Some (withLikes (Some 2147483646) post))
     ∧ liked r2.2 = false
     ∧ Db.posts r2.2
       = (λ p, if bool_decide (Post.id p = id)
               then withLikes (Some 2147483646) p else p)
         <$> Db.posts db).
Proof.
  intros Hf Huser Hcov liked r1 r2 back. split.
  - intros Hroom.
  assert (Hupd2 : ∀ a b (rows : list Post.t),
            (λ p, if bool_decide (Post.id p = id) then withLikes b p else p)
            <$> ((λ p, if bool_decide (Post.id p = id)
                       then withLikes a p else p) <$> rows)
            = (λ p, if bool_decide (Post.id p = id)
                    then withLikes b p else p) <$> rows).
  { intros a b rows. rewrite <-list_fmap_compose.
    apply Forall_fmap_ext_1, Forall_forall. intros p _. cbn.
    destruct (decide (Post.id p = id)) as [Hp|Hp].
    - rewrite (bool_decide_true (Post.id p = id)) by done.
      change (Post.id (withLikes a p)) with (Post.id p).
      by rewrite bool_decide_true.
    - by rewrite !(bool_decide_false (Post.id p = id)). }
  assert (Hsame : rest = [] → is_Some (Post.likes post) →
            (λ p, if bool_decide (Post.id p = id) then back p else p)
            <$> Db.posts db = Db.posts db).
  { intros -> [n Hn]. etrans; [|apply list_fmap_id].
    apply Forall_fmap_ext_1, Forall_forall. intros p Hp.
    case_bool_decide as Hpid; [|done].
    assert (Hin : p ∈ filter (λ p, Post.id p = id) (Db.posts db))
      by by apply list_elem_of_filter.
    rewrite Hf in Hin. apply list_elem_of_singleton in Hin as ->.
    unfold back. apply withLikes_same. by rewrite Hn. }
  assert (Hfit1 : Db.int4 (if liked db
                           then Z.max 0 (orZero (Post.likes post) - 1)
                           else orZero (Post.likes post) + 1)).
  { unfold Db.int4. destruct (liked db); lia. }
  destruct (db_likePost_step now1 id userId db post rest Hf Huser Hfit1)
    as (_ & Hp1 & Hl1 & Hu1 & Hc1).
  fold r1 in Hp1, Hl1, Hu1, Hc1. fold (liked db) in Hp1, Hl1.
  set (likes1 := Some (if liked db
                       then Z.max 0 (orZero (Post.likes post) - 1)
                       else orZero (Post.likes post) + 1)) in *.
  assert (Hf1 : filter (λ p, Post.id p = id) (Db.posts r1.2)
                = withLikes likes1 post :: (withLikes likes1 <$> rest)).
  { by rewrite Hp1, filter_update_posts, Hf. }
  assert (Huser1 : Db.hasUser userId r1.2 = true).
  { unfold Db.hasUser. rewrite Hu1. exact Huser. }
  assert (Hflip : liked r1.2 = negb (liked db)).
  { unfold liked at 1. rewrite Hl1.
    destruct (liked db).
    - by rewrite db_likePost_liked_filter.
    - apply bool_decide_true, db_likePost_unliked_filter. }
  assert (Hback : (if liked r1.2
                   then Z.max 0 (orZero (Post.likes
                                           (withLikes likes1 post)) - 1)
                   else orZero (Post.likes (withLikes likes1 post)) + 1)
                  = orZero (Post.likes post)).
  { rewrite Hflip. unfold likes1.
    destruct (liked db) eqn:Hliked; cbn.
    - apply bool_decide_eq_true in Hliked. lia.
    - lia. }
  assert (Hfit2 : Db.int4 (if liked r1.2
                           then Z.max 0 (orZero (Post.likes
                                                   (withLikes likes1 post)) - 1)
                           else orZero (Post.likes (withLikes likes1 post)) + 1)).
  { rewrite Hback. unfold Db.int4. destruct (liked db); lia. }
  destruct (db_likePost_step now2 id userId r1.2 _ _ Hf1 Huser1 Hfit2)
    as (Hr2 & Hp2 & Hl2 & Hu2 & Hc2).
  fold r2 in Hr2, Hp2, Hl2, Hu2, Hc2. fold (liked r1.2) in Hr2, Hp2, Hl2.
  rewrite Hback in Hr2, Hp2.
  split_and!.
  + exact Hflip.
  + unfold liked at 1. rewrite Hl2, Hflip.
    destruct (liked db); cbn [negb].
    * apply bool_decide_true, db_likePost_unliked_filter.
    * by rewrite db_likePost_liked_filter.
  + rewrite Hr2. done.
  + rewrite Hp2, Hp1. apply Hupd2.
  + by rewrite Hu2.
  + by rewrite Hc2.
  + intros Hrest Hsome. rewrite Hp2, Hp1, Hupd2. by apply Hsame.
  - intros Hliked Hmax.
    assert (Hfull : ¬ Db.int4 (orZero (Post.likes post) + 1)).
    { rewrite Hmax. unfold Db.int4. cbn. lia. }
    pose proof (db_likePost_full now1 id userId db post rest Hf Huser
                  Hliked Hfull) as Hr1.
    fold r1 in Hr1.
    assert (Hf1 : filter (λ p, Post.id p = id) (Db.posts r1.2) = post :: rest).
    { by rewrite Hr1. }
    assert (Huser1 : Db.hasUser userId r1.2 = true) by by rewrite Hr1.
    assert (Hliked1 : liked r1.2 = true).
    { unfold liked. rewrite Hr1. cbn [snd].
      apply bool_decide_true, db_likePost_unliked_filter. }
    assert (Hfit2 : Db.int4 (if liked r1.2
                             then Z.max 0 (orZero (Post.likes post) - 1)
                             else orZero (Post.likes post) + 1)).
    { rewrite Hliked1, Hmax. unfold Db.int4. cbn. lia. }
    destruct (db_likePost_step now2 id userId r1.2 _ _ Hf1 Huser1 Hfit2)
      as (Hr2 & Hp2 & Hl2 & _ & _).
    fold r2 in Hr2, Hp2, Hl2. fold (liked r1.2) in Hr2, Hp2, Hl2.
    rewrite Hliked1, Hmax in Hr2, Hp2. rewrite Hliked1 in Hl2.
    split_and!.
    + by rewrite Hr1.
    + by rewrite Hr1.
    + by rewrite Hr1.
    + exact Hliked1.
    + exact Hr2.
    + unfold liked. rewrite Hl2. by rewrite db_likePost_liked_filter.
    + rewrite Hp2. by rewrite Hr1.
Qed.

Lemma X12_db_toggle_twice_witness :
  let now := 1700000000000 in
  let db := DatabaseStorage.seeded now in
  let post :=
    Post.mk 1 "Q2 2023 Marketing Strategy Document"
      "This comprehensive document outlines our marketing strategy for Q2 2023, including target audiences, campaign timelines, budget allocation, and KPIs. Please review and provide feedback by Friday."
      (Some "Q2_Marketing_Strategy.pdf") 2 (now - 7200000)
      (Some 24) (Some 8) in
  filter (λ p, Post.id p = 1) (Db.posts db) = [post]
  ∧ Db.hasUser 3 db = true
  ∧ Post.likes <$> Db.posts db = [Some 24; Some 42]
  ∧ Post.likes
    <$> Db.posts (Db.run (DatabaseStorage.likePost (now + 1) 1 3) db).2
    = [Some 25; Some 42]
  ∧ Db.posts
      (Db.run (DatabaseStorage.likePost (now + 2) 1 3)
         (Db.run (DatabaseStorage.likePost (now + 1) 1 3) db).2).2
    = Db.posts db.
Proof.
  intros now db post.
  assert (H1 : filter (λ p, Post.id p = 1) (Db.posts db) = [post])
    by (vm_compute; reflexivity).
  assert (H2 : Db.hasUser 3 db = true) by (vm_compute; reflexivity).
  assert (H3 : Z.of_nat (length (filter (Db.isLike 1 3) (Db.postLikes db)))
               ≤ orZero (Post.likes post)) by (vm_compute; discriminate).
  split; [exact H1|]. split; [exact H2|].
  split; [vm_compute; reflexivity|]. split; [vm_compute; reflexivity|].
  destruct (X12_db_toggle_twice (now + 1) (now + 2) 1 3 db post [] H1 H2 H3)
    as [H _].
  destruct H as (_ & _ & _ & _ & _ & _ & H).
  { vm_compute. discriminate. }
  apply H; [reflexivity|]. exists 24. reflexivity.
Defined.

(** ** [DatabaseStorage.getAllPosts] *)

Lemma db_postWithAuthorIn_eq now db post :
  DatabaseStorage.postWithAuthorIn now db post
  = match head (filter (λ u, User.id u = Post.userId post) (Db.users db)) with
    | Some author =>
        Ok (PostWithAuthor.mk post author
              (DatabaseStorage.getTimeAgo now (Post.createdAt post)))
    | None =>
        Throw ("User with ID " +:+ pretty (Post.userId post) +:+ " not found")
    end.
Proof. done. Qed.

Lemma db_hasUser_head id db :
  Db.hasUser id db = true
  ↔ is_Some (head (filter (λ u, User.id u = id) (Db.users db))).
Proof.
  unfold Db.hasUser. rewrite bool_decide_eq_true, Exists_exists. split.
  - intros (u & Hin & Hid).
    destruct (filter (λ u, User.id u = id) (Db.users db)) as [|a l] eqn:Hf;
      [|by eexists].
    assert (Hu : u ∈ filter (λ u, User.id u = id) (Db.users db))
      by by apply list_elem_of_filter.
    rewrite Hf in Hu. by apply elem_of_nil in Hu.
  - intros [a Ha].
    destruct (filter (λ u, User.id u = id) (Db.users db)) as [|a' l] eqn:Hf;
      [done|].
    injection Ha as ->. exists a.
    assert (Hu : a ∈ filter (λ u, User.id u = id) (Db.users db))
      by (rewrite Hf; left).
    apply list_elem_of_filter in Hu as [? ?]. done.
Qed.

(** X18.  [DatabaseStorage.getAllPosts] only reads.  It returns a list
    exactly when every post row has an author row; the list then holds
    every post row once, newest first, each with the first user row of its
    author id and the time since its creation.  When some post row has no
    author row, which the schema allows since [posts.user_id] has no
    foreign key, the call throws [User with ID … not found] for such a
    post, whatever the other posts are. *)
Theorem X18_db_getAllPosts now db :
  let r := DatabaseStorage.getAllPosts now db in
  let hasAuthor (p : Post.t) := Db.hasUser (Post.userId p) db = true in
  r.2 = db
  ∧ (Forall hasAuthor (Db.posts db) →
     ∃ l, r.1 = Ok l
          ∧ PostWithAuthor.post <$> l ≡ₚ Db.posts db
          ∧ Sorted (λ a b, PostWithAuthor.createdAt b
                           ≤ PostWithAuthor.createdAt a) l
          ∧ Forall (λ pa,
              head (filter (λ u, User.id u
                                 = Post.userId (PostWithAuthor.post pa))
                      (Db.users db))
              = Some (PostWithAuthor.author pa)
              ∧ PostWithAuthor.timeAgo pa
                = DatabaseStorage.getTimeAgo now
                    (PostWithAuthor.createdAt pa)) l)
  ∧ (¬ Forall hasAuthor (Db.posts db) →
     ∃ p, p ∈ Db.posts db ∧ ¬ hasAuthor p
          ∧ r.1 = Throw ("User with ID " +:+ pretty (Post.userId p)
                         +:+ " not found")).
Proof.
  intros r hasAuthor.
  set (sorted := jsSort (λ a b, Post.createdAt a - Post.createdAt b)
                   (Db.posts db)).
  assert (Hperm : sorted ≡ₚ Db.posts db) by apply jsSort_Permutation.
  assert (Hr : r.1 = (postsWithAuthors ←
                        mapM (DatabaseStorage.postWithAuthorIn now db) sorted;
                      mret (jsSort (λ a b, PostWithAuthor.createdAt b
                                           - PostWithAuthor.createdAt a)
                              postsWithAuthors))) by done.
  split; [done|].
  destruct (mapM (DatabaseStorage.postWithAuthorIn now db) sorted)
    as [l|e] eqn:Hl.
  - apply mapM_Ok_Forall2 in Hl as HF.
    assert (Hpost : PostWithAuthor.post <$> l = sorted).
    { clear -HF. induction HF as [|p pa l l' Hp _ IH]; [done|].
      cbn. rewrite IH. f_equal. rewrite db_postWithAuthorIn_eq in Hp.
      destruct (head _); [|done]. by injection Hp as <-. }
    assert (Hall : Forall hasAuthor sorted).
    { clear -HF. induction HF as [|p pa l l' Hp _ IH]; constructor; [|done].
      unfold hasAuthor. apply db_hasUser_head.
      rewrite db_postWithAuthorIn_eq in Hp. by destruct (head _). }
    split.
    + intros _. eexists. split; [exact Hr|]. cbn. split_and!.
      * by rewrite jsSort_Permutation, Hpost.
      * apply (jsSort_sorted PostWithAuthor.createdAt).
      * rewrite jsSort_Permutation.
        clear -HF. induction HF as [|p pa l l' Hp _ IH]; constructor; [|done].
        rewrite db_postWithAuthorIn_eq in Hp.
        destruct (head (filter _ (Db.users db))) as [a|] eqn:Ha; [|done].
        injection Hp as <-. cbn. by rewrite Ha.
    + intros Hno. destruct Hno. by rewrite <-Hperm.
  - apply mapM_Throw_Exists, Exists_exists in Hl as (p & Hin & Hp).
    rewrite db_postWithAuthorIn_eq in Hp.
    destruct (head (filter (λ u, User.id u = Post.userId p) (Db.users db)))
      as [a|] eqn:Ha; [done|].
    injection Hp as <-.
    assert (Hbad : ¬ hasAuthor p).
    { unfold hasAuthor. intros [a Hsome]%db_hasUser_head. congruence. }
    split.
    + intros Hall. rewrite <-Hperm in Hall.
      by eapply Forall_forall in Hall.
    + intros _. exists p. split_and!; [by rewrite <-Hperm|done|done].
Qed.

Lemma X18_db_getAllPosts_witness :
  let now := 1700000000000 in
  let db := DatabaseStorage.seeded now in
  Forall (λ p, Db.hasUser (Post.userId p) db = true) (Db.posts db)
  ∧ ∃ l, (DatabaseStorage.getAllPosts now db).1 = Ok l
         ∧ PostWithAuthor.post <$> l ≡ₚ Db.posts db.
Proof.
  intros now db.
  assert (Hall : Forall (λ p, Db.hasUser (Post.userId p) db = true)
                   (Db.posts db)) by (repeat constructor).
  split; [exact Hall|].
  destruct (X18_db_getAllPosts now db) as (_ & H & _).
  destruct (H Hall) as (l & Hl & Hp & _).
  exists l. split; [exact Hl|exact Hp].
Defined.

(** * The handlers *)


(** X21.  The handler of [GET /api/posts/:id] only reads and always
    answers: 400 when the id is not a number; 500 when it is a number and
    not an integer, or an integer outside the 32-bit range of the [id]
    column, since the handler passes it to the query unchecked; 404 when it
    is in that range and no post row has it; 500 when the post's author
    has no row; and otherwise 200 with the post, the first user row of its
    author id, the time since its creation, and [hasLiked], which says
    whether the signed-in user has a like row for the post and is [false]
    for a visitor. *)
Theorem X21_getPost_handler now postId user db :
  Db.run (Handlers.getPost now postId user) db
  = (Ok (match postId with
         | Routes.NaN =>
             Handlers.respond 400 (Handlers.Message "Invalid post ID")
         | Routes.NotInteger =>
             Handlers.respond 500 (Handlers.Message "Failed to fetch post")
         | Routes.Integer postId =>
             match head (filter (λ p, Post.id p = postId) (Db.posts db)) with
             | None =>
                 if bool_decide (-2147483648 ≤ postId ≤ 2147483647)
                 then Handlers.respond 404 (Handlers.Message "Post not found")
                 else Handlers.respond 500
                        (Handlers.Message "Failed to fetch post")
             | Some post =>
                 match head (filter (λ u, User.id u = Post.userId post)
                               (Db.users db)) with
                 | None =>
                     Handlers.respond 500
                       (Handlers.Message "Failed to fetch post")
                 | Some author =>
                     Handlers.respond 200
                       (Handlers.PostJson
                          (PostWithAuthor.mk post author
                             (DatabaseStorage.getTimeAgo now
                                (Post.createdAt post)))
                          (match user with
                           | Some reqUser =>
                               bool_decide
                                 (0 < length
                                        (filter
                                           (Db.isLike postId (User.id reqUser))
                                           (Db.postLikes db)))%nat
                           | None => false
                           end))
                 end
             end
         end), db).
Proof.
  unfold Handlers.getPost.
  change (Db.tryCatch ?a ?b) with (tryCatch a b).
  rewrite db_run_tryCatch.
  destruct postId as [|postId|]; [done| |done].
  rewrite db_run_bind, db_getPost_run.
  destruct (filter (λ p, Post.id p = postId) (Db.posts db))
    as [|post rest] eqn:Hf.
  { rewrite (db_postIdOk_missing postId db)
      by by apply db_hasPost_filter_nil.
    cbn [head]. change (Db.int4 postId) with (-2147483648 ≤ postId ≤ 2147483647).
    by case_bool_decide. }
  apply db_hasPost_of_filter in Hf as Hpost.
  rewrite (db_postIdOk_hasPost postId db Hpost). cbn [head].
  destruct (head (filter (λ u, User.id u = Post.userId post) (Db.users db)))
    as [author|]; [|done].
  rewrite db_run_bind.
  destruct user as [reqUser|]; [|done].
  rewrite db_hasUserLikedPost_run.
  by rewrite (db_postIdOk_hasPost postId db Hpost).
Qed.

Lemma db_createPost_run now postData db :
  let post :=
    Post.mk (Db.posts_id_seq db) (InsertPost.title postData)
      (InsertPost.description postData)
      (orNull (InsertPost.fileName postData)) (InsertPost.userId postData)
      now (Some 0) (Some 0) in
  let next := Db.with_posts_id_seq (Db.posts_id_seq db + 1) db in
  Db.run (DatabaseStorage.createPost now postData) db
  = if Db.hasPost (Db.posts_id_seq db) db
    then (Throw "duplicate key value violates unique constraint posts_pkey",
          next)
    else (Ok (Some post), Db.with_posts (λ rows, rows ++ [post]) next).
Proof.
  intros post next. unfold DatabaseStorage.createPost. cbn.
  change (Db.hasPost ?a (Db.with_posts_id_seq _ db)) with (Db.hasPost a db).
  by destruct (Db.hasPost _ db).
Qed.


(** ** The comment handlers *)

Lemma db_withAuthorIn_eq now db comment :
  DatabaseStorage.withAuthorIn now db comment
  = match head (filter (λ u, User.id u = Comment.userId comment)
                  (Db.users db)) with
    | Some author =>
        Ok (CommentWithAuthor.mk comment author
              (DatabaseStorage.getTimeAgo now (Comment.createdAt comment)))
    | None =>
        Throw ("User with ID " +:+ pretty (Comment.userId comment)
               +:+ " not found")
    end.
Proof.
  unfold DatabaseStorage.withAuthorIn, DatabaseStorage.withAuthor. cbn.
  by destruct (head _).
Qed.

Lemma mapM_Ok_of_Forall {A B} (f : A → outcome B) l :
  Forall (λ x, ∃ y, f x = Ok y) l → ∃ l', mapM f l = Ok l'.
Proof.
  induction 1 as [|x l [y Hy] _ [l' Hl']]; [by eexists|].
  cbn. rewrite Hy, Hl'. by eexists.
Qed.

Lemma Forall2_elem_of_l {A B} (P : A → B → Prop) l l' x :
  Forall2 P l l' → x ∈ l → ∃ y, y ∈ l' ∧ P x y.
Proof.
  induction 1 as [|a b l l' Hab _ IH]; [by intros ?%elem_of_nil|].
  intros [->|Hx]%elem_of_cons.
  - exists b. split; [left|done].
  - destruct (IH Hx) as (y & Hy & Hxy). exists y. split; [by right|done].
Qed.

Lemma Forall2_elem_of_r {A B} (P : A → B → Prop) l l' y :
  Forall2 P l l' → y ∈ l' → ∃ x, x ∈ l ∧ P x y.
Proof.
  induction 1 as [|a b l l' Hab _ IH]; [by intros ?%elem_of_nil|].
  intros [->|Hy]%elem_of_cons.
  - exists a. split; [left|done].
  - destruct (IH Hy) as (x & Hx & Hxy). exists x. split; [by right|done].
Qed.

(** What [getCommentsByPostId] gives on the comment rows of a post. *)
Lemma db_getComments_cases now postId db :
  Db.postIdOk postId db = true →
  let stored := filter (λ c, Comment.postId c = postId) (Db.comments db) in
  let hasAuthor (c : Comment.t) := Db.hasUser (Comment.userId c) db = true in
  let r := Db.run (DatabaseStorage.getCommentsByPostId now postId) db in
  r.2 = db
  ∧ ((Forall hasAuthor stored
      ∧ ∃ l, r.1 = Ok l
             ∧ (∀ c', c' ∈ l ↔
                  ∃ c, c ∈ stored
                       ∧ DatabaseStorage.withAuthorIn now db c = Ok c')
             ∧ CommentWithAuthor.comment <$> l ≡ₚ stored
             ∧ Sorted (λ a b, CommentWithAuthor.createdAt b
                              ≤ CommentWithAuthor.createdAt a) l)
     ∨ (¬ Forall hasAuthor stored ∧ ∃ e, r.1 = Throw e)).
Proof.
  intros Hok stored hasAuthor r. unfold r.
  rewrite db_getCommentsByPostId_run, Hok. fold stored. cbn [fst snd].
  split; [done|].
  set (sorted := jsSort (λ a b, Comment.createdAt a - Comment.createdAt b)
                   stored).
  assert (Hperm : sorted ≡ₚ stored) by apply jsSort_Permutation.
  destruct (mapM (DatabaseStorage.withAuthorIn now db) sorted)
    as [l|e] eqn:Hl.
  - left. apply mapM_Ok_Forall2 in Hl as HF.
    assert (Hcomment : CommentWithAuthor.comment <$> l = sorted).
    { clear -HF. induction HF as [|c c' l l' Hc _ IH]; [done|].
      cbn. apply db_withAuthorIn_Ok in Hc. by rewrite Hc, IH. }
    split.
    + rewrite <-Hperm. clear -HF.
      induction HF as [|c c' l l' Hc _ IH]; constructor; [|done].
      unfold hasAuthor. apply db_hasUser_head.
      rewrite db_withAuthorIn_eq in Hc. by destruct (head _).
    + eexists. split; [done|]. cbn. split_and!.
      * intros c'. rewrite jsSort_Permutation. split.
        -- intros Hc'. destruct (Forall2_elem_of_r _ _ _ _ HF Hc')
             as (c & Hc & Hcc'). exists c. by rewrite <-Hperm.
        -- intros (c & Hc & Hcc'). rewrite <-Hperm in Hc.
           destruct (Forall2_elem_of_l _ _ _ _ HF Hc) as (y & Hy & Hcy).
           congruence.
      * by rewrite jsSort_Permutation, Hcomment.
      * apply (jsSort_sorted CommentWithAuthor.createdAt).
  - right. apply mapM_Throw_Exists, Exists_exists in Hl as (c & Hin & Hc).
    split; [|by eexists].
    intros Hall. rewrite <-Hperm in Hall.
    eapply Forall_forall in Hall; [|done].
    apply db_hasUser_head in Hall as [a Ha].
    rewrite db_withAuthorIn_eq, Ha in Hc. done.
Qed.

(** X23.  The handler of [GET /api/posts/:id/comments] only reads and
    always answers: 400 when the id is not a number; 500 when it is a
    number and not an integer, or an integer outside the 32-bit range of
    the [post_id] column (which no post row carries), since the handler
    passes it to the query unchecked; for an id in that range, 200 when
    every comment row of the post has an author row, with these comments,
    each once, newest first, each with the first user row of its author id
    and the time since its creation, and 500 when a comment row of the
    post has no author row.  Whether a post has the id is not looked
    at. *)
Theorem X23_getComments_handler now postId db :
  let r := Db.run (Handlers.getComments now postId) db in
  r.2 = db
  ∧ ∃ resp, r.1 = Ok resp
    ∧ match postId with
      | Routes.NaN =>
          resp = Handlers.respond 400 (Handlers.Message "Invalid post ID")
      | Routes.NotInteger =>
          resp = Handlers.respond 500
                   (Handlers.Message "Failed to fetch comments")
      | Routes.Integer postId =>
          let stored :=
            filter (λ c, Comment.postId c = postId) (Db.comments db) in
          if bool_decide (-2147483648 ≤ postId ≤ 2147483647) then
            if bool_decide
                 (Forall (λ c, Db.hasUser (Comment.userId c) db = true) stored)
            then
              ∃ l, resp = Handlers.respond 200 (Handlers.CommentsJson l)
                   ∧ CommentWithAuthor.comment <$> l ≡ₚ stored
                   ∧ Sorted (λ a b, CommentWithAuthor.createdAt b
                                    ≤ CommentWithAuthor.createdAt a) l
                   ∧ Forall (λ c,
                       head (filter
                               (λ u, User.id u
                                     = Comment.userId
                                         (CommentWithAuthor.comment c))
                               (Db.users db))
                       = Some (CommentWithAuthor.author c)
                       ∧ CommentWithAuthor.timeAgo c
                         = DatabaseStorage.getTimeAgo now
                             (CommentWithAuthor.createdAt c)) l
            else
              resp = Handlers.respond 500
                       (Handlers.Message "Failed to fetch comments")
          else
            (∀ p, p ∈ Db.posts db → Post.id p ≠ postId) →
            resp = Handlers.respond 500
                     (Handlers.Message "Failed to fetch comments")
      end.
Proof.
  intros r.
  assert (Hr : r = Db.run (Handlers.getComments now postId) db) by done.
  clearbody r.
  unfold Handlers.getComments in Hr.
  change (Db.tryCatch ?a ?b) with (tryCatch a b) in Hr.
  rewrite db_run_tryCatch in Hr.
  destruct postId as [|postId|];
    [rewrite Hr; split; [done|by eexists]|
    |rewrite Hr; split; [done|by eexists]].
  rewrite db_run_bind in Hr.
  destruct (decide (-2147483648 ≤ postId ≤ 2147483647)) as [Hrange|Hrange].
  2:{ rewrite db_getCommentsByPostId_run in Hr.
      destruct (Db.postIdOk postId db) eqn:Hok.
      - destruct (mapM _ _) as [l|e]; cbn in Hr; rewrite Hr;
          (split; [done|]); eexists; (split; [done|]);
          cbn zeta; rewrite (bool_decide_false _ Hrange);
          intros Hnone; unfold Db.postIdOk in Hok;
          rewrite (bool_decide_false (Db.int4 postId)) in Hok by exact Hrange;
          apply bool_decide_eq_true, Exists_exists in Hok as (p & Hp & Hid);
          by destruct (Hnone p Hp).
      - cbn in Hr. rewrite Hr. split; [done|]. eexists. split; [done|].
        cbn zeta. by rewrite (bool_decide_false _ Hrange). }
  destruct (db_getComments_cases now postId db (db_postIdOk_int4 _ _ Hrange))
    as [Hdb Hcases].
  destruct (Db.run (DatabaseStorage.getCommentsByPostId now postId) db)
    as [o db'] eqn:Hrun.
  cbn [fst snd] in Hdb, Hcases. subst db'.
  destruct Hcases as [(Hall & l & -> & Hin & Hperm & Hsorted)
                     |(Hno & e & ->)].
  - cbn in Hr. rewrite Hr. split; [done|]. eexists. split; [done|].
    cbn zeta. rewrite (bool_decide_true _ Hrange).
    rewrite bool_decide_true by done.
    exists l. split_and!; [done..|].
    apply Forall_forall. intros c' Hc'.
    apply Hin in Hc' as (c & _ & Hc). rewrite db_withAuthorIn_eq in Hc.
    destruct (head (filter (λ u, User.id u = Comment.userId c) (Db.users db)))
      as [a|] eqn:Ha; [|done].
    injection Hc as <-. cbn. by rewrite Ha.
  - cbn in Hr. rewrite Hr. split; [done|]. eexists. split; [done|].
    cbn zeta. rewrite (bool_decide_true _ Hrange).
    by rewrite bool_decide_false.
Qed.

Lemma db_run_catch_all {A} (job : Db.task A) (resp : A) db :
  ∃ resp', (Db.run (Db.tryCatch job (λ _, mret resp)) db).1 = Ok resp'.
Proof.
  change (Db.tryCatch ?a ?b) with (tryCatch a b).
  rewrite db_run_tryCatch.
  destruct (Db.run job db) as [[a|e] db']; by eexists.
Qed.

Lemma find_unique {A} (f : A → bool) (l : list A) x :
  x ∈ l → f x = true → (∀ y, y ∈ l → f y = true → y = x) →
  List.find f l = Some x.
Proof.
  induction l as [|a l IH]; intros Hin Hfx Huniq.
  - by apply elem_of_nil in Hin.
  - cbn. destruct (f a) eqn:Hfa.
    + f_equal. apply Huniq; [left|done].
    + apply IH; [|done|].
      * apply elem_of_cons in Hin as [->|Hin]; [congruence|done].
      * intros y Hy. apply Huniq. by right.
Qed.



